(** * zaifer-mcp: request signing and response normalisation

    A shallow embedding of the zaifer-mcp gateway (an MCP front end for the
    Zaif exchange REST API) and the properties of its specification.

    The file follows the layout of the Python package:
    - a small prelude for the Python values and library calls the code uses
      (JSON values, [int], [str], [decimal.Decimal], [datetime]);
    - [models/market.py], [models/account.py], [models/trade.py],
      [models/chart.py]: the normalised records with [from_dict]/[to_dict];
    - [api/client.py]: nonce generator, request signer, HTTP client with the
      envelope handling, and the account/trade facades;
    - [tools/account.py], [tools/trade.py], [tools/market.py],
      [tools/chart.py]: the tool handlers;
    - the theorems, one per specification claim, and further properties of
      the code, at the end.

    Modelling conventions.  Python [str] values are byte strings (UTF-8, a
    lone surrogate being kept as the three bytes of its code point); only
    ASCII digits, letters and white space are recognised by the library
    models.  JSON numbers are [int] or binary64 [float] values.
    [datetime.fromtimestamp] and [datetime.timestamp] work in a local zone
    with a fixed UTC offset [tz] in seconds (Asia/Tokyo is [32400]);
    [time.mktime] is given by the environment. *)

From Stdlib Require Import ZArith NArith List String Ascii Bool Lia.
From Stdlib Require Import Floats.SpecFloat.
Import ListNotations.

Set Warnings "-register-all".
Local Open Scope string_scope.
Local Open Scope Z_scope.

(* ================================================================== *)
(** * Python prelude *)
(* ================================================================== *)

(** ** Exceptions and fallible results *)

(** The exception classes that can reach the modelled code.
    [UnicodeEncodeError] is a subclass of [ValueError] (through
    [UnicodeError]); no other class here is a subclass of another:
    [InvalidOperation] derives from [ArithmeticError], as does
    [OverflowError]; [IndexError] and [KeyError] derive from [LookupError];
    [OSError] and [AttributeError] derive from [Exception] directly. *)
Inductive exn_class : Type :=
| ValueError | TypeError | KeyError | AttributeError | IndexError
| InvalidOperation | OverflowError | OSError | UnicodeEncodeError.

Record exn : Type := Exn { exn_cls : exn_class; exn_msg : string }.

Inductive result (A : Type) : Type :=
| Ok (a : A)
| Raise (e : exn).
Arguments Ok {A} a.
Arguments Raise {A} e.

Definition bind {A B : Type} (r : result A) (k : A -> result B) : result B :=
  match r with
  | Ok a => k a
  | Raise e => Raise e
  end.

Declare Scope py_scope.
Delimit Scope py_scope with py.
Notation "x <- e ;; k" := (bind e (fun x => k))
  (at level 61, e at next level, right associativity) : py_scope.
Local Open Scope py_scope.

Definition exn_cls_of {A : Type} (r : result A) : option exn_class :=
  match r with
  | Ok _ => None
  | Raise e => Some (exn_cls e)
  end.

Definition exn_class_eqb (a b : exn_class) : bool :=
  match a, b with
  | ValueError, ValueError | TypeError, TypeError | KeyError, KeyError
  | AttributeError, AttributeError | IndexError, IndexError
  | InvalidOperation, InvalidOperation
  | OverflowError, OverflowError | OSError, OSError
  | UnicodeEncodeError, UnicodeEncodeError => true
  | _, _ => false
  end.

(** [issubclass(c, ValueError)]: what [except ValueError] catches. *)
Definition is_ValueError (c : exn_class) : bool :=
  match c with
  | ValueError | UnicodeEncodeError => true
  | _ => false
  end.

(** ** Characters and digit strings *)

Definition is_digit (c : ascii) : bool :=
  let n := N_of_ascii c in ((48 <=? n) && (n <=? 57))%N.

Definition digit_val (c : ascii) : N := (N_of_ascii c - 48)%N.

Definition digit_char (n : N) : ascii := ascii_of_N (48 + n).

(** White space removed by [str.strip()]: TAB..CR, FS..US and the space. *)
Definition is_space (c : ascii) : bool :=
  let n := N_of_ascii c in
  (((9 <=? n) && (n <=? 13)) || ((28 <=? n) && (n <=? 32)))%N.

(** White space that [int] skips around a literal: TAB..CR and the space,
    but not FS..US. *)
Definition is_c_space (c : ascii) : bool :=
  let n := N_of_ascii c in
  (((9 <=? n) && (n <=? 13)) || (n =? 32))%N.

Definition to_lower (c : ascii) : ascii :=
  let n := N_of_ascii c in
  if ((65 <=? n) && (n <=? 90))%N then ascii_of_N (n + 32) else c.

Fixpoint lower (s : string) : string :=
  match s with
  | EmptyString => EmptyString
  | String c s' => String (to_lower c) (lower s')
  end.

Fixpoint all_digits (s : string) : bool :=
  match s with
  | EmptyString => true
  | String c s' => is_digit c && all_digits s'
  end.

Fixpoint N_of_digits_acc (s : string) (acc : N) : N :=
  match s with
  | EmptyString => acc
  | String c s' => N_of_digits_acc s' (10 * acc + digit_val c)%N
  end.

Definition N_of_digits (s : string) : N := N_of_digits_acc s 0.

Fixpoint str_N_fuel (fuel : nat) (n : N) (acc : string) : string :=
  match fuel with
  | O => acc
  | S k =>
      let acc' := String (digit_char (n mod 10)) acc in
      if (n <? 10)%N then acc' else str_N_fuel k (n / 10)%N acc'
  end.

(** [str(n)] for a natural number: its decimal digits, no leading zero. *)
Definition str_N (n : N) : string :=
  str_N_fuel (S (N.to_nat (N.log2 n))) n "".

(** [str(z)] for a Python [int]. *)
Definition str_Z (z : Z) : string :=
  if z <? 0 then "-" ++ str_N (Z.abs_N z) else str_N (Z.abs_N z).

Fixpoint zeros (n : nat) : string :=
  match n with
  | O => ""
  | S k => String "0" (zeros k)
  end.

(** ["%0<w>d" % n] for [n >= 0]: left-padded with zeros to width [w]. *)
Definition zero_pad (w : nat) (n : N) : string :=
  let s := str_N n in zeros (w - String.length s) ++ s.

Fixpoint take (n : nat) (s : string) : string :=
  match n, s with
  | S k, String c s' => String c (take k s')
  | _, _ => ""
  end.

Fixpoint drop (n : nat) (s : string) : string :=
  match n, s with
  | S k, String _ s' => drop k s'
  | _, _ => s
  end.

(** Longest prefix of decimal digits, and what follows it. *)
Fixpoint span_digits (s : string) : string * string :=
  match s with
  | String c s' =>
      if is_digit c
      then let (d, r) := span_digits s' in (String c d, r)
      else ("", s)
  | EmptyString => ("", "")
  end.

Fixpoint lstrip (s : string) : string :=
  match s with
  | String c s' => if is_space c then lstrip s' else s
  | EmptyString => ""
  end.

(** [rstrip] keeps a character when it is not white space or when something
    that is kept follows it. *)
Fixpoint rstrip (s : string) : string :=
  match s with
  | String c s' =>
      match rstrip s' with
      | EmptyString => if is_space c then "" else String c ""
      | r => String c r
      end
  | EmptyString => ""
  end.

Definition strip (s : string) : string := rstrip (lstrip s).

(** The same with the white space of [int]. *)
Fixpoint int_lstrip (s : string) : string :=
  match s with
  | String c s' => if is_c_space c then int_lstrip s' else s
  | EmptyString => ""
  end.

Fixpoint int_rstrip (s : string) : string :=
  match s with
  | String c s' =>
      match int_rstrip s' with
      | EmptyString => if is_c_space c then "" else String c ""
      | r => String c r
      end
  | EmptyString => ""
  end.

Definition int_strip (s : string) : string := int_rstrip (int_lstrip s).

Fixpoint remove_underscores (s : string) : string :=
  match s with
  | String c s' =>
      if Ascii.eqb c "_" then remove_underscores s'
      else String c (remove_underscores s')
  | EmptyString => ""
  end.

Fixpoint join (sep : string) (l : list string) : string :=
  match l with
  | [] => ""
  | [x] => x
  | x :: l' => x ++ sep ++ join sep l'
  end.

Fixpoint contains_char (c : ascii) (s : string) : bool :=
  match s with
  | String c' s' => Ascii.eqb c c' || contains_char c s'
  | EmptyString => false
  end.

(** ** Binary floating point *)

(** Python's [float] is IEEE-754 binary64; the arithmetic is the Standard
    Library's executable specification of it. *)
Definition float : Type := spec_float.
Definition prec : Z := 53.
Definition emax : Z := 1024.

Definition float_of_Z (z : Z) : float := binary_normalize prec emax z 0 false.
Definition fadd : float -> float -> float := SFadd prec emax.
Definition fsub : float -> float -> float := SFsub prec emax.
Definition fmul : float -> float -> float := SFmul prec emax.
Definition fdiv : float -> float -> float := SFdiv prec emax.

(** [a / b] for two [int]s with [b > 0]: the correctly rounded quotient. *)
Definition int_true_div (a b : Z) : result float :=
  match a with
  | Z0 => Ok (S754_zero false)
  | Zpos p =>
      match fdiv (S754_finite false p 0) (float_of_Z b) with
      | S754_infinity _ =>
          Raise (Exn OverflowError "integer division result too large for a float")
      | q => Ok q
      end
  | Zneg p =>
      match fdiv (S754_finite true p 0) (float_of_Z b) with
      | S754_infinity _ =>
          Raise (Exn OverflowError "integer division result too large for a float")
      | q => Ok q
      end
  end.

(** The integer part of a finite float, towards zero. *)
Definition float_trunc (f : float) : Z :=
  match f with
  | S754_finite s m e =>
      let a := match e with
               | Z0 => Zpos m
               | Zpos p => Zpos m * 2 ^ Zpos p
               | Zneg p => Zpos m / 2 ^ Zpos p
               end in
      if s then - a else a
  | _ => 0
  end.

(** The nearest integer to a finite float, ties to even. *)
Definition float_round_half_even (f : float) : Z :=
  match f with
  | S754_finite s m e =>
      let a := match e with
               | Z0 => Zpos m
               | Zpos p => Zpos m * 2 ^ Zpos p
               | Zneg p =>
                   let q := Zpos m / 2 ^ Zpos p in
                   let r := Zpos m mod 2 ^ Zpos p in
                   if 2 * r <? 2 ^ Zpos p then q
                   else if 2 ^ Zpos p <? 2 * r then q + 1
                   else if Z.even q then q else q + 1
               end in
      if s then - a else a
  | _ => 0
  end.

(** [int(f)] for a [float]. *)
Definition int_of_float (f : float) : result Z :=
  match f with
  | S754_nan => Raise (Exn ValueError "cannot convert float NaN to integer")
  | S754_infinity _ => Raise (Exn OverflowError "cannot convert float infinity to integer")
  | _ => Ok (float_trunc f)
  end.

(** *** [repr] of a [float] *)

(** [d * 10 ^ k] against [b * 2 ^ eb], exactly. *)
Definition cmp_dec_bin (d k b eb : Z) : comparison :=
  (d * 10 ^ Z.max k 0 * 2 ^ Z.max (- eb) 0
   ?= b * 2 ^ Z.max eb 0 * 10 ^ Z.max (- k) 0).

(** The integer part of [m * 2 ^ e / 10 ^ k]. *)
Definition floor_scaled (m e k : Z) : Z :=
  (m * 2 ^ Z.max e 0 * 10 ^ Z.max (- k) 0) / (2 ^ Z.max (- e) 0 * 10 ^ Z.max k 0).

(** For [m * 2 ^ e] below one: minus the least [j] with
    [m * 2 ^ e * 10 ^ j >= 1]. *)
Fixpoint decimal_exponent_below_one (fuel : nat) (m e j : Z) : Z :=
  match fuel with
  | O => - j
  | S f =>
      if 2 ^ (- e) <=? m * 10 ^ j then - j
      else decimal_exponent_below_one f m e (j + 1)
  end.

(** The decimal exponent of [m * 2 ^ e]: the [x] with
    [10 ^ x <= m * 2 ^ e < 10 ^ (x + 1)]. *)
Definition decimal_exponent (m e : Z) : Z :=
  if (0 <=? e) || (2 ^ (- e) <=? m)
  then Z.of_nat (String.length (str_N (Z.to_N (floor_scaled m e 0)))) - 1
  else decimal_exponent_below_one 400 m e 1.

(** The shortest decimal that reads back as the binary64 value
    [m * 2 ^ e] (in canonical form), and among the shortest the closest:
    its digits as an integer [d] and the exponent [k], for the value
    [d * 10 ^ k].  The reals that read back as the value lie between the
    midpoints to its two neighbours, which are included when [m] is even;
    with [n] digits, the two candidates are the multiples of [10 ^ k] around
    the value. *)
Fixpoint shortest_digits (fuel : nat) (n m e e10 : Z) : Z * Z :=
  let k := e10 - (n - 1) in
  match fuel with
  | O => (floor_scaled m e k, k)
  | S f =>
      let lo := 4 * m - (if (m =? 2 ^ 52) && (-1074 <? e) then 1 else 2) in
      let hi := 4 * m + 2 in
      let inside (d : Z) : bool :=
        match cmp_dec_bin d k lo (e - 2), cmp_dec_bin d k hi (e - 2) with
        | Gt, Lt => true
        | Eq, Lt | Gt, Eq => Z.even m
        | _, _ => false
        end in
      let below := floor_scaled m e k in
      let above := below + 1 in
      match inside below, inside above with
      | true, true =>
          match cmp_dec_bin (2 * below + 1) k (8 * m) (e - 2) with
          | Gt => (below, k)
          | Lt => (above, k)
          | Eq => (if Z.even below then below else above, k)
          end
      | true, false => (below, k)
      | false, true => (above, k)
      | false, false => shortest_digits f (n + 1) m e e10
      end
  end.

Fixpoint rstrip_zeros (s : string) : string :=
  match s with
  | EmptyString => ""
  | String c s' =>
      match rstrip_zeros s' with
      | EmptyString => if Ascii.eqb c "0" then "" else String c ""
      | r => String c r
      end
  end.

(** [repr(x)] for a finite [x] that is not zero, from its digits and the
    position of the decimal point: scientific notation when the point is
    more than sixteen places to the right of the first digit or more than
    three to the left. *)
Definition format_repr (digits : string) (decpt : Z) : string :=
  let n := Z.of_nat (String.length digits) in
  if (decpt <=? -4) || (16 <? decpt) then
    let mantissa :=
      match digits with
      | String c EmptyString => digits
      | String c r => String c (String "." r)
      | EmptyString => ""
      end in
    let ex := decpt - 1 in
    mantissa ++ "e" ++ (if ex <? 0 then "-" else "+") ++ zero_pad 2 (Z.abs_N ex)
  else if decpt <=? 0 then "0." ++ zeros (Z.to_nat (- decpt)) ++ digits
  else if n <=? decpt then digits ++ zeros (Z.to_nat (decpt - n)) ++ ".0"
  else take (Z.to_nat decpt) digits ++ "." ++ drop (Z.to_nat decpt) digits.

(** [repr(x)], which is also [str(x)]. *)
Definition float_repr (x : float) : string :=
  match x with
  | S754_nan => "nan"
  | S754_infinity s => if s then "-inf" else "inf"
  | S754_zero s => if s then "-0.0" else "0.0"
  | S754_finite s m e =>
      match binary_normalize prec emax (Zpos m) e false with
      | S754_finite _ m' e' =>
          let '(d, k) := shortest_digits 17 1 (Zpos m') e' (decimal_exponent (Zpos m') e') in
          let all := str_N (Z.to_N d) in
          (if s then "-" else "")
            ++ format_repr (rstrip_zeros all) (Z.of_nat (String.length all) + k)
      | S754_infinity _ => if s then "-inf" else "inf"
      | _ => if s then "-0.0" else "0.0"
      end
  end.

(** ** Text and its UTF-8 encoding *)

(** A Python [str] is kept as the bytes of its UTF-8 encoding.  A [str] can
    also hold a lone surrogate, a code point from U+D800 to U+DFFF
    ([json.loads] makes one from the escape [\ud800], [os.environ] from a
    byte that is not UTF-8), which [str.encode('utf-8')] refuses.  Such a
    code point is kept in the three bytes that the encoding scheme would
    give it, [ED], [A0..BF], [80..BF]. *)
Definition is_continuation (c : ascii) : bool :=
  let n := N_of_ascii c in ((128 <=? n) && (n <=? 191))%N.

(** The surrogate at the head of the text and what follows it. *)
Definition read_surrogate (s : string) : option (N * string) :=
  match s with
  | String a (String b (String c r)) =>
      if ((N_of_ascii a =? 237) && (160 <=? N_of_ascii b) && (N_of_ascii b <=? 191))%N
         && is_continuation c
      then Some (53248 + (N_of_ascii b - 128) * 64 + (N_of_ascii c - 128), r)%N
      else None
  | _ => None
  end.

(** The number of surrogates in a row at the head of the text. *)
Fixpoint surrogate_run (fuel : nat) (s : string) : nat :=
  match fuel with
  | O => O
  | S k =>
      match read_surrogate s with
      | Some (_, r) => S (surrogate_run k r)
      | None => O
      end
  end.

Definition hex_digit (n : N) : ascii :=
  if (n <? 10)%N then ascii_of_N (48 + n) else ascii_of_N (87 + n).

(** [%04x]. *)
Definition hex4 (n : N) : string :=
  String (hex_digit (n / 4096 mod 16))
    (String (hex_digit (n / 256 mod 16))
       (String (hex_digit (n / 16 mod 16))
          (String (hex_digit (n mod 16)) ""))).

(** The first run of surrogates: the index of its first code point, that
    code point and the length of the run.  [pos] counts the code points
    passed so far. *)
Fixpoint first_surrogate (s : string) (pos : nat) : option (nat * N * nat) :=
  match s with
  | EmptyString => None
  | String c s' =>
      match read_surrogate s with
      | Some (cp, _) => Some (pos, cp, surrogate_run (String.length s) s)
      | None => first_surrogate s' (if is_continuation c then pos else S pos)
      end
  end.

(** [s.encode('utf-8')] either succeeds or raises [UnicodeEncodeError] for
    the first run of surrogates. *)
Definition encode_error (s : string) : option (nat * N * nat) := first_surrogate s 0.

Definition encodable (s : string) : bool :=
  match encode_error s with
  | None => true
  | Some _ => false
  end.

Definition unicode_encode_error (where_ : nat * N * nat) : exn :=
  let '(pos, cp, run) := where_ in
  Exn UnicodeEncodeError
    (if (run <=? 1)%nat
     then "'utf-8' codec can't encode character '\u" ++ hex4 cp ++ "' in position "
            ++ str_N (N.of_nat pos) ++ ": surrogates not allowed"
     else "'utf-8' codec can't encode characters in position "
            ++ str_N (N.of_nat pos) ++ "-" ++ str_N (N.of_nat (pos + run - 1))
            ++ ": surrogates not allowed").

Definition utf8_encode (s : string) : result unit :=
  match encode_error s with
  | None => Ok tt
  | Some e => Raise (unicode_encode_error e)
  end.

(** ** JSON values as Python objects *)

(** What [json.loads] produces and the models receive.  A number with a
    fraction or an exponent is a [float] (as are the literals [NaN] and
    [Infinity], which [json.loads] accepts).  A [dict] keeps its items in
    insertion order, with string keys. *)
Inductive pyobj : Type :=
| PNone
| PBool (b : bool)
| PInt (z : Z)
| PFloat (f : float)
| PStr (s : string)
| PList (l : list pyobj)
| PDict (d : list (string * pyobj)).

Definition pydict : Type := list (string * pyobj).

Definition type_name (v : pyobj) : string :=
  match v with
  | PNone => "NoneType"
  | PBool _ => "bool"
  | PInt _ => "int"
  | PFloat _ => "float"
  | PStr _ => "str"
  | PList _ => "list"
  | PDict _ => "dict"
  end.

Definition dquote : ascii := ascii_of_N 34.
Definition backslash : ascii := ascii_of_N 92.

(** One character of [repr(s)] inside the quotes [q]. *)
Definition repr_char (q c : ascii) : string :=
  let n := N_of_ascii c in
  if Ascii.eqb c backslash then String backslash (String backslash "")
  else if Ascii.eqb c q then String backslash (String q "")
  else if (n =? 10)%N then String backslash "n"
  else if (n =? 13)%N then String backslash "r"
  else if (n =? 9)%N then String backslash "t"
  else if ((n <? 32) || (n =? 127))%N
       then String backslash (String "x" (String (hex_digit (n / 16)) (String (hex_digit (n mod 16)) "")))
  else String c "".

(** A lone surrogate is written as its escape; [skip] counts the bytes of
    it that are still to be passed over. *)
Fixpoint repr_body (q : ascii) (s : string) (skip : nat) : string :=
  match s with
  | EmptyString => ""
  | String c s' =>
      match skip with
      | S k => repr_body q s' k
      | O =>
          match read_surrogate s with
          | Some (cp, _) =>
              String backslash (String "u" (hex4 cp)) ++ repr_body q s' 2
          | None => repr_char q c ++ repr_body q s' 0
          end
      end
  end.

(** [repr(s)] of a [str]: single quotes unless the text has a single quote
    and no double quote. *)
Definition repr_str (s : string) : string :=
  let q := if contains_char "'" s && negb (contains_char dquote s)
           then dquote else "'"%char in
  String q (repr_body q s 0 ++ String q "").

Fixpoint py_repr (v : pyobj) : string :=
  match v with
  | PNone => "None"
  | PBool b => if b then "True" else "False"
  | PInt z => str_Z z
  | PFloat f => float_repr f
  | PStr s => repr_str s
  | PList l => "[" ++ join ", " (map py_repr l) ++ "]"
  | PDict d =>
      "{" ++ join ", " (map (fun kv => repr_str (fst kv) ++ ": " ++ py_repr (snd kv)) d) ++ "}"
  end.

(** [str(v)]. *)
Definition py_str (v : pyobj) : string :=
  match v with
  | PStr s => s
  | _ => py_repr v
  end.

(** [v == 0]: Python compares [False] and [0.0] equal to [0]. *)
Definition py_eq_zero (v : pyobj) : bool :=
  match v with
  | PInt z => z =? 0
  | PBool b => negb b
  | PFloat (S754_zero _) => true
  | _ => false
  end.

(** [v == s] for a string literal [s]. *)
Definition py_eq_str (v : pyobj) (s : string) : bool :=
  match v with
  | PStr t => String.eqb t s
  | _ => false
  end.

(** *** Dictionaries *)

Fixpoint dict_get (d : pydict) (k : string) : option pyobj :=
  match d with
  | [] => None
  | (k', v) :: d' => if String.eqb k' k then Some v else dict_get d' k
  end.

(** [d.get(k, default)]. *)
Definition dict_get_default (d : pydict) (k : string) (dflt : pyobj) : pyobj :=
  match dict_get d k with
  | Some v => v
  | None => dflt
  end.

(** [d.get(k)]: [None] when the key is absent. *)
Definition dict_get_none (d : pydict) (k : string) : pyobj :=
  dict_get_default d k PNone.

(** [d[k]]. *)
Definition dict_item (d : pydict) (k : string) : result pyobj :=
  match dict_get d k with
  | Some v => Ok v
  | None => Raise (Exn KeyError (repr_str k))
  end.

(** [k in d]. *)
Definition dict_mem (d : pydict) (k : string) : bool :=
  match dict_get d k with
  | Some _ => true
  | None => false
  end.

(** [d[k] = v]: an existing key keeps its position, a new key goes last. *)
Fixpoint dict_set (d : pydict) (k : string) (v : pyobj) : pydict :=
  match d with
  | [] => [(k, v)]
  | (k', v') :: d' =>
      if String.eqb k' k then (k', v) :: d' else (k', v') :: dict_set d' k v
  end.

Definition attribute_error (v : pyobj) (attr : string) : exn :=
  Exn AttributeError ("'" ++ type_name v ++ "' object has no attribute '" ++ attr ++ "'").

(** The receiver of [data.get(...)] or [data.items()] has to be a [dict]. *)
Definition as_dict (v : pyobj) (attr : string) : result pydict :=
  match v with
  | PDict d => Ok d
  | _ => Raise (attribute_error v attr)
  end.

(** ** [int(...)] *)

(** Digits of an integer literal; single underscores may separate digits. *)
Fixpoint int_digits (s : string) (prev_digit : bool) (acc : N) : option N :=
  match s with
  | EmptyString => if prev_digit then Some acc else None
  | String c s' =>
      if is_digit c then int_digits s' true (10 * acc + digit_val c)%N
      else if Ascii.eqb c "_" && prev_digit then int_digits s' false acc
      else None
  end.

Definition split_sign (s : string) : bool * string :=
  match s with
  | String c r =>
      if Ascii.eqb c "-" then (true, r)
      else if Ascii.eqb c "+" then (false, r)
      else (false, s)
  | EmptyString => (false, s)
  end.

(** [int(s)] for a [str]: white space around the literal is skipped. *)
Definition int_of_str (s : string) : result Z :=
  let (neg, body) := split_sign (int_strip s) in
  match int_digits body false 0 with
  | Some n => Ok (if neg then - Z.of_N n else Z.of_N n)
  | None =>
      Raise (Exn ValueError ("invalid literal for int() with base 10: " ++ repr_str s))
  end.

(** [int(v)]. *)
Definition py_int (v : pyobj) : result Z :=
  match v with
  | PInt z => Ok z
  | PBool b => Ok (if b then 1 else 0)
  | PFloat f => int_of_float f
  | PStr s => int_of_str s
  | _ =>
      Raise (Exn TypeError
               ("int() argument must be a string, a bytes-like object or a real number, not '"
                  ++ type_name v ++ "'"))
  end.

(** ** [decimal.Decimal] *)

(** A decimal is a sign, a coefficient and an exponent, or a special value.
    The payload of a NaN is [0] when it has no diagnostic digits. *)
Inductive Decimal : Type :=
| Finite (sign : bool) (coeff : N) (exp : Z)
| Infinity (sign : bool)
| NaN (sign : bool) (signaling : bool) (payload : N).

Definition signed_Z (neg : bool) (n : N) : Z :=
  if neg then - Z.of_N n else Z.of_N n.

(** The optional exponent part, [E], a sign and digits, up to the end of the
    text. *)
Definition parse_exp (s : string) : option Z :=
  match s with
  | EmptyString => Some 0
  | String c r =>
      if Ascii.eqb (to_lower c) "e" then
        let (neg, ds) := split_sign r in
        match ds with
        | EmptyString => None
        | _ => if all_digits ds then Some (signed_Z neg (N_of_digits ds)) else None
        end
      else None
  end.

(** The numeric alternative of the syntax: integer digits, an optional point
    with fraction digits, an optional exponent; at least one digit before or
    after the point. *)
Definition parse_finite (neg : bool) (s : string) : option Decimal :=
  let (ip, r1) := span_digits s in
  let (fp, r2) :=
    match r1 with
    | String c r => if Ascii.eqb c "." then span_digits r else ("", r1)
    | EmptyString => ("", r1)
    end in
  match ip ++ fp with
  | EmptyString => None
  | ds =>
      match parse_exp r2 with
      | Some e => Some (Finite neg (N_of_digits ds) (e - Z.of_nat (String.length fp)))
      | None => None
      end
  end.

Fixpoint strip_prefix (p s : string) : option string :=
  match p, s with
  | EmptyString, _ => Some s
  | String a p', String b s' => if Ascii.eqb a b then strip_prefix p' s' else None
  | String _ _, EmptyString => None
  end.

(** The special alternatives, [Inf], [Infinity] and [NaN] or [sNaN] with
    diagnostic digits, on lower-cased text. *)
Definition parse_special (neg : bool) (s : string) : option Decimal :=
  if String.eqb s "inf" || String.eqb s "infinity" then Some (Infinity neg)
  else
    match strip_prefix "nan" s with
    | Some ds => if all_digits ds then Some (NaN neg false (N_of_digits ds)) else None
    | None =>
        match strip_prefix "snan" s with
        | Some ds => if all_digits ds then Some (NaN neg true (N_of_digits ds)) else None
        | None => None
        end
    end.

Definition parse_number (s : string) : option Decimal :=
  let (neg, body) := split_sign s in
  match body with
  | String c _ =>
      if is_digit c || Ascii.eqb c "."
      then parse_finite neg body
      else parse_special neg (lower body)
  | EmptyString => None
  end.

Definition conversion_syntax : exn :=
  Exn InvalidOperation "[<class 'decimal.ConversionSyntax'>]".

(** [Decimal(s)] for a [str]: surrounding white space and underscores are
    dropped; text outside the syntax raises [decimal.InvalidOperation]. *)
Definition Decimal_of_str (s : string) : result Decimal :=
  match parse_number (remove_underscores (strip s)) with
  | Some d => Ok d
  | None => Raise conversion_syntax
  end.

(** [Decimal(str(v))], the coercion every monetary field goes through. *)
Definition Decimal_of_obj (v : pyobj) : result Decimal :=
  Decimal_of_str (py_str v).

Definition sign_str (neg : bool) : string := if neg then "-" else "".

(** ["%+d" % z]. *)
Definition signed_str (z : Z) : string :=
  (if z <? 0 then "-" else "+") ++ str_N (Z.abs_N z).

(** [str(d)], scientific notation included ([Decimal.__str__]). *)
Definition Decimal_str (d : Decimal) : string :=
  match d with
  | Infinity s => sign_str s ++ "Infinity"
  | NaN s sig p =>
      sign_str s ++ (if sig then "sNaN" else "NaN")
        ++ (if (p =? 0)%N then "" else str_N p)
  | Finite s c e =>
      let ds := str_N c in
      let len := Z.of_nat (String.length ds) in
      let leftdigits := e + len in
      let dotplace := if (e <=? 0) && (-6 <? leftdigits) then leftdigits else 1 in
      let intpart :=
        if dotplace <=? 0 then "0"
        else if len <=? dotplace then ds ++ zeros (Z.to_nat (dotplace - len))
        else take (Z.to_nat dotplace) ds in
      let fracpart :=
        if dotplace <=? 0 then "." ++ zeros (Z.to_nat (- dotplace)) ++ ds
        else if len <=? dotplace then ""
        else "." ++ drop (Z.to_nat dotplace) ds in
      let exp :=
        if leftdigits =? dotplace then "" else "E" ++ signed_str (leftdigits - dotplace) in
      sign_str s ++ intpart ++ fracpart ++ exp
  end.

(** ** [float(...)] *)

(** A Python [float] as a request parameter: a binary64 value, or the
    result of [float(d)] for a [Decimal], kept as the decimal it was
    converted from. *)
Inductive pyfloat : Type :=
| FloatOf (d : Decimal)
| Float (f : float).

(** [float(d)] for a [Decimal]: only a signalling NaN is refused. *)
Definition float_of_Decimal (d : Decimal) : result pyfloat :=
  match d with
  | NaN _ true _ => Raise (Exn ValueError "cannot convert signaling NaN to float")
  | _ => Ok (FloatOf d)
  end.

(** An argument annotated [Union[int, float, Decimal]]. *)
Inductive number : Type :=
| NInt (z : Z)
| NFloat (f : float)
| NDecimal (d : Decimal).

(** [float(x)]: an [int] beyond the range of binary64 is refused. *)
Definition py_float (x : number) : result pyfloat :=
  match x with
  | NInt z =>
      match float_of_Z z with
      | S754_infinity _ => Raise (Exn OverflowError "int too large to convert to float")
      | f => Ok (Float f)
      end
  | NFloat f => Ok (Float f)
  | NDecimal d => float_of_Decimal d
  end.

(** ** [datetime] *)

(** A naive [datetime]: calendar fields in the proleptic Gregorian calendar. *)
Record datetime : Type := Datetime {
  year : Z; month : Z; day : Z;
  hour : Z; minute : Z; second : Z; microsecond : Z
}.

(** Days since 1970-01-01 to (year, month, day) and back. *)
Definition civil_from_days (z : Z) : Z * Z * Z :=
  let z := z + 719468 in
  let era := z / 146097 in
  let doe := z - era * 146097 in
  let yoe := (doe - doe / 1460 + doe / 36524 - doe / 146096) / 365 in
  let y := yoe + era * 400 in
  let doy := doe - (365 * yoe + yoe / 4 - yoe / 100) in
  let mp := (5 * doy + 2) / 153 in
  let d := doy - (153 * mp + 2) / 5 + 1 in
  let m := if mp <? 10 then mp + 3 else mp - 9 in
  (if m <=? 2 then y + 1 else y, m, d).

Definition days_from_civil (y m d : Z) : Z :=
  let y := if m <=? 2 then y - 1 else y in
  let era := y / 400 in
  let yoe := y - era * 400 in
  let doy := (153 * (if 2 <? m then m - 3 else m + 9) + 2) / 5 + d - 1 in
  let doe := yoe * 365 + yoe / 4 - yoe / 100 + doy in
  era * 146097 + doe - 719468.

Definition is_leap (y : Z) : bool :=
  ((y mod 4 =? 0) && negb (y mod 100 =? 0)) || (y mod 400 =? 0).

Definition days_in_month (y m : Z) : Z :=
  if m =? 2 then (if is_leap y then 29 else 28)
  else if (m =? 4) || (m =? 6) || (m =? 9) || (m =? 11) then 30
  else 31.

(** [localtime(t)] followed by the range check of the calendar fields: the
    year has to fit a C [int] and then lie within 1..9999. *)
Definition local_fields (tz t : Z) : result (Z * Z * Z * Z) :=
  let local := t + tz in
  let '(y, m, d) := civil_from_days (local / 86400) in
  if (y - 1900 <? - 2 ^ 31) || (2 ^ 31 <=? y - 1900) then
    Raise (Exn OSError "[Errno 75] Value too large for defined data type")
  else if (y <? 1) || (9999 <? y) then
    Raise (Exn ValueError ("year " ++ str_Z y ++ " is out of range"))
  else Ok (y, m, d, local mod 86400).

(** The local broken-down time of [t] seconds and [us] microseconds after
    the epoch (64-bit [time_t]), as [datetime.fromtimestamp] builds it.  The
    library also converts the instant one day earlier, to look for a
    repeated hour, and fails when that one is out of range. *)
Definition datetime_from_timet_and_us (tz t us : Z) : result datetime :=
  if (t <? - 2 ^ 63) || (2 ^ 63 <=? t) then
    Raise (Exn OverflowError "timestamp out of range for platform time_t")
  else
    f <- local_fields tz t ;;
    _ <- local_fields tz (t - 86400) ;;
    let '(y, m, d, sod) := f in
    Ok (Datetime y m d (sod / 3600) (sod mod 3600 / 60) (sod mod 60) us).

(** [datetime.fromtimestamp(t)] for an [int]. *)
Definition fromtimestamp (tz t : Z) : result datetime :=
  datetime_from_timet_and_us tz t 0.

(** [datetime.fromtimestamp(f)] for a [float]: the fraction is rounded to
    microseconds, ties to even. *)
Definition fromtimestamp_float (tz : Z) (f : float) : result datetime :=
  match f with
  | S754_nan => Raise (Exn ValueError "Invalid value NaN (not a number)")
  | S754_infinity _ =>
      Raise (Exn OverflowError "timestamp out of range for platform time_t")
  | _ =>
      let intpart := float_trunc f in
      let floatpart := fsub f (float_of_Z intpart) in
      let us := float_round_half_even (fmul floatpart (float_of_Z 1000000)) in
      if 1000000 <=? us then datetime_from_timet_and_us tz (intpart + 1) (us - 1000000)
      else if us <? 0 then datetime_from_timet_and_us tz (intpart - 1) (us + 1000000)
      else datetime_from_timet_and_us tz intpart us
  end.

Definition pad (w : nat) (z : Z) : string := zero_pad w (Z.to_N z).

(** [dt.isoformat()]: the microseconds are printed when they are not zero. *)
Definition isoformat (dt : datetime) : string :=
  pad 4 (year dt) ++ "-" ++ pad 2 (month dt) ++ "-" ++ pad 2 (day dt)
    ++ "T" ++ pad 2 (hour dt) ++ ":" ++ pad 2 (minute dt) ++ ":" ++ pad 2 (second dt)
    ++ (if microsecond dt =? 0 then "" else "." ++ pad 6 (microsecond dt)).

(** Exactly [n] digits at the head of [s]: their value and the rest. *)
Definition read_digits (n : nat) (s : string) : option (Z * string) :=
  let d := take n s in
  if (String.length d =? n)%nat && all_digits d
  then Some (Z.of_N (N_of_digits d), drop n s)
  else None.

Definition read_char (c : ascii) (s : string) : option string :=
  match s with
  | String c' r => if Ascii.eqb c c' then Some r else None
  | EmptyString => None
  end.

Definition invalid_isoformat (s : string) : exn :=
  Exn ValueError ("Invalid isoformat string: " ++ repr_str s).

Definition obind {A B : Type} (o : option A) (k : A -> option B) : option B :=
  match o with
  | Some a => k a
  | None => None
  end.

(** The fraction of a second: at least one digit up to the end of the text;
    digits after the sixth are dropped. *)
Definition parse_fraction (f : string) : option Z :=
  match span_digits f with
  | (String c ds, EmptyString) =>
      Some (Z.of_N (N_of_digits (take 6 (String c ds ++ "000000"))))
  | _ => None
  end.

(** The time part [HH[:MM[:SS[.ffffff]]]]; the fraction follows a point or
    a comma. *)
Definition parse_time (s : string) : option (Z * Z * Z * Z) :=
  obind (read_digits 2 s) (fun '(h, r) =>
  match r with
  | EmptyString => Some (h, 0, 0, 0)
  | _ =>
  obind (read_char ":" r) (fun r =>
  obind (read_digits 2 r) (fun '(mi, r) =>
  match r with
  | EmptyString => Some (h, mi, 0, 0)
  | _ =>
  obind (read_char ":" r) (fun r =>
  obind (read_digits 2 r) (fun '(se, r) =>
  match r with
  | EmptyString => Some (h, mi, se, 0)
  | String c f =>
      if Ascii.eqb c "." || Ascii.eqb c ","
      then obind (parse_fraction f) (fun us => Some (h, mi, se, us))
      else None
  end))
  end))
  end).

(** [datetime.fromisoformat(s)] on the extended format without UTC offset:
    [YYYY-MM-DD], alone or followed by one separator character and the time
    part.  This covers what [isoformat()] produces for naive values.  The
    basic format without separators, week dates and UTC offsets are outside
    the model, which refuses them with [ValueError]. *)
Definition fromisoformat (s : string) : result datetime :=
  let parsed :=
    obind (read_digits 4 s) (fun '(y, r) =>
    obind (read_char "-" r) (fun r =>
    obind (read_digits 2 r) (fun '(m, r) =>
    obind (read_char "-" r) (fun r =>
    obind (read_digits 2 r) (fun '(d, r) =>
    match r with
    | EmptyString => Some (Datetime y m d 0 0 0 0)
    | String _ t =>
        obind (parse_time t) (fun '(h, mi, se, us) => Some (Datetime y m d h mi se us))
    end))))) in
  match parsed with
  | Some dt =>
      if year dt <? 1 then
        Raise (Exn ValueError ("year " ++ str_Z (year dt) ++ " is out of range"))
      else if (month dt <? 1) || (12 <? month dt) then
        Raise (Exn ValueError "month must be in 1..12")
      else if (day dt <? 1) || (days_in_month (year dt) (month dt) <? day dt) then
        Raise (Exn ValueError "day is out of range for month")
      else if 23 <? hour dt then Raise (Exn ValueError "hour must be in 0..23")
      else if 59 <? minute dt then Raise (Exn ValueError "minute must be in 0..59")
      else if 59 <? second dt then Raise (Exn ValueError "second must be in 0..59")
      else Ok dt
  | None => Raise (invalid_isoformat s)
  end.

(** Seconds since the epoch of a naive local value, in a zone whose offset
    from UTC is [tz] seconds throughout. *)
Definition local_to_seconds (tz : Z) (dt : datetime) : Z :=
  days_from_civil (year dt) (month dt) (day dt) * 86400
    + hour dt * 3600 + minute dt * 60 + second dt - tz.

(** [dt.timestamp()] for a naive value: whole seconds plus
    [microsecond / 1e6], in floating point.  The library finds the instant
    by converting three instants to local time (the fields read as UTC, the
    answer, and the answer one day earlier); it fails when one of them is
    out of range. *)
Definition datetime_timestamp (tz : Z) (dt : datetime) : result float :=
  let t := local_to_seconds 0 dt in
  _ <- local_fields tz t ;;
  _ <- local_fields tz (t - tz) ;;
  _ <- local_fields tz (t - tz - 86400) ;;
  Ok (fadd (float_of_Z (local_to_seconds tz dt))
           (fdiv (float_of_Z (microsecond dt)) (float_of_Z 1000000))).

(** [dt.replace(hour=h, minute=m, second=s)]. *)
Definition replace_hms (dt : datetime) (h m s : Z) : datetime :=
  Datetime (year dt) (month dt) (day dt) h m s (microsecond dt).

(** ** Subscripting and iteration *)

(** [v[k]] with a string key. *)
Definition py_getitem (v : pyobj) (k : string) : result pyobj :=
  match v with
  | PDict d => dict_item d k
  | PList _ => Raise (Exn TypeError "list indices must be integers or slices, not str")
  | PStr _ => Raise (Exn TypeError "string indices must be integers, not 'str'")
  | _ => Raise (Exn TypeError ("'" ++ type_name v ++ "' object is not subscriptable"))
  end.

(** [v[i]] with a small literal index. *)
Definition py_getindex (v : pyobj) (i : nat) : result pyobj :=
  match v with
  | PList l =>
      match nth_error l i with
      | Some x => Ok x
      | None => Raise (Exn IndexError "list index out of range")
      end
  | PStr s =>
      match String.get i s with
      | Some c => Ok (PStr (String c ""))
      | None => Raise (Exn IndexError "string index out of range")
      end
  | PDict _ => Raise (Exn KeyError (str_Z (Z.of_nat i)))
  | _ => Raise (Exn TypeError ("'" ++ type_name v ++ "' object is not subscriptable"))
  end.

Fixpoint chars (s : string) : list pyobj :=
  match s with
  | EmptyString => []
  | String c s' => PStr (String c "") :: chars s'
  end.

(** The values a [for] loop over [v] visits. *)
Definition py_iter (v : pyobj) : result (list pyobj) :=
  match v with
  | PList l => Ok l
  | PDict d => Ok (map (fun kv => PStr (fst kv)) d)
  | PStr s => Ok (chars s)
  | _ => Raise (Exn TypeError ("'" ++ type_name v ++ "' object is not iterable"))
  end.

(** A comprehension whose element expression may raise. *)
Fixpoint mapM {A B : Type} (f : A -> result B) (l : list A) : result (list B) :=
  match l with
  | [] => Ok []
  | x :: l' => y <- f x ;; ys <- mapM f l' ;; Ok (y :: ys)
  end.

(** [{k: Decimal(str(v)) for k, v in d.items()}]. *)
Definition decimal_values (d : pydict) : result (list (string * Decimal)) :=
  mapM (fun kv => x <- Decimal_of_obj (snd kv) ;; Ok (fst kv, x)) d.

(** [{k: str(v) for k, v in balances.items()}]. *)
Definition str_values (b : list (string * Decimal)) : pydict :=
  map (fun kv => (fst kv, PStr (Decimal_str (snd kv)))) b.

(* ================================================================== *)
(** * models/market.py *)
(* ================================================================== *)

Module Ticker.

Record t : Type := Build {
  last_price : Decimal; high_price : Decimal; low_price : Decimal;
  ask_price : Decimal; bid_price : Decimal; volume : Decimal
}.

Definition from_dict (data : pyobj) : result t :=
  v <- py_getitem data "last" ;; last <- Decimal_of_obj v ;;
  v <- py_getitem data "high" ;; high <- Decimal_of_obj v ;;
  v <- py_getitem data "low" ;; low <- Decimal_of_obj v ;;
  v <- py_getitem data "ask" ;; ask <- Decimal_of_obj v ;;
  v <- py_getitem data "bid" ;; bid <- Decimal_of_obj v ;;
  v <- py_getitem data "volume" ;; vol <- Decimal_of_obj v ;;
  Ok (Build last high low ask bid vol).

Definition to_dict (self : t) : pyobj :=
  PDict [("last", PStr (Decimal_str (last_price self)));
         ("high", PStr (Decimal_str (high_price self)));
         ("low", PStr (Decimal_str (low_price self)));
         ("ask", PStr (Decimal_str (ask_price self)));
         ("bid", PStr (Decimal_str (bid_price self)));
         ("volume", PStr (Decimal_str (volume self)))].

End Ticker.

Module OrderBook.

Record OrderBookItem : Type := Item { price : Decimal; quantity : Decimal }.

Record t : Type := Build { asks : list OrderBookItem; bids : list OrderBookItem }.

Definition item_of (item : pyobj) : result OrderBookItem :=
  v <- py_getindex item 0 ;; p <- Decimal_of_obj v ;;
  v <- py_getindex item 1 ;; q <- Decimal_of_obj v ;;
  Ok (Item p q).

Definition from_dict (data : pyobj) : result t :=
  d <- as_dict data "get" ;;
  l <- py_iter (dict_get_default d "asks" (PList [])) ;;
  asks <- mapM item_of l ;;
  l <- py_iter (dict_get_default d "bids" (PList [])) ;;
  bids <- mapM item_of l ;;
  Ok (Build asks bids).

Definition item_to (item : OrderBookItem) : pyobj :=
  PList [PStr (Decimal_str (price item)); PStr (Decimal_str (quantity item))].

Definition to_dict (self : t) : pyobj :=
  PDict [("asks", PList (map item_to (asks self)));
         ("bids", PList (map item_to (bids self)))].

End OrderBook.

Module CurrencyPair.

(** Fields copied from the response without conversion hold whatever JSON
    value arrived, hence [pyobj]. *)
Record t : Type := Build {
  currency_pair : pyobj;
  min_quantity : Decimal; quantity_step : Decimal;
  min_price : Decimal; price_step : Decimal;
  price_precision : Z;
  display_name : string
}.

Definition from_dict (data : pyobj) : result t :=
  base_currency_name <- py_getitem data "item_japanese" ;;
  quote_currency_name <- py_getitem data "aux_japanese" ;;
  let display_name := py_str base_currency_name ++ "/" ++ py_str quote_currency_name in
  pair <- py_getitem data "currency_pair" ;;
  v <- py_getitem data "item_unit_min" ;; min_q <- Decimal_of_obj v ;;
  v <- py_getitem data "item_unit_step" ;; q_step <- Decimal_of_obj v ;;
  v <- py_getitem data "aux_unit_min" ;; min_p <- Decimal_of_obj v ;;
  v <- py_getitem data "aux_unit_step" ;; p_step <- Decimal_of_obj v ;;
  v <- py_getitem data "aux_unit_point" ;; point <- py_int v ;;
  Ok (Build pair min_q q_step min_p p_step point display_name).

(** The dictionary handed to the language model, with the record's own
    field names. *)
Definition to_dict (self : t) : pyobj :=
  PDict [("currency_pair", currency_pair self);
         ("min_quantity", PStr (Decimal_str (min_quantity self)));
         ("quantity_step", PStr (Decimal_str (quantity_step self)));
         ("min_price", PStr (Decimal_str (min_price self)));
         ("price_step", PStr (Decimal_str (price_step self)));
         ("price_precision", PInt (price_precision self));
         ("display_name", PStr (display_name self))].

End CurrencyPair.

(* ================================================================== *)
(** * Keyed collections *)
(* ================================================================== *)

(** What a parse that also prints leaves behind: the lines written to
    standard output and the value returned or the exception raised. *)
Record report (A : Type) : Type := Report {
  stdout : list string;
  outcome : result A
}.
Arguments Report {A} stdout outcome.
Arguments stdout {A} r.
Arguments outcome {A} r.

(** [except (ValueError, TypeError, KeyError)]. *)
Definition conversion_guard (c : exn_class) : bool :=
  match c with
  | TypeError | KeyError => true
  | _ => is_ValueError c
  end.

Definition warning (what key : string) (e : exn) : string :=
  "Warning: Failed to parse " ++ what ++ " item " ++ key ++ ": " ++ exn_msg e.

(** The loop shared by [DepositRecords], [WithdrawalRecords] and
    [TradeExecutionList]:
<<
    for key, item in data.items():
        if not isinstance(item, dict):
            continue
        try:
            items.append(<parse key item>)
        except (ValueError, TypeError, KeyError) as e:
            print(f"Warning: Failed to parse <what> item {key}: {e}")
>>
    An exception of another class leaves the loop and the function. *)
Fixpoint keyed_items {A : Type} (what : string)
    (parse : string -> pydict -> result A) (items : pydict) : report (list A) :=
  match items with
  | [] => Report [] (Ok [])
  | (key, PDict item) :: rest =>
      match parse key item with
      | Ok a =>
          let r := keyed_items what parse rest in
          Report (stdout r) (l <- outcome r ;; Ok (a :: l))
      | Raise e =>
          if conversion_guard (exn_cls e) then
            let r := keyed_items what parse rest in
            Report (warning what key e :: stdout r) (outcome r)
          else Report [] (Raise e)
      end
  | (_, _) :: rest => keyed_items what parse rest
  end.

(** [timestamp = item.get('timestamp')], read as an [int] unless it is
    [None] or the empty string. *)
Definition present (v : pyobj) : bool :=
  match v with
  | PNone => false
  | PStr s => negb (String.eqb s "")
  | _ => true
  end.

(* ================================================================== *)
(** * models/account.py *)
(* ================================================================== *)

Module AccountBalance.

Record t : Type := Build {
  balances : list (string * Decimal);
  permissions : pyobj
}.

Definition from_dict (data : pyobj) : result t :=
  d <- as_dict data "get" ;;
  funds <- as_dict (dict_get_default d "funds" (PDict [])) "items" ;;
  balances <- decimal_values funds ;;
  Ok (Build balances (dict_get_none d "rights")).

Definition to_dict (self : t) : pyobj :=
  let result := [("funds", PDict (str_values (balances self)))] in
  match permissions self with
  | PNone => PDict result
  | rights => PDict (dict_set result "rights" rights)
  end.

End AccountBalance.

Module UserProfile.

Record t : Type := Build {
  ranking_id : pyobj; icon_path : pyobj; area_id : Z; nickname : pyobj
}.

Definition from_dict (data : pyobj) : result t :=
  d <- as_dict data "get" ;;
  let nickname := dict_get_default d "ranking_nickname" (PStr "") in
  let icon_path :=
    match dict_get_default d "icon_path" (PStr "") with
    | PNone => PStr ""
    | p => p
    end in
  area <- py_int (dict_get_default d "area_id" (PInt 0)) ;;
  Ok (Build (dict_get_default d "ranking_id" (PStr "")) icon_path area nickname).

Definition to_dict (self : t) : pyobj :=
  PDict [("ranking_id", ranking_id self); ("icon_path", icon_path self);
         ("area_id", PInt (area_id self)); ("nickname", nickname self)].

End UserProfile.

Module DepositRecords.

Record DepositHistoryItem : Type := Item {
  id : Z; timestamp : Z; address : pyobj; amount : Decimal; txid : pyobj
}.

Record t : Type := Build { items : list DepositHistoryItem }.

Definition parse_item (deposit_id : string) (item : pydict) : result DepositHistoryItem :=
  deposit_id_int <- int_of_str deposit_id ;;
  let ts := dict_get_none item "timestamp" in
  timestamp <- (if present ts then py_int ts else Ok 0) ;;
  amount <- Decimal_of_obj (dict_get_default item "amount" (PStr "0")) ;;
  Ok (Item deposit_id_int timestamp
           (dict_get_default item "address" (PStr "")) amount
           (dict_get_default item "txid" (PStr ""))).

Definition from_dict (data : pyobj) : report t :=
  match as_dict data "items" with
  | Raise e => Report [] (Raise e)
  | Ok d =>
      let r := keyed_items "deposit" parse_item d in
      Report (stdout r) (l <- outcome r ;; Ok (Build l))
  end.

Definition item_to (item : DepositHistoryItem) : pyobj :=
  PDict [("id", PInt (id item)); ("timestamp", PInt (timestamp item));
         ("address", address item);
         ("amount", PStr (Decimal_str (amount item)));
         ("txid", txid item)].

Definition to_dict (self : t) : pyobj := PList (map item_to (items self)).

End DepositRecords.

Module WithdrawalRecords.

Record WithdrawalHistoryItem : Type := Item {
  id : Z; timestamp : Z; address : pyobj; amount : Decimal; txid : pyobj;
  fee : Decimal; status : pyobj
}.

Record t : Type := Build { items : list WithdrawalHistoryItem }.

Definition parse_item (withdraw_id : string) (item : pydict) : result WithdrawalHistoryItem :=
  withdraw_id_int <- int_of_str withdraw_id ;;
  let ts := dict_get_none item "timestamp" in
  timestamp <- (if present ts then py_int ts else Ok 0) ;;
  amount <- Decimal_of_obj (dict_get_default item "amount" (PStr "0")) ;;
  fee <- Decimal_of_obj (dict_get_default item "fee" (PStr "0")) ;;
  Ok (Item withdraw_id_int timestamp
           (dict_get_default item "address" (PStr "")) amount
           (dict_get_default item "txid" (PStr "")) fee
           (dict_get_default item "status" (PStr ""))).

Definition from_dict (data : pyobj) : report t :=
  match as_dict data "items" with
  | Raise e => Report [] (Raise e)
  | Ok d =>
      let r := keyed_items "withdraw" parse_item d in
      Report (stdout r) (l <- outcome r ;; Ok (Build l))
  end.

Definition item_to (item : WithdrawalHistoryItem) : pyobj :=
  PDict [("id", PInt (id item)); ("timestamp", PInt (timestamp item));
         ("address", address item);
         ("amount", PStr (Decimal_str (amount item)));
         ("txid", txid item);
         ("fee", PStr (Decimal_str (fee item)));
         ("status", status item)].

Definition to_dict (self : t) : pyobj := PList (map item_to (items self)).

End WithdrawalRecords.

(* ================================================================== *)
(** * models/trade.py *)
(* ================================================================== *)

Module OrderResponse.

Record t : Type := Build {
  filled_amount : Decimal; unfilled_amount : Decimal;
  order_id : Z; balances : list (string * Decimal)
}.

Definition from_dict (data : pyobj) : result t :=
  d <- as_dict data "get" ;;
  funds <- as_dict (dict_get_default d "funds" (PDict [])) "items" ;;
  balances <- decimal_values funds ;;
  received <- Decimal_of_obj (dict_get_default d "received" (PStr "0")) ;;
  remains <- Decimal_of_obj (dict_get_default d "remains" (PStr "0")) ;;
  order_id <- py_int (dict_get_default d "order_id" (PInt 0)) ;;
  Ok (Build received remains order_id balances).

Definition to_dict (self : t) : pyobj :=
  PDict [("received", PStr (Decimal_str (filled_amount self)));
         ("remains", PStr (Decimal_str (unfilled_amount self)));
         ("order_id", PInt (order_id self));
         ("funds", PDict (str_values (balances self)))].

End OrderResponse.

Module CancelOrderResponse.

Record t : Type := Build { order_id : Z; balances : list (string * Decimal) }.

Definition from_dict (data : pyobj) : result t :=
  d <- as_dict data "get" ;;
  funds <- as_dict (dict_get_default d "funds" (PDict [])) "items" ;;
  balances <- decimal_values funds ;;
  order_id <- py_int (dict_get_default d "order_id" (PInt 0)) ;;
  Ok (Build order_id balances).

Definition to_dict (self : t) : pyobj :=
  PDict [("order_id", PInt (order_id self));
         ("funds", PDict (str_values (balances self)))].

End CancelOrderResponse.

Module OpenOrderList.

Record OpenOrder : Type := Order {
  currency_pair : pyobj; order_type : pyobj;
  price : Decimal; quantity : Decimal; order_time : string
}.

(** [open_orders] is a [dict] keyed by the integer order id. *)
Record t : Type := Build { open_orders : list (Z * OpenOrder) }.

(** [s.isdigit()]. *)
Definition isdigit (s : string) : bool :=
  negb (String.eqb s "") && all_digits s.

Fixpoint set_order (d : list (Z * OpenOrder)) (k : Z) (v : OpenOrder)
  : list (Z * OpenOrder) :=
  match d with
  | [] => [(k, v)]
  | (k', v') :: d' =>
      if k' =? k then (k', v) :: d' else (k', v') :: set_order d' k v
  end.

Definition parse_order (tz : Z) (order_data : pyobj) : result OpenOrder :=
  d <- as_dict order_data "get" ;;
  price <- Decimal_of_obj (dict_get_default d "price" (PStr "0")) ;;
  quantity <- Decimal_of_obj (dict_get_default d "amount" (PStr "0")) ;;
  ts <- py_int (dict_get_default d "timestamp" (PInt 0)) ;;
  dt <- fromtimestamp tz ts ;;
  Ok (Order (dict_get_default d "currency_pair" (PStr ""))
            (dict_get_default d "action" (PStr ""))
            price quantity (isoformat dt)).

(** The loop over [data.items()]; nothing is caught here. *)
Fixpoint collect (tz : Z) (items : pydict) (open_orders : list (Z * OpenOrder))
  : result (list (Z * OpenOrder)) :=
  match items with
  | [] => Ok open_orders
  | (order_id_str, order_data) :: rest =>
      if isdigit order_id_str then
        order_id <- int_of_str order_id_str ;;
        o <- parse_order tz order_data ;;
        collect tz rest (set_order open_orders order_id o)
      else collect tz rest open_orders
  end.

Definition from_dict (tz : Z) (data : pyobj) : result t :=
  d <- as_dict data "items" ;;
  open_orders <- collect tz d [] ;;
  Ok (Build open_orders).

Definition item_to (order_item : OpenOrder) : pyobj :=
  PDict [("currency_pair", currency_pair order_item);
         ("action", order_type order_item);
         ("price", PStr (Decimal_str (price order_item)));
         ("amount", PStr (Decimal_str (quantity order_item)));
         ("date", PStr (order_time order_item))].

Definition to_dict (self : t) : pyobj :=
  PDict (fold_left
           (fun result kv => dict_set result (str_Z (fst kv)) (item_to (snd kv)))
           (open_orders self) []).

End OpenOrderList.

Module TradeExecutionList.

Record TradeExecution : Type := Execution {
  execution_id : Z; currency_pair : pyobj; trade_side : string;
  price : Decimal; quantity : Decimal; fee_amount : Decimal;
  market_role : string; execution_time : option string
}.

Record t : Type := Build { executions : list TradeExecution }.

Definition trade_side_of (your_action : pyobj) : string :=
  if py_eq_str your_action "both" then "self"
  else if py_eq_str your_action "bid" then "buy"
  else if py_eq_str your_action "ask" then "sell"
  else "unknown".

Definition market_role_of (action your_action : pyobj) : string :=
  if py_eq_str your_action "both" then "both"
  else if (py_eq_str action "bid" && py_eq_str your_action "bid")
          || (py_eq_str action "ask" && py_eq_str your_action "ask")
  then "taker"
  else if (py_eq_str action "bid" && py_eq_str your_action "ask")
          || (py_eq_str action "ask" && py_eq_str your_action "bid")
  then "maker"
  else "unknown".

Definition parse_item (tz : Z) (trade_id : string) (item : pydict)
  : result TradeExecution :=
  trade_id_int <- int_of_str trade_id ;;
  let timestamp := dict_get_none item "timestamp" in
  execution_time <-
    (if present timestamp
     then ts <- py_int timestamp ;; dt <- fromtimestamp tz ts ;; Ok (Some (isoformat dt))
     else Ok None) ;;
  let action := dict_get_default item "action" (PStr "") in
  let your_action := dict_get_default item "your_action" (PStr "") in
  let trade_side := trade_side_of your_action in
  let market_role := market_role_of action your_action in
  price <- Decimal_of_obj (dict_get_default item "price" (PStr "0")) ;;
  quantity <- Decimal_of_obj (dict_get_default item "amount" (PStr "0")) ;;
  fee <- Decimal_of_obj (dict_get_default item "fee" (PStr "0")) ;;
  Ok (Execution trade_id_int (dict_get_default item "currency_pair" (PStr ""))
                trade_side price quantity fee market_role execution_time).

Definition from_dict (tz : Z) (data : pyobj) : report t :=
  match as_dict data "items" with
  | Raise e => Report [] (Raise e)
  | Ok d =>
      let r := keyed_items "trade" (parse_item tz) d in
      Report (stdout r) (l <- outcome r ;; Ok (Build l))
  end.

Definition item_to (item : TradeExecution) : pyobj :=
  let trade_dict :=
    [("id", PInt (execution_id item));
     ("currency_pair", currency_pair item);
     ("action", PStr (trade_side item));
     ("price", PStr (Decimal_str (price item)));
     ("amount", PStr (Decimal_str (quantity item)));
     ("fee", PStr (Decimal_str (fee_amount item)));
     ("your_action", PStr (market_role item))] in
  match execution_time item with
  | Some ts => PDict (dict_set trade_dict "timestamp" (PStr ts))
  | None => PDict trade_dict
  end.

Definition to_dict (self : t) : pyobj := PList (map item_to (executions self)).

End TradeExecutionList.

(* ================================================================== *)
(** * models/chart.py *)
(* ================================================================== *)

Module PriceChartData.

Record CandlestickData : Type := Candle {
  timestamp : string;
  open_price : Decimal; high_price : Decimal; low_price : Decimal;
  close_price : Decimal; volume : Decimal
}.

Record t : Type := Build {
  currency_pair : string; timeframe : string;
  start_date : string; end_date : string;
  candlesticks : list CandlestickData;
  data_count : Z
}.

Definition timeframe_names : list (string * string) :=
  [("1", "1分足"); ("5", "5分足"); ("15", "15分足"); ("30", "30分足");
   ("60", "1時間足"); ("240", "4時間足"); ("480", "8時間足");
   ("720", "12時間足"); ("D", "日足"); ("W", "週足")].

Fixpoint lookup (l : list (string * string)) (k : string) : option string :=
  match l with
  | [] => None
  | (k', v) :: l' => if String.eqb k' k then Some v else lookup l' k
  end.

(** [datetime.fromtimestamp(timestamp_ms / 1000).isoformat()]. *)
Definition timestamp_iso (tz timestamp_ms : Z) : result string :=
  f <- int_true_div timestamp_ms 1000 ;;
  dt <- fromtimestamp_float tz f ;;
  Ok (isoformat dt).

Definition candle_of (tz : Z) (item : pyobj) : result CandlestickData :=
  d <- as_dict item "get" ;;
  timestamp_ms <- py_int (dict_get_default d "time" (PInt 0)) ;;
  iso <- timestamp_iso tz timestamp_ms ;;
  o <- Decimal_of_obj (dict_get_default d "open" (PStr "0")) ;;
  h <- Decimal_of_obj (dict_get_default d "high" (PStr "0")) ;;
  l <- Decimal_of_obj (dict_get_default d "low" (PStr "0")) ;;
  c <- Decimal_of_obj (dict_get_default d "close" (PStr "0")) ;;
  v <- Decimal_of_obj (dict_get_default d "volume" (PStr "0")) ;;
  Ok (Candle iso o h l c v).

Definition from_dict (tz : Z) (data : pyobj)
    (currency_pair timeframe start_date end_date : string) : result t :=
  d <- as_dict data "get" ;;
  items <- py_iter (dict_get_default d "ohlc_data" (PList [])) ;;
  candlesticks <- mapM (candle_of tz) items ;;
  let timeframe_display :=
    match lookup timeframe_names timeframe with
    | Some name => name
    | None => timeframe ++ "足"
    end in
  data_count <- py_int (dict_get_default d "data_count" (PInt 0)) ;;
  Ok (Build currency_pair timeframe_display start_date end_date
            candlesticks data_count).

(** [int(datetime.fromisoformat(ts).timestamp() * 1000)]. *)
Definition time_ms (tz : Z) (ts : string) : result Z :=
  dt <- fromisoformat ts ;;
  f <- datetime_timestamp tz dt ;;
  int_of_float (fmul f (float_of_Z 1000)).

Definition candle_to (tz : Z) (item : CandlestickData) : result pyobj :=
  ms <- time_ms tz (timestamp item) ;;
  Ok (PDict [("time", PInt ms);
             ("open", PStr (Decimal_str (open_price item)));
             ("high", PStr (Decimal_str (high_price item)));
             ("low", PStr (Decimal_str (low_price item)));
             ("close", PStr (Decimal_str (close_price item)));
             ("volume", PStr (Decimal_str (volume item)))]).

Definition to_dict (tz : Z) (self : t) : result pyobj :=
  ohlc <- mapM (candle_to tz) (candlesticks self) ;;
  Ok (PDict [("ohlc_data", PList ohlc); ("data_count", PInt (data_count self))]).

End PriceChartData.

(* ================================================================== *)
(** * Decimal ordering *)
(* ================================================================== *)

(** The coefficient of a finite decimal rescaled to the exponent [e0], which
    is at most its own. *)
Definition scaled (s : bool) (c : N) (e e0 : Z) : Z :=
  signed_Z s c * 10 ^ (e - e0).

(** [d1 < d2] on decimals; a NaN is below and above nothing. *)
Definition Decimal_ltb (d1 d2 : Decimal) : bool :=
  match d1, d2 with
  | Finite s1 c1 e1, Finite s2 c2 e2 =>
      let e0 := Z.min e1 e2 in scaled s1 c1 e1 e0 <? scaled s2 c2 e2 e0
  | Infinity true, Finite _ _ _ => true
  | Infinity true, Infinity false => true
  | Finite _ _ _, Infinity false => true
  | _, _ => false
  end.

Definition Decimal_lt (d1 d2 : Decimal) : Prop := Decimal_ltb d1 d2 = true.

(* ================================================================== *)
(** * api/client.py *)
(* ================================================================== *)

(** ** The process and its surroundings *)

(** Request parameters: what the facades put into the [params] dictionary. *)
Inductive pval : Type :=
| VStr (s : string)
| VInt (z : Z)
| VBool (b : bool)
| VFloat (f : pyfloat).

Definition params : Type := list (string * pval).

Fixpoint params_set (d : params) (k : string) (v : pval) : params :=
  match d with
  | [] => [(k, v)]
  | (k', v') :: d' =>
      if String.eqb k' k then (k', v) :: d' else (k', v') :: params_set d' k v
  end.

(** The text [urlencode(params)] and the digest
    [hmac.new(secret, text, sha512).hexdigest()], kept symbolic. *)
Inductive form : Type := UrlEncoded (items : params).

Inductive header_value : Type :=
| HStr (s : string)
| HmacSha512Hex (secret : string) (message : form).

(** [urlencode(params)] quotes each key and each value in turn; a [str] is
    encoded as UTF-8 first, which fails on a lone surrogate.  Numbers and
    booleans are written with [str], which is ASCII. *)
Fixpoint urlencode_check (d : params) : result unit :=
  match d with
  | [] => Ok tt
  | (k, v) :: d' =>
      _ <- utf8_encode k ;;
      _ <- (match v with
            | VStr s => utf8_encode s
            | _ => Ok tt
            end) ;;
      urlencode_check d'
  end.

Definition urlencode (d : params) : result form :=
  _ <- urlencode_check d ;; Ok (UrlEncoded d).

(** [hmac.new(secret.encode("utf-8"), text.encode("utf-8"),
    hashlib.sha512).hexdigest()]; the text is ASCII. *)
Definition hmac_sha512_hex (secret : string) (text : form) : result header_value :=
  _ <- utf8_encode secret ;; Ok (HmacSha512Hex secret text).

Definition headers : Type := list (string * header_value).

Fixpoint headers_set (h : headers) (k : string) (v : header_value) : headers :=
  match h with
  | [] => [(k, v)]
  | (k', v') :: h' =>
      if String.eqb k' k then (k', v) :: h' else (k', v') :: headers_set h' k v
  end.

(** [h.update(other)]. *)
Definition headers_update (h other : headers) : headers :=
  fold_left (fun acc kv => headers_set acc (fst kv) (snd kv)) other h.

(** One [requests.post(url, data=..., headers=...)]. *)
Record request : Type := Request {
  rq_url : string; rq_data : form; rq_headers : headers
}.

(** What the HTTP exchange comes back with. *)
Inductive response : Type :=
| Json (body : pyobj)              (* 2xx, the body decodes *)
| NotJson (msg : string)           (* 2xx, [response.json()] fails *)
| HttpError (status_code : Z)      (* [raise_for_status()] fails *)
| ConnectionError
| Timeout
| RequestException (msg : string)  (* another exception of [requests] *)
| Failure (e : exn).               (* an exception of another family *)

(** The surroundings of the process: the offset [tz] of the local zone that
    [datetime.fromtimestamp] and [datetime.timestamp] apply; [time.mktime],
    which the C library computes by the rules of the local zone, for
    broken-down local times without a daylight-saving flag; what successive
    [datetime.now()] calls read; and the remote end of the transport. *)
Record env : Type := Env {
  tz : Z;
  mktime : datetime -> Z;
  clock : nat -> datetime;
  transport : request -> response
}.

(** The mutable state: the dictionaries that are passed by reference, the
    number of clock readings taken, the requests handed to the transport and
    the lines printed. *)
Record world : Type := World {
  heap : list params;
  reads : nat;
  sent : list request;
  printed : list string
}.

Definition M (A : Type) : Type := world -> result A * world.

Definition ret {A : Type} (a : A) : M A := fun w => (Ok a, w).

Definition raise {A : Type} (e : exn) : M A := fun w => (Raise e, w).

Definition mbind {A B : Type} (m : M A) (k : A -> M B) : M B :=
  fun w =>
    match m w with
    | (Ok a, w') => k a w'
    | (Raise e, w') => (Raise e, w')
    end.

Notation "x <~ e ;; k" := (mbind e (fun x => k))
  (at level 61, e at next level, right associativity) : py_scope.

Definition lift {A : Type} (r : result A) : M A := fun w => (r, w).

(** A new dictionary object; its address is returned. *)
Definition new_dict (d : params) : M nat :=
  fun w => (Ok (List.length (heap w)),
            World (heap w ++ [d]) (reads w) (sent w) (printed w)).

Definition load (r : nat) : M params :=
  fun w => (Ok (nth r (heap w) []), w).

Fixpoint set_nth (l : list params) (r : nat) (d : params) : list params :=
  match l, r with
  | [], _ => []
  | _ :: l', O => d :: l'
  | x :: l', S r' => x :: set_nth l' r' d
  end.

Definition store (r : nat) (d : params) : M unit :=
  fun w => (Ok tt, World (set_nth (heap w) r d) (reads w) (sent w) (printed w)).

(** [datetime.now()]. *)
Definition datetime_now (E : env) : M datetime :=
  fun w => (Ok (clock E (reads w)),
            World (heap w) (S (reads w)) (sent w) (printed w)).

(** [requests.post(...)]: the request reaches the transport. *)
Definition requests_post (E : env) (rq : request) : M response :=
  fun w => (Ok (transport E rq),
            World (heap w) (reads w) (sent w ++ [rq]) (printed w)).

(** A parse that prints: its lines go to standard output. *)
Definition run_report {A : Type} (r : report A) : M A :=
  fun w => (outcome r,
            World (heap w) (reads w) (sent w) (printed w ++ stdout r)).

(** [not params] for an optional dictionary reference. *)
Definition fresh_if_empty (params : option nat) : M nat :=
  match params with
  | None => new_dict []
  | Some r =>
      d <~ load r ;;
      match d with
      | [] => new_dict []
      | _ => ret r
      end
  end.

Module NonceGenerator.

(** The nonce for the clock reading [now]:
    [Decimal(str(int(time.mktime(now.timetuple()))) + "." +
    "{0:06d}".format(now.microsecond))]. *)
Definition generate_at (mktime : datetime -> Z) (now : datetime) : result Decimal :=
  let datetime_part := str_Z (mktime now) in
  let second_part := pad 6 (microsecond now) in
  Decimal_of_str (datetime_part ++ "." ++ second_part).

Definition generate (E : env) : M Decimal :=
  now <~ datetime_now E ;;
  lift (generate_at (mktime E) now).

End NonceGenerator.

Module ApiKeyAuthProvider.

Record t : Type := Build { api_key : string; api_secret : string }.

(** [params] is a reference: the nonce is stored into the dictionary the
    caller passed, unless that one is missing or empty. *)
Definition get_auth_headers (E : env) (self : t) (params : option nat) : M headers :=
  params <~ fresh_if_empty params ;;
  nonce <~ NonceGenerator.generate E ;;
  d <~ load params ;;
  _ <~ store params (params_set d "nonce" (VStr (Decimal_str nonce))) ;;
  d <~ load params ;;
  encoded_params <~ lift (urlencode d) ;;
  signature <~ lift (hmac_sha512_hex (api_secret self) encoded_params) ;;
  ret [("key", HStr (api_key self)); ("sign", signature)].

End ApiKeyAuthProvider.

Definition value_error (msg : string) : exn := Exn ValueError msg.

Module HttpClient.

Definition missing_credentials : exn :=
  value_error "認証情報が設定されていません。ZAIF_API_KEYとZAIF_API_SECRETを環境変数に設定してください。".

(** The envelope: [success == 0] is a failure carrying [error]; otherwise
    the [return] member when there is one, else the whole body. *)
Definition unwrap (body : pyobj) : result pyobj :=
  d <- as_dict body "get" ;;
  if py_eq_zero (dict_get_none d "success") then
    Raise (value_error
             ("API error: " ++ py_str (dict_get_default d "error" (PStr "Unknown error"))))
  else if dict_mem d "return" then dict_item d "return"
  else Ok body.

(** The [except] clauses of [post]: a [ValueError] passes, anything else
    is wrapped. *)
Definition handled (r : result pyobj) : result pyobj :=
  match r with
  | Ok v => Ok v
  | Raise e =>
      if is_ValueError (exn_cls e) then Raise e
      else Raise (value_error ("Unexpected error: " ++ exn_msg e))
  end.

Definition receive (resp : response) : result pyobj :=
  match resp with
  | Json body => handled (unwrap body)
  | NotJson msg => Raise (value_error ("Request error: " ++ msg))
  | HttpError code => Raise (value_error ("HTTP error: " ++ str_Z code))
  | ConnectionError =>
      Raise (value_error "Connection error: Could not connect to server")
  | Timeout => Raise (value_error "Timeout error: Request timed out")
  | RequestException msg => Raise (value_error ("Request error: " ++ msg))
  | Failure e => handled (Raise e)
  end.

Definition post (E : env) (auth_provider : option ApiKeyAuthProvider.t)
    (url : string) (params : option nat) (hdrs : option headers) : M pyobj :=
  match auth_provider with
  | None => raise missing_credentials
  | Some provider =>
      params <~ fresh_if_empty params ;;
      auth_headers <~ ApiKeyAuthProvider.get_auth_headers E provider (Some params) ;;
      let hdrs :=
        match hdrs with
        | Some (x :: h) => headers_update (x :: h) auth_headers
        | _ => auth_headers
        end in
      d <~ load params ;;
      encoded_params <~ lift (urlencode d) ;;
      resp <~ requests_post E (Request url encoded_params hdrs) ;;
      lift (receive resp)
  end.

End HttpClient.

(** [if x is not None: params[k] = x]. *)
Definition set_some (k : string) (x : option Z) (d : params) : params :=
  match x with
  | Some z => params_set d k (VInt z)
  | None => d
  end.

(** [if currency_pair: params["currency_pair"] = currency_pair]. *)
Definition set_pair (currency_pair : option string) (d : params) : params :=
  match currency_pair with
  | Some (String c s) => params_set d "currency_pair" (VStr (String c s))
  | _ => d
  end.

(** The facade object: the shared HTTP client (its credentials) and the base
    URL of the private API. *)
Record ZaifApi : Type := Api {
  auth_provider : option ApiKeyAuthProvider.t;
  trade_api_url : string
}.

(** [ZaifApi(api_key, api_secret)]: credentials exist when both are given
    and not empty. *)
Definition ZaifApi_init (api_key api_secret : option string) : ZaifApi :=
  match api_key, api_secret with
  | Some (String a k), Some (String b s) =>
      Api (Some (ApiKeyAuthProvider.Build (String a k) (String b s)))
          "https://api.zaif.jp/tapi"
  | _, _ => Api None "https://api.zaif.jp/tapi"
  end.

(** What every facade method ends with: the parameter dictionary it has
    built is handed to [self.http.post(self.base_url, params)]. *)
Definition facade_post (E : env) (api : ZaifApi) (d : params) : M pyobj :=
  params <~ new_dict d ;;
  HttpClient.post E (auth_provider api) (trade_api_url api) (Some params) None.

Module AccountApi.

Definition get_info (E : env) (api : ZaifApi) : M AccountBalance.t :=
  data <~ facade_post E api [("method", VStr "get_info")] ;;
  lift (AccountBalance.from_dict data).

Definition get_personal_info (E : env) (api : ZaifApi) : M UserProfile.t :=
  data <~ facade_post E api [("method", VStr "get_personal_info")] ;;
  lift (UserProfile.from_dict data).

Definition get_deposit_history (E : env) (api : ZaifApi) (currency : string)
    (count from_timestamp end_timestamp : option Z) : M DepositRecords.t :=
  let params :=
    params_set
      (set_some "end" end_timestamp
         (set_some "from" from_timestamp
            (set_some "count" count [("currency", VStr currency)])))
      "method" (VStr "deposit_history") in
  data <~ facade_post E api params ;;
  run_report (DepositRecords.from_dict data).

Definition get_withdraw_history (E : env) (api : ZaifApi) (currency : string)
    (count from_timestamp end_timestamp : option Z) : M WithdrawalRecords.t :=
  let params :=
    params_set
      (set_some "end" end_timestamp
         (set_some "from" from_timestamp
            (set_some "count" count [("currency", VStr currency)])))
      "method" (VStr "withdraw_history") in
  data <~ facade_post E api params ;;
  run_report (WithdrawalRecords.from_dict data).

End AccountApi.

Module TradeApi.

(** Price and amount become floats while the parameter dictionary is
    built, before the request is handed to the HTTP client. *)
Definition open_order (E : env) (api : ZaifApi) (currency_pair action : string)
    (price amount : number) : M OrderResponse.t :=
  p <~ lift (py_float price) ;;
  a <~ lift (py_float amount) ;;
  let params :=
    params_set
      [("currency_pair", VStr currency_pair); ("action", VStr action);
       ("price", VFloat p); ("amount", VFloat a)]
      "method" (VStr "trade") in
  data <~ facade_post E api params ;;
  lift (OrderResponse.from_dict data).

Definition cancel_order (E : env) (api : ZaifApi) (order_id : Z)
    (currency_pair : option string) (is_token : option bool)
  : M CancelOrderResponse.t :=
  let params := set_pair currency_pair [("order_id", VInt order_id)] in
  let params :=
    match is_token with
    | Some b => params_set params "is_token" (VBool b)
    | None => params
    end in
  data <~ facade_post E api (params_set params "method" (VStr "cancel_order")) ;;
  lift (CancelOrderResponse.from_dict data).

Definition get_active_orders (E : env) (api : ZaifApi)
    (currency_pair : option string) : M OpenOrderList.t :=
  let params := params_set (set_pair currency_pair []) "method" (VStr "active_orders") in
  data <~ facade_post E api params ;;
  lift (OpenOrderList.from_dict (tz E) data).

Definition get_trade_history (E : env) (api : ZaifApi)
    (currency_pair : option string) (count from_timestamp end_timestamp : option Z)
  : M TradeExecutionList.t :=
  let params :=
    params_set
      (set_some "end" end_timestamp
         (set_some "since" from_timestamp
            (set_some "count" count (set_pair currency_pair []))))
      "method" (VStr "trade_history") in
  data <~ facade_post E api params ;;
  run_report (TradeExecutionList.from_dict (tz E) data).

End TradeApi.

(* ================================================================== *)
(** * tools/account.py and tools/trade.py *)
(* ================================================================== *)

Module Tools.

Definition missing_credentials : exn :=
  value_error "認証情報が設定されていません。APIキーとシークレットを.envファイルに設定してください。".

Definition unsupported_pair (currency_pair : string) : exn :=
  value_error ("サポートされていない通貨ペアです: " ++ currency_pair).

(** [x in ["btc_jpy", "eth_jpy", "xym_jpy"]]. *)
Definition supported (x : pyobj) : bool :=
  py_eq_str x "btc_jpy" || py_eq_str x "eth_jpy" || py_eq_str x "xym_jpy".

(** [if not api.<facade>.http.auth_provider: raise ValueError(...)]. *)
Definition require_credentials (api : ZaifApi) : M unit :=
  match auth_provider api with
  | None => raise missing_credentials
  | Some _ => ret tt
  end.

Definition get_account_balance (E : env) (api : ZaifApi) : M AccountBalance.t :=
  _ <~ require_credentials api ;;
  AccountApi.get_info E api.

(** The [float] arguments are given by the decimal that [str(price)]
    spells, which is what [Decimal(str(price))] reads back. *)
Definition place_order (E : env) (api : ZaifApi) (currency_pair order_type : string)
    (price quantity : Decimal) : M OrderResponse.t :=
  _ <~ require_credentials api ;;
  TradeApi.open_order E api currency_pair order_type
    (NDecimal price) (NDecimal quantity).

Definition cancel_order (E : env) (api : ZaifApi) (order_id : Z)
    (currency_pair : option string) : M CancelOrderResponse.t :=
  _ <~ require_credentials api ;;
  TradeApi.cancel_order E api order_id currency_pair None.

Definition get_open_orders (E : env) (api : ZaifApi)
    (currency_pair : option string) : M OpenOrderList.t :=
  _ <~ require_credentials api ;;
  orders <~ TradeApi.get_active_orders E api currency_pair ;;
  ret (OpenOrderList.Build
         (filter (fun kv => supported (OpenOrderList.currency_pair (snd kv)))
                 (OpenOrderList.open_orders orders))).

(** [int(datetime.fromisoformat(start_date).timestamp())]; an empty string
    gives [None]. *)
Definition from_timestamp_of (tz : Z) (start_date : string) : result (option Z) :=
  match start_date with
  | EmptyString => Ok None
  | _ =>
      dt <- fromisoformat start_date ;;
      f <- datetime_timestamp tz dt ;;
      t <- int_of_float f ;;
      Ok (Some t)
  end.

(** The same at 23:59:59 of the given day. *)
Definition end_timestamp_of (tz : Z) (end_date : string) : result (option Z) :=
  match end_date with
  | EmptyString => Ok None
  | _ =>
      dt <- fromisoformat end_date ;;
      f <- datetime_timestamp tz (replace_hms dt 23 59 59) ;;
      t <- int_of_float f ;;
      Ok (Some t)
  end.

Definition get_trade_executions (E : env) (api : ZaifApi)
    (currency_pair : option string) (limit : Z) (start_date end_date : string)
  : M TradeExecutionList.t :=
  _ <~ require_credentials api ;;
  _ <~ (match currency_pair with
        | Some p => if supported (PStr p) then ret tt else raise (unsupported_pair p)
        | None => ret tt
        end) ;;
  from_timestamp <~ lift (from_timestamp_of (tz E) start_date) ;;
  end_timestamp <~ lift (end_timestamp_of (tz E) end_date) ;;
  trade_history <~
    TradeApi.get_trade_history E api currency_pair (Some limit)
      from_timestamp end_timestamp ;;
  ret (TradeExecutionList.Build
         (filter (fun x => supported (TradeExecutionList.currency_pair x))
                 (TradeExecutionList.executions trade_history))).

End Tools.

(* ================================================================== *)
(** * Notions used in the statements and proofs *)
(* ================================================================== *)

(** Text that [strip] and the removal of underscores leave alone. *)
Definition plain_char (c : ascii) : bool :=
  negb (is_space c) && negb (Ascii.eqb c "_").

Fixpoint plain (s : string) : bool :=
  match s with
  | EmptyString => true
  | String c s' => plain_char c && plain s'
  end.

(** The text is empty or starts with something that is not a digit. *)
Definition starts_nondigit (s : string) : bool :=
  match s with
  | EmptyString => true
  | String c _ => negb (is_digit c)
  end.

(** [ex] is the exponent suffix that spells [z]: nothing for zero, or [E]
    and the signed value. *)
Definition exponent_suffix (ex : string) (z : Z) : Prop :=
  (ex = "" /\ z = 0) \/ ex = "E" ++ signed_str z.

(** The decision table of the specification for [(trade_side, market_role)],
    read as it is written: under [bid] and [ask] the role is [taker] when
    the resting side equals the caller's side, [maker] otherwise. *)
Definition decision_table (your_action action : pyobj) : string * string :=
  if py_eq_str your_action "both" then ("self", "both")
  else if py_eq_str your_action "bid"
  then ("buy", if py_eq_str action "bid" then "taker" else "maker")
  else if py_eq_str your_action "ask"
  then ("sell", if py_eq_str action "ask" then "taker" else "maker")
  else ("unknown", "unknown").

(** The same table with the third outcome of the code: under [bid] and
    [ask], a resting side that is neither [bid] nor [ask] gives the role
    [unknown]. *)
Definition derived_roles (your_action action : pyobj) : string * string :=
  if py_eq_str your_action "both" then ("self", "both")
  else if py_eq_str your_action "bid"
  then ("buy", if py_eq_str action "bid" then "taker"
               else if py_eq_str action "ask" then "maker" else "unknown")
  else if py_eq_str your_action "ask"
  then ("sell", if py_eq_str action "ask" then "taker"
                else if py_eq_str action "bid" then "maker" else "unknown")
  else ("unknown", "unknown").

(** ** Notions of the statements on round trips *)

(** The time-frame label that [PriceChartData.from_dict] derives from the
    period code. *)
Definition timeframe_label (code : string) : string :=
  match PriceChartData.lookup PriceChartData.timeframe_names code with
  | Some name => name
  | None => code ++ "足"
  end.

(** A candle as [to_dict] and [from_dict] hand it back: its timestamp has
    been converted to milliseconds and from there to a timestamp again. *)
Definition retimed (tz : Z) (c : PriceChartData.CandlestickData)
  : result PriceChartData.CandlestickData :=
  ms <- PriceChartData.time_ms tz (PriceChartData.timestamp c) ;;
  iso <- PriceChartData.timestamp_iso tz ms ;;
  Ok (PriceChartData.Candle iso (PriceChartData.open_price c)
        (PriceChartData.high_price c) (PriceChartData.low_price c)
        (PriceChartData.close_price c) (PriceChartData.volume c)).

(** An open order with another order time. *)
Definition with_order_time (t : string) (o : OpenOrderList.OpenOrder)
  : OpenOrderList.OpenOrder :=
  OpenOrderList.Order (OpenOrderList.currency_pair o) (OpenOrderList.order_type o)
    (OpenOrderList.price o) (OpenOrderList.quantity o) t.

(** ** Sample records *)

Definition sample_trades : pydict :=
  [("182", PDict [("currency_pair", PStr "btc_jpy"); ("action", PStr "bid");
                  ("amount", PStr "0.03"); ("price", PStr "56000");
                  ("fee", PStr "0"); ("your_action", PStr "ask");
                  ("timestamp", PStr "1402018713")])].

Definition sample_execution : TradeExecutionList.TradeExecution :=
  TradeExecutionList.Execution 182 (PStr "btc_jpy") "sell"
    (Finite false 56000 0) (Finite false 3 (-2)) (Finite false 0 0)
    "maker" (Some "2014-06-06T10:38:33").

Definition sample_pair : CurrencyPair.t :=
  CurrencyPair.Build (PStr "btc_jpy") (Finite false 1 (-4)) (Finite false 1 (-4))
    (Finite false 5 0) (Finite false 5 0) 0 "ビットコイン/円".

Definition sample_open_orders : OpenOrderList.t :=
  OpenOrderList.Build
    [(184, OpenOrderList.Order (PStr "btc_jpy") (PStr "bid")
             (Finite false 5000000 0) (Finite false 1 (-2)) "2023-11-15T07:13:20")].

Definition sample_deposits : DepositRecords.t :=
  DepositRecords.Build
    [DepositRecords.Item 3816 1435745065 (PStr "12qwQ3sPJJAosodSUhSpMds4WfUPBeFEM2")
       (Finite false 2 (-3)) (PStr "64dcf59523379ba282ae8cd61d2e9382c7849afe3a3802c0abb08a60067a159f")].

Definition sample_withdrawals : WithdrawalRecords.t :=
  WithdrawalRecords.Build
    [WithdrawalRecords.Item 23 1435745065 (PStr "12qwQ3sPJJAosodSUhSpMds4WfUPBeFEM2")
       (Finite false 2 (-3)) (PStr "64dcf595") (Finite false 1 (-4)) (PStr "completed")].

Definition sample_chart : PriceChartData.t :=
  PriceChartData.Build "btc_jpy" "1時間足" "2023-11-15T00:00:00" "2023-11-16T00:00:00" [] 0.

(** ** A sample process *)

(** A clock that ticks one microsecond per reading, a remote end that
    answers every request with an empty successful envelope. *)
Definition sample_env : env :=
  Env 32400 (local_to_seconds 32400)
      (fun n => Datetime 2023 11 15 7 13 20 (123456 + Z.of_nat n))
      (fun _ => Json (PDict [("success", PInt 1); ("return", PDict [])])).

Definition sample_provider : ApiKeyAuthProvider.t :=
  ApiKeyAuthProvider.Build "key" "secret".

Definition sample_api : ZaifApi := ZaifApi_init (Some "key") (Some "secret").

Definition anonymous_api : ZaifApi := ZaifApi_init None None.

Definition empty_world : world := World [] 0 [] [].

(** ** Error kinds of the specification *)

(** The code raises [ValueError] throughout; the kind is carried by the
    message.  An API error is the [ValueError] whose message is
    [API error: ] followed by the text the exchange reported. *)
Definition ApiError (message : string) : exn :=
  value_error ("API error: " ++ message).

(** ** Notions of the statements on credentials *)

(** The two "credentials are not configured" errors: the one of
    [HttpClient.post] and the one of the tool handlers. *)
Definition unauthenticated (e : exn) : Prop :=
  e = HttpClient.missing_credentials \/ e = Tools.missing_credentials.

(** The call started in [w] ends with an unauthenticated error, and the
    transport has seen nothing new. *)
Definition refused {A : Type} (m : M A) (w : world) : Prop :=
  exists e w', m w = (Raise e, w') /\ unauthenticated e /\ sent w' = sent w.

Definition is_snan (d : Decimal) : bool :=
  match d with
  | NaN _ true _ => true
  | _ => false
  end.

(** ** Notions of the statements on the signer *)

(** The dictionary the signer writes to, and the heap it is in: the
    caller's own when it is passed and not empty, a new one otherwise. *)
Definition signing_target (passed : option nat) (h : list params)
  : nat * list params :=
  match passed with
  | Some r =>
      match nth r h [] with
      | [] => (List.length h, (h ++ [[]])%list)
      | _ => (r, h)
      end
  | None => (List.length h, (h ++ [[]])%list)
  end.

(** Every key, and every value that is a [str], can be encoded as UTF-8. *)
Fixpoint params_encodable (d : params) : bool :=
  match d with
  | [] => true
  | (k, v) :: d' =>
      encodable k
      && match v with
         | VStr s => encodable s
         | _ => true
         end
      && params_encodable d'
  end.

(** What the signer returns once the nonce is in the dictionary [d]. *)
Definition signed_headers (self : ApiKeyAuthProvider.t) (d : params) : result headers :=
  encoded_params <- urlencode d ;;
  signature <- hmac_sha512_hex (ApiKeyAuthProvider.api_secret self) encoded_params ;;
  Ok [("key", HStr (ApiKeyAuthProvider.api_key self)); ("sign", signature)].

(** The headers of the request: the caller's, updated with the signer's. *)
Definition merged_headers (hdrs : option headers) (auth_headers : headers) : headers :=
  match hdrs with
  | Some (x :: h) => headers_update (x :: h) auth_headers
  | _ => auth_headers
  end.

Fixpoint ascii_only (s : string) : bool :=
  match s with
  | EmptyString => true
  | String c s' => (N_of_ascii c <? 128)%N && ascii_only s'
  end.

(** The code point U+DC80 alone, as [os.environ] gives it for the byte
    [80]. *)
Definition lone_surrogate : string :=
  String (ascii_of_N 237) (String (ascii_of_N 178) (String (ascii_of_N 128) "")).

(** A provider whose secret came from an environment variable that is not
    UTF-8. *)
Definition undecodable_provider : ApiKeyAuthProvider.t :=
  ApiKeyAuthProvider.Build "key" ("s" ++ lone_surrogate).

(** A clock reading as [datetime] guarantees it: microseconds within a
    second. *)
Definition valid_reading (now : datetime) : Prop :=
  0 <= microsecond now < 1000000.

(** The [i]-th reading of the clock is taken at the instant [instant i],
    counted in microseconds since the epoch, and [time.mktime] gives the
    reading the second of that instant. *)
Definition taken_at (E : env) (instant : nat -> Z) (i : nat) : Prop :=
  mktime E (clock E i) = instant i / 1000000
  /\ microsecond (clock E i) = instant i mod 1000000.

(** The reading [a] comes before [b] in the seconds [time.mktime] gives
    them, or in the same second with fewer microseconds. *)
Definition earlier (mktime : datetime -> Z) (a b : datetime) : Prop :=
  mktime a < mktime b
  \/ (mktime a = mktime b /\ microsecond a < microsecond b).

(** [n] calls of [NonceGenerator.generate] in a row. *)
Fixpoint generate_many (E : env) (n : nat) : M (list Decimal) :=
  match n with
  | O => ret []
  | S k =>
      x <~ NonceGenerator.generate E ;;
      l <~ generate_many E k ;;
      ret (x :: l)
  end.

(** Each element is below the next one. *)
Fixpoint increasing (l : list Decimal) : Prop :=
  match l with
  | x :: ((y :: _) as l') => Decimal_lt x y /\ increasing l'
  | _ => True
  end.

(** The value of the nonce for a reading with microseconds in range. *)
Definition nonce_value (mktime : datetime -> Z) (now : datetime) : Decimal :=
  Finite (mktime now <? 0)
         (Z.abs_N (mktime now) * 1000000 + Z.to_N (microsecond now))
         (-6).

(** A remote end that refuses every request with a nonce error. *)
Definition refusing_env : env :=
  Env 32400 (local_to_seconds 32400)
      (fun n => Datetime 2023 11 15 7 13 20 (123456 + Z.of_nat n))
      (fun _ => Json (PDict [("success", PInt 0); ("error", PStr "bad nonce")])).

(** A process whose clock is set five seconds before the epoch, in UTC. *)
Definition early_env : env :=
  Env 0 (local_to_seconds 0)
      (fun n => Datetime 1969 12 31 23 59 55 (1 + Z.of_nat n))
      (fun _ => Json (PDict [("success", PInt 1); ("return", PDict [])])).

(** America/New_York around the end of daylight-saving time in 2023: the
    offset from UTC is four hours until 06:00:00 UTC on 5 November (epoch
    second [1699164000]) and five hours from then on, so the local hour from
    01:00 to 02:00 of that day occurs twice. *)
Definition new_york_changeover : Z := 1699164000.

Definition new_york_offset (t : Z) : Z :=
  if t <? new_york_changeover then -14400 else -18000.

(** [datetime.now()] at the instant [us], in microseconds since the
    epoch. *)
Definition new_york_now (us : Z) : datetime :=
  let t := us / 1000000 in
  let local := t + new_york_offset t in
  let '(y, m, d) := civil_from_days (local / 86400) in
  let sod := local mod 86400 in
  Datetime y m d (sod / 3600) (sod mod 3600 / 60) (sod mod 60) (us mod 1000000).

(** [time.mktime] for local fields without a daylight-saving flag, as the C
    library computes it: a time of the repeated hour is taken for its first
    occurrence. *)
Definition new_york_mktime (dt : datetime) : Z :=
  let l := local_to_seconds 0 dt in
  if l + 14400 <? new_york_changeover then l + 14400 else l + 18000.

(** A process in that zone whose first clock reading is taken one
    microsecond before the clocks go back, and each further one a
    microsecond later. *)
Definition new_york_env : env :=
  Env (-18000) new_york_mktime
      (fun n => new_york_now (1699163999999999 + Z.of_nat n))
      (fun _ => Json (PDict [("success", PInt 1); ("return", PDict [])])).

(** A caller that holds one parameter dictionary, at address [0]. *)
Definition caller_world : world :=
  World [[("method", VStr "get_info")]] 0 [] [].

(** ** Sample responses with one bad entry *)

Definition good_entry (amount : string) : pyobj :=
  PDict [("timestamp", PStr "1435745065"); ("address", PStr "12qwQ3sP");
         ("amount", PStr amount); ("txid", PStr "64dcf595");
         ("fee", PStr "0.0001"); ("status", PStr "completed");
         ("currency_pair", PStr "btc_jpy"); ("action", PStr "bid");
         ("price", PStr "5000000"); ("your_action", PStr "bid")].

(** The middle entry has an amount that is not a number. *)
Definition bad_amount_response : pyobj :=
  PDict [("1", good_entry "0.5"); ("2", good_entry "abc"); ("3", good_entry "1.5")].

(** The middle entry has a timestamp that is not a number. *)
Definition bad_timestamp_response : pyobj :=
  PDict [("1", good_entry "0.5");
         ("2", PDict [("timestamp", PStr "soon"); ("amount", PStr "1")]);
         ("3", good_entry "1.5")].

(** The middle entry is not a mapping. *)
Definition not_a_mapping_response : pyobj :=
  PDict [("1", good_entry "0.5"); ("2", PStr "pending"); ("3", good_entry "1.5")].

(** One candle, one millisecond after a whole second. *)
Definition odd_millisecond_response : pyobj :=
  PDict [("ohlc_data",
          PList [PDict [("time", PInt 1001); ("open", PStr "1"); ("high", PStr "2");
                        ("low", PStr "1"); ("close", PStr "2"); ("volume", PStr "3")]]);
         ("data_count", PInt 1)].

(* ================================================================== *)
(** * The rest of the models *)
(* ================================================================== *)

(** [bool(v)], the truth value of an object. *)
Definition py_truthy (v : pyobj) : bool :=
  match v with
  | PNone => false
  | PBool b => b
  | PInt z => negb (z =? 0)
  | PFloat (S754_zero _) => false
  | PFloat _ => true
  | PStr s => negb (String.eqb s "")
  | PList l => match l with [] => false | _ => true end
  | PDict d => match d with [] => false | _ => true end
  end.

(** ** models/market.py, continued *)

Module Currency.

Record t : Type := Build { name : pyobj; is_token : pyobj }.

Definition from_dict (data : pyobj) : result t :=
  n <- py_getitem data "name" ;;
  tok <- py_getitem data "is_token" ;;
  Ok (Build n tok).

Definition to_dict (self : t) : pyobj :=
  PDict [("name", name self); ("is_token", is_token self)].

End Currency.

Module LastPrice.

Record t : Type := Build { last_price : Decimal }.

Definition from_dict (data : pyobj) : result t :=
  v <- py_getitem data "last_price" ;;
  p <- Decimal_of_obj v ;;
  Ok (Build p).

Definition to_dict (self : t) : pyobj :=
  PDict [("last_price", PStr (Decimal_str (last_price self)))].

End LastPrice.

Module TradeHistory.

Record TradeHistoryItem : Type := Item {
  date : Z; price : Decimal; amount : Decimal; trade_type : pyobj
}.

Record t : Type := Build { items : list TradeHistoryItem }.

Definition item_of (item : pyobj) : result TradeHistoryItem :=
  v <- py_getitem item "date" ;; d <- py_int v ;;
  v <- py_getitem item "price" ;; p <- Decimal_of_obj v ;;
  v <- py_getitem item "amount" ;; a <- Decimal_of_obj v ;;
  ty <- py_getitem item "trade_type" ;;
  Ok (Item d p a ty).

Definition from_dict (data : pyobj) : result t :=
  l <- py_iter data ;;
  items <- mapM item_of l ;;
  Ok (Build items).

Definition item_to (item : TradeHistoryItem) : pyobj :=
  PDict [("date", PInt (date item));
         ("price", PStr (Decimal_str (price item)));
         ("amount", PStr (Decimal_str (amount item)));
         ("trade_type", trade_type item)].

Definition to_dict (self : t) : pyobj := PList (map item_to (items self)).

End TradeHistory.

(** ** models/account.py, continued *)

Module WithdrawalResult.

Record t : Type := Build { txid : pyobj; balances : list (string * Decimal) }.

Definition from_dict (data : pyobj) : result t :=
  d <- as_dict data "get" ;;
  funds <- as_dict (dict_get_default d "funds" (PDict [])) "items" ;;
  balances <- decimal_values funds ;;
  Ok (Build (dict_get_default d "txid" (PStr "")) balances).

Definition to_dict (self : t) : pyobj :=
  PDict [("txid", txid self); ("funds", PDict (str_values (balances self)))].

End WithdrawalResult.

Module UserIdentification.

Record t : Type := Build {
  id : string; email : pyobj; name : pyobj; kana : pyobj; certified : bool
}.

(** The response is [{'user': {...}}]; without a [user] member, or with an
    empty one, the fields are read from the response itself. *)
Definition from_dict (data : pyobj) : result t :=
  d <- as_dict data "get" ;;
  let user_data := dict_get_default d "user" (PDict []) in
  let user_data := if py_truthy user_data then user_data else data in
  u <- as_dict user_data "get" ;;
  Ok (Build (py_str (dict_get_default u "id" (PStr "")))
            (dict_get_default u "email" (PStr ""))
            (dict_get_default u "name" (PStr ""))
            (dict_get_default u "kana" (PStr ""))
            (py_truthy (dict_get_default u "certified" (PBool false)))).

Definition to_dict (self : t) : pyobj :=
  PDict [("id", PStr (id self)); ("email", email self); ("name", name self);
         ("kana", kana self); ("certified", PBool (certified self))].

End UserIdentification.

(* ================================================================== *)
(** * api/client.py, continued: the public side *)
(* ================================================================== *)

(** One [requests.get(url, params=params)]. *)
Record get_request : Type := GetRequest {
  gq_url : string; gq_params : option params
}.

(** The surroundings of the public calls: the local zone, the remote end
    and [json.loads]. *)
Record get_env : Type := GetEnv {
  get_tz : Z;
  get_transport : get_request -> response;
  json_loads : string -> result pyobj
}.

(** The public calls keep no state but the requests handed to the
    transport. *)
Definition G (A : Type) : Type := list get_request -> result A * list get_request.

Definition gret {A : Type} (a : A) : G A := fun log => (Ok a, log).

Definition graise {A : Type} (e : exn) : G A := fun log => (Raise e, log).

Definition gbind {A B : Type} (m : G A) (k : A -> G B) : G B :=
  fun log =>
    match m log with
    | (Ok a, log') => k a log'
    | (Raise e, log') => (Raise e, log')
    end.

Notation "x <~~ e ;; k" := (gbind e (fun x => k))
  (at level 61, e at next level, right associativity) : py_scope.

Definition glift {A : Type} (r : result A) : G A := fun log => (r, log).

(** The [try] block of [HttpClient.get] and its [except] clauses. *)
Definition get_receive (resp : response) : result pyobj :=
  match resp with
  | Json body => Ok body
  | NotJson msg => Raise (value_error ("Request error: " ++ msg))
  | HttpError code => Raise (value_error ("HTTP error: " ++ str_Z code))
  | ConnectionError =>
      Raise (value_error "Connection error: Could not connect to server")
  | Timeout => Raise (value_error "Timeout error: Request timed out")
  | RequestException msg => Raise (value_error ("Request error: " ++ msg))
  | Failure e => HttpClient.handled (Raise e)
  end.

(** [HttpClient.get]. *)
Definition HttpClient_get (E : get_env) (url : string) (query : option params)
  : G pyobj :=
  fun log =>
    let rq := GetRequest url query in
    (get_receive (get_transport E rq), (log ++ [rq])%list).

Module MarketApi.

Definition get_ticker (E : get_env) (base_url currency_pair : string) : G Ticker.t :=
  data <~~ HttpClient_get E (base_url ++ "/1/ticker/" ++ currency_pair) None ;;
  glift (Ticker.from_dict data).

Definition get_depth (E : get_env) (base_url currency_pair : string) : G OrderBook.t :=
  data <~~ HttpClient_get E (base_url ++ "/1/depth/" ++ currency_pair) None ;;
  glift (OrderBook.from_dict data).

Definition get_currencies (E : get_env) (base_url currency : string)
  : G (list Currency.t) :=
  let url :=
    if String.eqb currency "all" then base_url ++ "/1/currencies/all"
    else base_url ++ "/1/currencies/" ++ currency in
  data <~~ HttpClient_get E url None ;;
  glift (l <- py_iter data ;; mapM Currency.from_dict l).

Definition get_currency_pairs (E : get_env) (base_url currency_pair : string)
  : G (list CurrencyPair.t) :=
  let url :=
    if String.eqb currency_pair "all" then base_url ++ "/1/currency_pairs/all"
    else base_url ++ "/1/currency_pairs/" ++ currency_pair in
  data <~~ HttpClient_get E url None ;;
  glift (l <- py_iter data ;; mapM CurrencyPair.from_dict l).

End MarketApi.

Module ChartApi.


End ChartApi.

(* ================================================================== *)
(** * tools/market.py and tools/chart.py *)
(* ================================================================== *)

Module MarketTools.

Definition get_ticker (E : get_env) (base_url currency_pair : string) : G Ticker.t :=
  MarketApi.get_ticker E base_url currency_pair.

Definition get_market_depth (E : get_env) (base_url currency_pair : string)
  : G OrderBook.t :=
  MarketApi.get_depth E base_url currency_pair.

Definition get_currency_pairs (E : get_env) (base_url : string)
  : G (list CurrencyPair.t) :=
  all_pairs <~~ MarketApi.get_currency_pairs E base_url "all" ;;
  gret (filter (fun p => Tools.supported (CurrencyPair.currency_pair p)) all_pairs).

End MarketTools.

Module ChartTools.




End ChartTools.

(** ** Notions of the further statements *)

Fixpoint params_get (d : params) (k : string) : option pval :=
  match d with
  | [] => None
  | (k', v) :: d' => if String.eqb k' k then Some v else params_get d' k
  end.

(** The entries of a response that are mappings: the ones a keyed collection
    looks at. *)
Fixpoint mapping_entries (d : pydict) : list (string * pydict) :=
  match d with
  | [] => []
  | (k, PDict item) :: rest => (k, item) :: mapping_entries rest
  | _ :: rest => mapping_entries rest
  end.

(** A public remote end for the samples: every request is answered with
    two currency pairs, of which one is on the allow-list. *)
Definition sample_get_env : get_env :=
  GetEnv 32400
    (fun _ =>
       Json (PList
               [PDict [("item_japanese", PStr "ビットコイン"); ("aux_japanese", PStr "円");
                       ("currency_pair", PStr "btc_jpy"); ("item_unit_min", PStr "0.0001");
                       ("item_unit_step", PStr "0.0001"); ("aux_unit_min", PStr "5");
                       ("aux_unit_step", PStr "5"); ("aux_unit_point", PInt 0)];
                PDict [("item_japanese", PStr "モナコイン"); ("aux_japanese", PStr "円");
                       ("currency_pair", PStr "mona_jpy"); ("item_unit_min", PStr "1");
                       ("item_unit_step", PStr "1"); ("aux_unit_min", PStr "0.1");
                       ("aux_unit_step", PStr "0.1"); ("aux_unit_point", PInt 1)]]))
    (fun _ => Raise (value_error "Expecting value: line 1 column 1 (char 0)")).

Fixpoint headers_get (h : headers) (k : string) : option header_value :=
  match h with
  | [] => None
  | (k', v) :: h' => if String.eqb k' k then Some v else headers_get h' k
  end.

(** The call [m], started in [w], hands exactly one request to the
    transport: a POST to [url] whose form names the API method [name] and
    carries the text of the nonce made from the clock reading of [w]. *)
Definition posts_method {A : Type} (E : env) (m : M A) (w : world)
    (url name : string) : Prop :=
  exists nonce d rq,
    NonceGenerator.generate_at (mktime E) (clock E (reads w)) = Ok nonce
    /\ sent (snd (m w)) = (sent w ++ [rq])%list
    /\ rq_url rq = url
    /\ rq_data rq = UrlEncoded d
    /\ params_get d "method" = Some (VStr name)
    /\ params_get d "nonce" = Some (VStr (Decimal_str nonce)).

(** The mapping entries that parse, in order, and one warning line for each
    one that does not. *)
Fixpoint parsed {A : Type} (parse : string -> pydict -> result A)
    (l : list (string * pydict)) : list A :=
  match l with
  | [] => []
  | (key, item) :: rest =>
      match parse key item with
      | Ok a => a :: parsed parse rest
      | Raise _ => parsed parse rest
      end
  end.

Fixpoint warnings {A : Type} (what : string) (parse : string -> pydict -> result A)
    (l : list (string * pydict)) : list string :=
  match l with
  | [] => []
  | (key, item) :: rest =>
      match parse key item with
      | Ok _ => warnings what parse rest
      | Raise e => warning what key e :: warnings what parse rest
      end
  end.

(** A remote end of the private API that reports two open orders, of which
    one is for a pair on the allow-list. *)
Definition orders_env : env :=
  Env 32400 (local_to_seconds 32400)
      (fun n => Datetime 2023 11 15 7 13 20 (123456 + Z.of_nat n))
      (fun _ =>
         Json (PDict
                 [("success", PInt 1);
                  ("return",
                   PDict [("184", PDict [("currency_pair", PStr "btc_jpy");
                                         ("action", PStr "bid");
                                         ("amount", PStr "0.01");
                                         ("price", PStr "5000000");
                                         ("timestamp", PStr "1700000000")]);
                          ("185", PDict [("currency_pair", PStr "mona_jpy");
                                         ("action", PStr "ask");
                                         ("amount", PStr "10");
                                         ("price", PStr "100");
                                         ("timestamp", PStr "1700000001")])])])).

(** A chart API that answers every query with one candle, on a whole
    second. *)
Definition chart_env : get_env :=
  GetEnv 32400
    (fun _ =>
       Json (PDict
               [("ohlc_data",
                 PList [PDict [("time", PInt 1700000000000); ("open", PStr "5000000");
                               ("high", PStr "5100000"); ("low", PStr "4900000");
                               ("close", PStr "5050000"); ("volume", PStr "12.5")]]);
                ("data_count", PInt 1)]))
    (fun _ => Raise (value_error "Expecting value: line 1 column 1 (char 0)")).

(* ================================================================== *)
(** * Properties *)
(* ================================================================== *)

(** ** Library models on sample inputs *)

Example Decimal_str_samples :
  map Decimal_str
    [Finite false 100 0; Finite true 15 (-1); Finite false 123 (-6);
     Finite false 5 (-7); Finite false 105 2; Finite false 0 (-6);
     NaN false true 12; Infinity true]
  = ["100"; "-1.5"; "0.000123"; "5E-7"; "1.05E+4"; "0.000000"; "sNaN12"; "-Infinity"].
Proof. reflexivity. Qed.

Example Decimal_of_str_samples :
  map Decimal_of_str [" 1_0.5e3 "; "1."; "."; "abc"; "None"; "nan"; "-0"]
  = [Ok (Finite false 105 2); Ok (Finite false 1 0); Raise conversion_syntax;
     Raise conversion_syntax; Raise conversion_syntax; Ok (NaN false false 0);
     Ok (Finite true 0 0)].
Proof. reflexivity. Qed.

Example int_of_str_samples :
  map int_of_str [" 12 "; "+5"; "1_000"; "-0"; "007"]
  = [Ok 12; Ok 5; Ok 1000; Ok 0; Ok 7]
  /\ (forall s, In s ["abc"; "1.5"; ""; "1__0"; "_1"; "1_"] ->
      exists m, int_of_str s = Raise (Exn ValueError m)).
Proof.
  split; [reflexivity|].
  intros s H; simpl in H.
  repeat (destruct H as [<- | H]; [eexists; reflexivity|]); contradiction.
Qed.

Example fromtimestamp_samples :
  map (fun t => bind (fromtimestamp 32400 t) (fun dt => Ok (isoformat dt)))
      [0; 1500000000; 1700000000; -1]
  = [Ok "1970-01-01T09:00:00"; Ok "2017-07-14T11:40:00";
     Ok "2023-11-15T07:13:20"; Ok "1970-01-01T08:59:59"]
  /\ fromtimestamp 0 253402300799 = Ok (Datetime 9999 12 31 23 59 59 0)
  /\ fromtimestamp 0 1000000000000 = Raise (Exn ValueError "year 33658 is out of range")
  /\ fromtimestamp 0 (-62135596801) = Raise (Exn ValueError "year 0 is out of range")
  /\ exn_cls_of (fromtimestamp 0 (10 ^ 17)) = Some OSError
  /\ exn_cls_of (fromtimestamp 0 (10 ^ 20)) = Some OverflowError.
Proof. vm_compute. repeat split. Qed.

Example fromisoformat_samples :
  fromisoformat "2023-11-15T07:13:20.123000" = Ok (Datetime 2023 11 15 7 13 20 123000)
  /\ fromisoformat "2023-01-01" = Ok (Datetime 2023 1 1 0 0 0 0)
  /\ exn_cls_of (fromisoformat "2023-02-30") = Some ValueError
  /\ exn_cls_of (fromisoformat "yesterday") = Some ValueError.
Proof. vm_compute. repeat split. Qed.

(** ** Strings *)

Lemma append_assoc (a b c : string) : (a ++ b) ++ c = a ++ (b ++ c).
Proof. induction a as [|x a IH]; simpl; [reflexivity | now rewrite IH]. Qed.

Lemma append_nil_r (a : string) : a ++ "" = a.
Proof. induction a as [|x a IH]; simpl; [reflexivity | now rewrite IH]. Qed.

Lemma length_append (a b : string) :
  String.length (a ++ b) = (String.length a + String.length b)%nat.
Proof. induction a as [|x a IH]; simpl; [reflexivity | now rewrite IH]. Qed.

Lemma take_drop (n : nat) (s : string) : take n s ++ drop n s = s.
Proof.
  revert s; induction n as [|n IH]; intros [|c s]; simpl; try reflexivity.
  now rewrite IH.
Qed.

Lemma length_take (n : nat) (s : string) :
  (n <= String.length s)%nat -> String.length (take n s) = n.
Proof.
  revert s; induction n as [|n IH]; intros [|c s]; simpl; intros H; try lia.
  rewrite IH; lia.
Qed.

Lemma length_drop (n : nat) (s : string) :
  String.length (drop n s) = (String.length s - n)%nat.
Proof.
  revert s; induction n as [|n IH]; intros [|c s]; simpl; try lia.
  apply IH.
Qed.

Lemma length_zeros (n : nat) : String.length (zeros n) = n.
Proof. induction n; simpl; congruence. Qed.

(** ** Digit strings *)

Lemma all_digits_app (a b : string) :
  all_digits (a ++ b) = all_digits a && all_digits b.
Proof.
  induction a as [|x a IH]; simpl; [reflexivity|].
  now rewrite IH, andb_assoc.
Qed.

Lemma all_digits_zeros (n : nat) : all_digits (zeros n) = true.
Proof. induction n; simpl; auto. Qed.

Lemma all_digits_take (n : nat) (s : string) :
  all_digits s = true -> all_digits (take n s) = true.
Proof.
  revert s; induction n as [|n IH]; intros [|c s]; simpl; auto.
  intros H; apply andb_prop in H as [H1 H2]; rewrite H1; simpl; auto.
Qed.

Lemma all_digits_drop (n : nat) (s : string) :
  all_digits s = true -> all_digits (drop n s) = true.
Proof.
  revert s; induction n as [|n IH]; intros [|c s]; simpl; auto.
  intros H; apply andb_prop in H as [H1 H2]; auto.
Qed.

Lemma digit_char_is_digit (n : N) : (n < 10)%N -> is_digit (digit_char n) = true.
Proof.
  intros H; unfold is_digit, digit_char.
  rewrite N_ascii_embedding by lia.
  apply andb_true_intro; split; apply N.leb_le; lia.
Qed.

Lemma digit_val_char (n : N) : (n < 10)%N -> digit_val (digit_char n) = n.
Proof.
  intros H; unfold digit_val, digit_char.
  rewrite N_ascii_embedding by lia. lia.
Qed.

Lemma N_of_digits_acc_app (a b : string) (acc : N) :
  N_of_digits_acc (a ++ b) acc = N_of_digits_acc b (N_of_digits_acc a acc).
Proof. revert acc; induction a as [|x a IH]; intros acc; simpl; auto. Qed.

Lemma N_of_digits_acc_shift (s : string) (acc : N) :
  N_of_digits_acc s acc = (acc * 10 ^ N.of_nat (String.length s) + N_of_digits s)%N.
Proof.
  unfold N_of_digits; revert acc; induction s as [|x s IH]; intros acc.
  - simpl. lia.
  - cbn [N_of_digits_acc String.length].
    rewrite IH, (IH (10 * 0 + digit_val x)%N), Nat2N.inj_succ, N.pow_succ_r'.
    lia.
Qed.

Lemma N_of_digits_app (a b : string) :
  N_of_digits (a ++ b)
  = (N_of_digits a * 10 ^ N.of_nat (String.length b) + N_of_digits b)%N.
Proof.
  unfold N_of_digits at 1; rewrite N_of_digits_acc_app.
  now rewrite N_of_digits_acc_shift.
Qed.

Lemma N_of_digits_zeros (n : nat) : N_of_digits (zeros n) = 0%N.
Proof.
  unfold N_of_digits; induction n; simpl; auto.
Qed.

Lemma str_N_fuel_app (k : nat) (n : N) (acc : string) :
  str_N_fuel k n acc = str_N_fuel k n "" ++ acc.
Proof.
  revert n acc; induction k as [|k IH]; intros n acc; simpl; [reflexivity|].
  destruct (n <? 10)%N; [reflexivity|].
  rewrite IH, (IH _ (String _ "")), append_assoc. reflexivity.
Qed.

Lemma str_N_fuel_digits (k : nat) (n : N) (acc : string) :
  all_digits acc = true -> all_digits (str_N_fuel k n acc) = true.
Proof.
  revert n acc; induction k as [|k IH]; intros n acc H; simpl; [assumption|].
  assert (Hd : is_digit (digit_char (n mod 10)) = true).
  { apply digit_char_is_digit, N.mod_lt; lia. }
  destruct (n <? 10)%N.
  - simpl; now rewrite Hd.
  - apply IH; simpl; now rewrite Hd.
Qed.

Lemma str_N_fuel_value (k : nat) (n : N) :
  (n < 2 ^ N.of_nat k)%N -> N_of_digits (str_N_fuel k n "") = n.
Proof.
  revert n; induction k as [|k IH]; intros n H.
  - simpl in *. unfold N_of_digits; simpl. lia.
  - cbn [str_N_fuel].
    destruct (N.ltb_spec n 10) as [Hlt|Hge].
    + unfold N_of_digits; simpl.
      rewrite digit_val_char by (apply N.mod_lt; lia).
      rewrite N.mod_small by assumption. lia.
    + rewrite str_N_fuel_app, N_of_digits_app.
      rewrite IH.
      * unfold N_of_digits; simpl.
        rewrite digit_val_char by (apply N.mod_lt; lia).
        rewrite (N.div_mod n 10) at 3 by lia. lia.
      * rewrite Nat2N.inj_succ, N.pow_succ_r' in H.
        apply N.Div0.div_lt_upper_bound. lia.
Qed.

Lemma str_N_digits (n : N) : all_digits (str_N n) = true.
Proof. apply str_N_fuel_digits; reflexivity. Qed.

Lemma str_N_value (n : N) : N_of_digits (str_N n) = n.
Proof.
  apply str_N_fuel_value.
  rewrite Nat2N.inj_succ, N2Nat.id.
  destruct n as [|p]; [reflexivity|].
  apply N.log2_spec; lia.
Qed.

Lemma str_N_length (n : N) : (1 <= String.length (str_N n))%nat.
Proof.
  unfold str_N; cbn [str_N_fuel].
  destruct (n <? 10)%N; [simpl; lia|].
  rewrite str_N_fuel_app, length_append; simpl; lia.
Qed.

(** A digit string that is not empty starts with a digit. *)
Lemma digits_head (s : string) :
  all_digits s = true -> (1 <= String.length s)%nat ->
  exists c r, s = String c r /\ is_digit c = true /\ all_digits r = true.
Proof.
  destruct s as [|c r]; simpl; intros H L; [lia|].
  apply andb_prop in H as [H1 H2]; eauto.
Qed.

Lemma str_N_head (n : N) :
  exists c r, str_N n = String c r /\ is_digit c = true /\ all_digits r = true.
Proof. apply digits_head; [apply str_N_digits | apply str_N_length]. Qed.

Lemma str_Z_sign (z : Z) : str_Z z = sign_str (z <? 0) ++ str_N (Z.abs_N z).
Proof. unfold str_Z, sign_str. now destruct (z <? 0). Qed.

(** ** Reading decimals *)

Ltac ascii_cases c :=
  destruct c as [[] [] [] [] [] [] [] []];
  vm_compute; try reflexivity; try discriminate.

Lemma digit_plain (c : ascii) : is_digit c = true -> plain_char c = true.
Proof. ascii_cases c. Qed.

Lemma digit_not_sign (c : ascii) :
  is_digit c = true -> Ascii.eqb c "-" = false /\ Ascii.eqb c "+" = false.
Proof. ascii_cases c; intros _; split; reflexivity. Qed.

Lemma digit_lower (c : ascii) : is_digit c = true -> to_lower c = c.
Proof. ascii_cases c. Qed.

Lemma plain_app (a b : string) : plain (a ++ b) = plain a && plain b.
Proof.
  induction a as [|x a IH]; simpl; [reflexivity|].
  now rewrite IH, andb_assoc.
Qed.

Lemma digits_plain (s : string) : all_digits s = true -> plain s = true.
Proof.
  induction s as [|c s IH]; simpl; [reflexivity|].
  intros H; apply andb_prop in H as [H1 H2].
  now rewrite (digit_plain _ H1), IH.
Qed.

Lemma digits_lower (s : string) : all_digits s = true -> lower s = s.
Proof.
  induction s as [|c s IH]; simpl; [reflexivity|].
  intros H; apply andb_prop in H as [H1 H2].
  now rewrite (digit_lower _ H1), IH.
Qed.

Lemma plain_char_not_space (c : ascii) : plain_char c = true -> is_space c = false.
Proof.
  unfold plain_char; intros H; apply andb_prop in H as [H _].
  now apply negb_true_iff in H.
Qed.

Lemma plain_lstrip (s : string) : plain s = true -> lstrip s = s.
Proof.
  destruct s as [|c s]; simpl; [reflexivity|].
  intros H; apply andb_prop in H as [H _].
  now rewrite (plain_char_not_space _ H).
Qed.

Lemma plain_rstrip (s : string) : plain s = true -> rstrip s = s.
Proof.
  induction s as [|c s IH]; simpl; [reflexivity|].
  intros H; apply andb_prop in H as [H1 H2].
  rewrite (IH H2), (plain_char_not_space _ H1).
  destruct s; reflexivity.
Qed.

Lemma plain_strip (s : string) : plain s = true -> strip s = s.
Proof.
  intros H; unfold strip; rewrite (plain_lstrip _ H); now apply plain_rstrip.
Qed.

Lemma plain_remove_underscores (s : string) :
  plain s = true -> remove_underscores s = s.
Proof.
  induction s as [|c s IH]; simpl; [reflexivity|].
  intros H; apply andb_prop in H as [H1 H2].
  unfold plain_char in H1; apply andb_prop in H1 as [_ H1].
  apply negb_true_iff in H1; rewrite H1, (IH H2); reflexivity.
Qed.

Lemma span_digits_app (ds r : string) :
  all_digits ds = true -> starts_nondigit r = true ->
  span_digits (ds ++ r) = (ds, r).
Proof.
  intros Hd Hr; induction ds as [|c ds IH]; simpl.
  - destruct r as [|c r]; [reflexivity|].
    simpl in Hr; apply negb_true_iff in Hr; simpl; now rewrite Hr.
  - simpl in Hd; apply andb_prop in Hd as [H1 H2].
    now rewrite H1, (IH H2).
Qed.

Lemma signed_Z_abs (z : Z) : signed_Z (z <? 0) (Z.abs_N z) = z.
Proof.
  unfold signed_Z; destruct (Z.ltb_spec z 0); rewrite N2Z.inj_abs_N; lia.
Qed.

Lemma parse_exp_signed (z : Z) : parse_exp ("E" ++ signed_str z) = Some z.
Proof.
  unfold signed_str.
  destruct (str_N_head (Z.abs_N z)) as (c & r & Hs & Hc & Hr).
  assert (Hall : all_digits (String c r) = true) by (simpl; now rewrite Hc, Hr).
  assert (Hval : N_of_digits (String c r) = Z.abs_N z)
    by (rewrite <- Hs; apply str_N_value).
  pose proof (signed_Z_abs z) as Hz.
  destruct (z <? 0); rewrite Hs; cbn -[all_digits N_of_digits signed_Z].
  - rewrite Hall, Hval; now f_equal.
  - rewrite Hall, Hval; now f_equal.
Qed.

Lemma parse_exp_suffix (ex : string) (z : Z) :
  exponent_suffix ex z -> parse_exp ex = Some z.
Proof.
  intros [[-> ->] | ->]; [reflexivity | apply parse_exp_signed].
Qed.

Lemma suffix_nondigit (ex : string) (z : Z) :
  exponent_suffix ex z -> starts_nondigit ex = true.
Proof. intros [[-> _] | ->]; reflexivity. Qed.

Lemma suffix_plain (ex : string) (z : Z) :
  exponent_suffix ex z -> plain ex = true.
Proof.
  intros [[-> _] | ->]; [reflexivity|].
  unfold signed_str.
  change (plain_char "E" && plain ((if z <? 0 then "-" else "+") ++ str_N (Z.abs_N z)) = true).
  rewrite plain_app, (digits_plain _ (str_N_digits _)).
  now destruct (z <? 0).
Qed.

Lemma nonempty_app (a b : string) :
  (1 <= String.length a)%nat -> exists c r, a ++ b = String c r.
Proof. destruct a as [|c a]; simpl; intros H; [lia | eauto]. Qed.

Lemma parse_finite_point (neg : bool) (ip fp ex : string) (z : Z) :
  all_digits ip = true -> all_digits fp = true ->
  (1 <= String.length ip)%nat -> exponent_suffix ex z ->
  parse_finite neg (ip ++ String "." (fp ++ ex))
  = Some (Finite neg (N_of_digits (ip ++ fp)) (z - Z.of_nat (String.length fp))).
Proof.
  intros Hi Hf Li Hex; unfold parse_finite.
  rewrite (span_digits_app ip _ Hi) by reflexivity.
  cbn [Ascii.eqb Bool.eqb]. change (Ascii.eqb "." ".") with true. cbv iota.
  rewrite (span_digits_app fp _ Hf (suffix_nondigit _ _ Hex)).
  destruct (nonempty_app ip fp Li) as (c & r & E); rewrite E.
  now rewrite (parse_exp_suffix _ _ Hex).
Qed.

Lemma parse_finite_nopoint (neg : bool) (ip ex : string) (z : Z) :
  all_digits ip = true -> (1 <= String.length ip)%nat -> exponent_suffix ex z ->
  parse_finite neg (ip ++ ex) = Some (Finite neg (N_of_digits ip) z).
Proof.
  intros Hi Li Hex; unfold parse_finite.
  rewrite (span_digits_app ip _ Hi (suffix_nondigit _ _ Hex)).
  assert (Hr : (match ex with
                | String c r => if Ascii.eqb c "." then span_digits r else ("", ex)
                | EmptyString => ("", ex)
                end) = ("", ex)).
  { destruct Hex as [[-> _] | ->]; reflexivity. }
  rewrite Hr, append_nil_r.
  destruct (nonempty_app ip "" Li) as (c & r & E); rewrite append_nil_r in E; rewrite E.
  rewrite (parse_exp_suffix _ _ Hex). simpl. now rewrite Z.sub_0_r.
Qed.

(** A sign and text that starts with a digit is read as a finite number. *)
Lemma parse_number_digits (neg : bool) (s : string) :
  (exists c r, s = String c r /\ is_digit c = true) ->
  parse_number (sign_str neg ++ s) = parse_finite neg s.
Proof.
  intros (c & r & -> & Hc); unfold parse_number.
  destruct (digit_not_sign _ Hc) as [Hm Hp].
  destruct neg; cbn [sign_str append split_sign].
  - change (Ascii.eqb "-" "-") with true; cbv iota. now rewrite Hc.
  - rewrite Hm, Hp. now rewrite Hc.
Qed.

Lemma Decimal_of_str_plain (s : string) :
  plain s = true ->
  Decimal_of_str s = match parse_number s with
                     | Some d => Ok d
                     | None => Raise conversion_syntax
                     end.
Proof.
  intros H; unfold Decimal_of_str.
  now rewrite (plain_strip _ H), (plain_remove_underscores _ H).
Qed.

Lemma sign_plain (neg : bool) : plain (sign_str neg) = true.
Proof. now destruct neg. Qed.

Lemma head_digit_app (a b : string) :
  all_digits a = true -> (1 <= String.length a)%nat ->
  exists c r, a ++ b = String c r /\ is_digit c = true.
Proof.
  intros H L; destruct (digits_head a H L) as (c & r & -> & Hc & _); simpl; eauto.
Qed.

Lemma Decimal_of_str_point (neg : bool) (ip fp ex : string) (z : Z) :
  all_digits ip = true -> all_digits fp = true ->
  (1 <= String.length ip)%nat -> exponent_suffix ex z ->
  Decimal_of_str (sign_str neg ++ ip ++ String "." (fp ++ ex))
  = Ok (Finite neg (N_of_digits (ip ++ fp)) (z - Z.of_nat (String.length fp))).
Proof.
  intros Hi Hf Li Hex.
  rewrite Decimal_of_str_plain.
  - rewrite parse_number_digits by (now apply head_digit_app).
    now rewrite (parse_finite_point neg ip fp ex z).
  - rewrite plain_app, sign_plain, plain_app, (digits_plain _ Hi).
    change (plain (String "." (fp ++ ex))) with (plain_char "." && plain (fp ++ ex)).
    now rewrite plain_app, (digits_plain _ Hf), (suffix_plain _ _ Hex).
Qed.

Lemma Decimal_of_str_nopoint (neg : bool) (ip ex : string) (z : Z) :
  all_digits ip = true -> (1 <= String.length ip)%nat -> exponent_suffix ex z ->
  Decimal_of_str (sign_str neg ++ ip ++ ex) = Ok (Finite neg (N_of_digits ip) z).
Proof.
  intros Hi Li Hex.
  rewrite Decimal_of_str_plain.
  - rewrite parse_number_digits by (now apply head_digit_app).
    now rewrite (parse_finite_nopoint neg ip ex z).
  - now rewrite plain_app, sign_plain, plain_app, (digits_plain _ Hi),
      (suffix_plain _ _ Hex).
Qed.

Lemma point_app (x ex : string) : ("." ++ x) ++ ex = String "." (x ++ ex).
Proof. reflexivity. Qed.

Lemma suffix_empty : exponent_suffix "" 0.
Proof. left; split; reflexivity. Qed.

Lemma suffix_signed (z : Z) : exponent_suffix ("E" ++ signed_str z) z.
Proof. right; reflexivity. Qed.

(** [Decimal(str(d))] gives [d] back, for every decimal: finite ones in
    plain or scientific notation, infinities and NaNs with their payload. *)
Lemma Decimal_of_str_str (d : Decimal) : Decimal_of_str (Decimal_str d) = Ok d.
Proof.
  destruct d as [s c e | s | s sig p].
  - unfold Decimal_str.
    pose proof (str_N_digits c) as Hd.
    pose proof (str_N_length c) as Hl.
    pose proof (str_N_value c) as Hv.
    set (ds := str_N c) in *.
    set (len := Z.of_nat (String.length ds)).
    assert (Hlen : 1 <= len) by (unfold len; lia).
    destruct ((e <=? 0) && (-6 <? e + len)) eqn:HA.
    + apply andb_prop in HA as [He _]; apply Z.leb_le in He.
      rewrite Z.eqb_refl.
      destruct (Z.leb_spec (e + len) 0) as [Hdp|Hdp].
      * rewrite point_app.
        rewrite (Decimal_of_str_point s "0" _ "" 0);
          [ | reflexivity | now rewrite all_digits_app, all_digits_zeros
            | simpl; lia | apply suffix_empty ].
        f_equal; f_equal.
        -- change ("0" ++ zeros (Z.to_nat (- (e + len))) ++ ds)
             with (zeros (S (Z.to_nat (- (e + len)))) ++ ds).
           rewrite N_of_digits_app, N_of_digits_zeros, Hv. lia.
        -- rewrite length_append, length_zeros, Nat2Z.inj_add, Z2Nat.id by lia.
           fold len. lia.
      * destruct (Z.leb_spec len (e + len)) as [Hge|Hlt].
        -- assert (e = 0) by lia; subst e.
           replace (Z.to_nat (0 + len - len)) with 0%nat by lia.
           cbn [zeros]. rewrite !append_nil_r.
           rewrite <- (append_nil_r ds) at 1.
           rewrite (Decimal_of_str_nopoint s ds "" 0 Hd Hl suffix_empty).
           now rewrite Hv.
        -- rewrite point_app.
           rewrite (Decimal_of_str_point s _ _ "" 0);
             [ | now apply all_digits_take | now apply all_digits_drop
               | rewrite length_take; lia | apply suffix_empty ].
           rewrite take_drop, Hv, length_drop.
           f_equal; f_equal.
           rewrite Nat2Z.inj_sub by lia. rewrite Z2Nat.id by lia. fold len. lia.
    + assert (HB : 0 < e \/ e + len <= -6).
      { apply andb_false_iff in HA as [H|H];
          [apply Z.leb_gt in H | apply Z.ltb_ge in H]; lia. }
      change (1 <=? 0) with false; cbv iota.
      assert (Hne : (e + len =? 1) = false) by (apply Z.eqb_neq; lia).
      rewrite Hne.
      destruct (Z.leb_spec len 1) as [H1|H1].
      * assert (Hone : len = 1) by lia.
        rewrite Hone; change (Z.to_nat (1 - 1)) with 0%nat; cbn [zeros].
        rewrite append_nil_r.
        change ("" ++ "E" ++ signed_str (e + 1 - 1)) with ("E" ++ signed_str (e + 1 - 1)).
        rewrite (Decimal_of_str_nopoint s ds _ (e + 1 - 1) Hd Hl (suffix_signed _)).
        rewrite Hv. f_equal; f_equal. lia.
      * rewrite point_app. change (Z.to_nat 1) with 1%nat.
        rewrite (Decimal_of_str_point s _ _ _ (e + len - 1));
          [ | now apply all_digits_take | now apply all_digits_drop
            | rewrite length_take; lia | apply suffix_signed ].
        rewrite take_drop, Hv, length_drop.
        f_equal; f_equal.
        rewrite Nat2Z.inj_sub by lia. fold len. lia.
  - destruct s; reflexivity.
  - unfold Decimal_str.
    assert (Hp : exists ds, (if (p =? 0)%N then "" else str_N p) = ds
                            /\ all_digits ds = true /\ N_of_digits ds = p).
    { destruct (N.eqb_spec p 0) as [->|_]; eexists; split; try reflexivity.
      - split; reflexivity.
      - split; [apply str_N_digits | apply str_N_value]. }
    destruct Hp as (ds & -> & Hd & Hv).
    rewrite Decimal_of_str_plain.
    + destruct s, sig; cbn -[all_digits N_of_digits];
        rewrite (digits_lower _ Hd), Hd, Hv; reflexivity.
    + rewrite plain_app, sign_plain, plain_app, (digits_plain _ Hd).
      now destruct sig.
Qed.

(** ** Round trips of the records *)

Lemma Decimal_of_obj_str (d : Decimal) : Decimal_of_obj (PStr (Decimal_str d)) = Ok d.
Proof. apply Decimal_of_str_str. Qed.

Lemma decimal_values_str_values (b : list (string * Decimal)) :
  decimal_values (str_values b) = Ok b.
Proof.
  unfold decimal_values, str_values.
  induction b as [|[k d] b IH]; [reflexivity|].
  cbn [map mapM fst snd]. rewrite Decimal_of_obj_str.
  cbn [bind]. rewrite IH. reflexivity.
Qed.

Lemma OrderBook_items (l : list OrderBook.OrderBookItem) :
  mapM OrderBook.item_of (map OrderBook.item_to l) = Ok l.
Proof.
  induction l as [|[p q] l IH]; [reflexivity|].
  cbn [map mapM]. unfold OrderBook.item_of at 1.
  cbn [OrderBook.item_to OrderBook.price OrderBook.quantity py_getindex nth_error bind].
  rewrite !Decimal_of_obj_str. cbn [bind]. rewrite IH. reflexivity.
Qed.

Lemma Ticker_round_trip (x : Ticker.t) : Ticker.from_dict (Ticker.to_dict x) = Ok x.
Proof.
  destruct x as [a b c d e f]. unfold Ticker.from_dict, Ticker.to_dict.
  cbn -[Decimal_of_obj Decimal_str].
  rewrite !Decimal_of_obj_str. reflexivity.
Qed.

Lemma OrderBook_round_trip (x : OrderBook.t) :
  OrderBook.from_dict (OrderBook.to_dict x) = Ok x.
Proof.
  destruct x as [a b]. unfold OrderBook.from_dict, OrderBook.to_dict.
  cbn -[mapM OrderBook.item_of OrderBook.item_to].
  rewrite !OrderBook_items. reflexivity.
Qed.

Lemma AccountBalance_round_trip (x : AccountBalance.t) :
  AccountBalance.from_dict (AccountBalance.to_dict x) = Ok x.
Proof.
  destruct x as [b p]. unfold AccountBalance.from_dict, AccountBalance.to_dict.
  destruct p; cbn -[decimal_values str_values];
    rewrite decimal_values_str_values; reflexivity.
Qed.

Lemma OrderResponse_round_trip (x : OrderResponse.t) :
  OrderResponse.from_dict (OrderResponse.to_dict x) = Ok x.
Proof.
  destruct x as [f u o b]. unfold OrderResponse.from_dict, OrderResponse.to_dict.
  cbn -[decimal_values str_values Decimal_of_obj Decimal_str].
  rewrite decimal_values_str_values. cbn [bind].
  rewrite !Decimal_of_obj_str. reflexivity.
Qed.

Lemma CancelOrderResponse_round_trip (x : CancelOrderResponse.t) :
  CancelOrderResponse.from_dict (CancelOrderResponse.to_dict x) = Ok x.
Proof.
  destruct x as [o b].
  unfold CancelOrderResponse.from_dict, CancelOrderResponse.to_dict.
  cbn -[decimal_values str_values].
  rewrite decimal_values_str_values. reflexivity.
Qed.

(** ** Fallible steps *)

Lemma bind_Ok {A B : Type} (r : result A) (k : A -> result B) (b : B) :
  bind r k = Ok b -> exists a, r = Ok a /\ k a = Ok b.
Proof. destruct r as [a|e]; simpl; intros H; [eauto | discriminate]. Qed.

Ltac bind_inv H :=
  repeat match type of H with
         | bind _ _ = Ok _ =>
             let a := fresh "a" in
             let Ha := fresh "Ha" in
             apply bind_Ok in H as (a & Ha & H)
         end.

(** Every element a keyed collection returns is the parse of one of the
    mapping entries of the input. *)
Lemma keyed_items_sound {A : Type} (what : string)
    (parse : string -> pydict -> result A) (items : pydict) (l : list A) :
  outcome (keyed_items what parse items) = Ok l ->
  forall x, In x l ->
  exists key item, In (key, PDict item) items /\ parse key item = Ok x.
Proof.
  revert l; induction items as [|[key v] rest IH]; intros l H x Hx.
  - simpl in H. injection H as <-. contradiction.
  - cbn [keyed_items] in H.
    assert (Hrest : forall l', outcome (keyed_items what parse rest) = Ok l' ->
              In x l' ->
              exists key0 item, In (key0, PDict item) ((key, v) :: rest)
                                /\ parse key0 item = Ok x).
    { intros l' Hl' Hin. destruct (IH l' Hl' x Hin) as (k0 & it & Hi & Hp).
      exists k0, it; split; [now right | assumption]. }
    destruct v as [| | | | | |item]; eauto.
    destruct (parse key item) as [a|e] eqn:Hp.
    + cbn [outcome] in H. apply bind_Ok in H as (l' & Hl' & H).
      injection H as <-. destruct Hx as [<- | Hx]; [|eauto].
      exists key, item; split; [now left | assumption].
    + destruct (conversion_guard (exn_cls e)); cbn [outcome] in H;
        [eauto | discriminate].
Qed.

(** The elements a keyed collection returns are the mapping entries that
    parse, in the order of the response; one warning is printed for each of
    the others. *)
Lemma keyed_items_parsed {A : Type} (what : string)
    (parse : string -> pydict -> result A) (items : pydict) (l : list A) :
  outcome (keyed_items what parse items) = Ok l ->
  l = parsed parse (mapping_entries items)
  /\ stdout (keyed_items what parse items) = warnings what parse (mapping_entries items).
Proof.
  revert l; induction items as [|[key v] rest IH]; intros l H.
  - simpl in H. injection H as <-. split; reflexivity.
  - cbn [keyed_items] in *.
    destruct v as [| | | | | |item]; cbn [mapping_entries]; try (apply IH; exact H).
    cbn [parsed warnings].
    destruct (parse key item) as [a|e] eqn:Hp.
    + cbn [outcome stdout] in *. apply bind_Ok in H as (l' & Hl' & H).
      injection H as <-. destruct (IH l' Hl') as [-> ->]. split; reflexivity.
    + destruct (conversion_guard (exn_cls e)); cbn [outcome stdout] in *;
        [|discriminate].
      destruct (IH l H) as [-> ->]. split; reflexivity.
Qed.

(** ** C1: trade side and market role *)

Lemma py_eq_str_unique (v : pyobj) (s t : string) :
  py_eq_str v s = true -> py_eq_str v t = true -> s = t.
Proof.
  destruct v; simpl; try discriminate.
  intros H1 H2; apply String.eqb_eq in H1, H2; congruence.
Qed.

Lemma roles_of_derived (your_action action : pyobj) :
  (TradeExecutionList.trade_side_of your_action,
   TradeExecutionList.market_role_of action your_action)
  = derived_roles your_action action.
Proof.
  unfold TradeExecutionList.trade_side_of, TradeExecutionList.market_role_of,
    derived_roles.
  destruct (py_eq_str your_action "both") eqn:Yo; [reflexivity|].
  destruct (py_eq_str your_action "bid") eqn:Yb;
    destruct (py_eq_str your_action "ask") eqn:Ya;
    destruct (py_eq_str action "bid") eqn:Ab;
    destruct (py_eq_str action "ask") eqn:Aa;
    try reflexivity;
    try (pose proof (py_eq_str_unique _ _ _ Yb Ya); discriminate);
    try (pose proof (py_eq_str_unique _ _ _ Ab Aa); discriminate).
Qed.

Lemma derived_roles_table (your_action action : pyobj) :
  py_eq_str action "bid" || py_eq_str action "ask" = true ->
  derived_roles your_action action = decision_table your_action action.
Proof.
  unfold derived_roles, decision_table.
  destruct (py_eq_str action "bid") eqn:Ab;
    destruct (py_eq_str action "ask") eqn:Aa; simpl; intros H;
    try discriminate; try reflexivity;
    pose proof (py_eq_str_unique _ _ _ Ab Aa); discriminate.
Qed.

Lemma parse_item_roles (tz : Z) (trade_id : string) (item : pydict)
    (x : TradeExecutionList.TradeExecution) :
  TradeExecutionList.parse_item tz trade_id item = Ok x ->
  int_of_str trade_id = Ok (TradeExecutionList.execution_id x)
  /\ (TradeExecutionList.trade_side x, TradeExecutionList.market_role x)
     = derived_roles (dict_get_default item "your_action" (PStr ""))
                     (dict_get_default item "action" (PStr "")).
Proof.
  unfold TradeExecutionList.parse_item; intros H.
  bind_inv H. injection H as <-.
  cbn [TradeExecutionList.trade_side TradeExecutionList.market_role
       TradeExecutionList.execution_id].
  split; [assumption | apply roles_of_derived].
Qed.

(** C1, as amended.  The executions that [TradeExecutionList.from_dict]
    returns are, in the order of the response, the mapping entries that
    parse, each parsed by itself: every execution [x] returned is the parse
    of an entry [(trade_id, item)] of the input, its id is [int(trade_id)],
    and its [(trade_side, market_role)] pair is computed from the
    [your_action] and [action] of that same entry, by the decision table
    with one more outcome: [your_action] [both] gives [(self, both)]; [bid]
    gives [buy] with role [taker] when [action] is [bid], [maker] when it is
    [ask] and [unknown] otherwise; [ask] gives [sell] with [taker] for
    [ask], [maker] for [bid] and [unknown] otherwise; anything else gives
    [(unknown, unknown)].  When [action] is [bid] or [ask] this is the table
    of the specification. *)
Theorem trade_roles_follow_derived_table
    (tz : Z) (d : pydict) (l : list TradeExecutionList.TradeExecution) :
  outcome (TradeExecutionList.from_dict tz (PDict d)) = Ok (TradeExecutionList.Build l) ->
  l = parsed (TradeExecutionList.parse_item tz) (mapping_entries d)
  /\ forall x, In x l ->
     exists trade_id item,
       In (trade_id, PDict item) d
       /\ TradeExecutionList.parse_item tz trade_id item = Ok x
       /\ int_of_str trade_id = Ok (TradeExecutionList.execution_id x)
       /\ let your_action := dict_get_default item "your_action" (PStr "") in
          let action := dict_get_default item "action" (PStr "") in
          (TradeExecutionList.trade_side x, TradeExecutionList.market_role x)
          = derived_roles your_action action
          /\ (py_eq_str action "bid" || py_eq_str action "ask" = true ->
              (TradeExecutionList.trade_side x, TradeExecutionList.market_role x)
              = decision_table your_action action).
Proof.
  unfold TradeExecutionList.from_dict; cbn [as_dict outcome].
  intros H. apply bind_Ok in H as (l' & Hl & H). injection H as <-.
  split; [exact (proj1 (keyed_items_parsed _ _ _ _ Hl))|].
  intros x Hx.
  destruct (keyed_items_sound _ _ _ _ Hl x Hx) as (k & item & Hin & Hp).
  exists k, item; split; [assumption|]. split; [assumption|].
  destruct (parse_item_roles _ _ _ _ Hp) as [Hid Hr].
  split; [assumption|]. cbv zeta.
  split; [assumption|].
  intros Ha. rewrite Hr. now apply derived_roles_table.
Qed.

Lemma trade_roles_witness :
  [sample_execution]
  = parsed (TradeExecutionList.parse_item 32400) (mapping_entries sample_trades)
  /\ forall x, In x [sample_execution] ->
     exists trade_id item,
       In (trade_id, PDict item) sample_trades
       /\ TradeExecutionList.parse_item 32400 trade_id item = Ok x
       /\ int_of_str trade_id = Ok (TradeExecutionList.execution_id x)
       /\ let your_action := dict_get_default item "your_action" (PStr "") in
          let action := dict_get_default item "action" (PStr "") in
          (TradeExecutionList.trade_side x, TradeExecutionList.market_role x)
          = derived_roles your_action action
          /\ (py_eq_str action "bid" || py_eq_str action "ask" = true ->
              (TradeExecutionList.trade_side x, TradeExecutionList.market_role x)
              = decision_table your_action action).
Proof.
  apply (trade_roles_follow_derived_table 32400 sample_trades [sample_execution]).
  vm_compute. reflexivity.
Defined.

(** C1 as stated fails: with [your_action] [bid] and an [action] that is
    neither [bid] nor [ask] (here the empty string, the default of a missing
    key) the parsed execution has the role [unknown], where the table as
    written gives [maker]. *)
Lemma decision_table_counterexample :
  outcome (TradeExecutionList.from_dict 32400
             (PDict [("7", PDict [("your_action", PStr "bid"); ("action", PStr "")])]))
  = Ok (TradeExecutionList.Build
          [TradeExecutionList.Execution 7 (PStr "") "buy"
             (Finite false 0 0) (Finite false 0 0) (Finite false 0 0)
             "unknown" None])
  /\ decision_table (PStr "bid") (PStr "") = ("buy", "maker").
Proof. split; vm_compute; reflexivity. Qed.

(** ** C2: round trips *)

(** *** Order ids as keys *)

Lemma c_space_not_digit (c : ascii) : is_digit c = true -> is_c_space c = false.
Proof.
  unfold is_digit, is_c_space. intros H.
  destruct (N.leb_spec 48 (N_of_ascii c)); [|discriminate].
  destruct (N.leb_spec (N_of_ascii c) 57); [|discriminate].
  destruct (N.leb_spec 9 (N_of_ascii c)); destruct (N.leb_spec (N_of_ascii c) 13);
    destruct (N.eqb_spec (N_of_ascii c) 32); simpl; try reflexivity; lia.
Qed.

Lemma digits_int_lstrip (s : string) : all_digits s = true -> int_lstrip s = s.
Proof.
  destruct s as [|c s]; [reflexivity|]. simpl. intros H.
  apply andb_prop in H as [H _]. now rewrite (c_space_not_digit _ H).
Qed.

Lemma digits_int_rstrip (s : string) : all_digits s = true -> int_rstrip s = s.
Proof.
  induction s as [|c s IH]; [reflexivity|]. simpl. intros H.
  apply andb_prop in H as [Hc Hs]. rewrite (IH Hs).
  destruct s; [now rewrite (c_space_not_digit _ Hc) | reflexivity].
Qed.

Lemma int_digits_all (s : string) (prev : bool) (acc : N) :
  all_digits s = true -> (s <> "" \/ prev = true) ->
  int_digits s prev acc = Some (N_of_digits_acc s acc).
Proof.
  revert prev acc; induction s as [|c s IH]; intros prev acc H Hne.
  - destruct Hne as [Hne| ->]; [congruence | reflexivity].
  - simpl in *. apply andb_prop in H as [Hc Hs]. rewrite Hc.
    apply IH; [assumption | now right].
Qed.

Lemma int_of_str_digits (s : string) :
  all_digits s = true -> s <> "" -> int_of_str s = Ok (Z.of_N (N_of_digits s)).
Proof.
  intros H Hne. unfold int_of_str, int_strip.
  rewrite (digits_int_lstrip _ H), (digits_int_rstrip _ H).
  destruct s as [|c s]; [congruence|].
  pose proof H as H'. simpl in H'. apply andb_prop in H' as [Hc _].
  unfold split_sign.
  destruct (digit_not_sign c Hc) as [Hm Hp].
  rewrite Hm, Hp.
  now rewrite (int_digits_all _ false 0 H (or_introl Hne)).
Qed.

Lemma str_Z_nonneg (z : Z) : 0 <= z -> str_Z z = str_N (Z.to_N z).
Proof.
  intros H. rewrite str_Z_sign.
  replace (z <? 0) with false by (symmetry; apply Z.ltb_ge; lia).
  simpl. f_equal. lia.
Qed.

Lemma str_N_nonempty (n : N) : str_N n <> "".
Proof.
  pose proof (str_N_length n) as H. destruct (str_N n); simpl in H; [lia | discriminate].
Qed.

Lemma int_of_str_str_Z (z : Z) : 0 <= z -> int_of_str (str_Z z) = Ok z.
Proof.
  intros H. rewrite (str_Z_nonneg _ H).
  rewrite (int_of_str_digits _ (str_N_digits _) (str_N_nonempty _)), str_N_value.
  f_equal. lia.
Qed.

Lemma isdigit_str_Z (z : Z) : 0 <= z -> OpenOrderList.isdigit (str_Z z) = true.
Proof.
  intros H. rewrite (str_Z_nonneg _ H). unfold OpenOrderList.isdigit.
  rewrite str_N_digits, andb_true_r.
  destruct (String.eqb_spec (str_N (Z.to_N z)) ""); [|reflexivity].
  now apply str_N_nonempty in e.
Qed.

Lemma str_Z_inj (a b : Z) : 0 <= a -> 0 <= b -> str_Z a = str_Z b -> a = b.
Proof.
  intros Ha Hb H. rewrite (str_Z_nonneg _ Ha), (str_Z_nonneg _ Hb) in H.
  apply (f_equal N_of_digits) in H. rewrite !str_N_value in H. lia.
Qed.

Lemma dict_get_app (a b : pydict) (k : string) :
  dict_get (a ++ b)%list k
  = match dict_get a k with
    | Some v => Some v
    | None => dict_get b k
    end.
Proof.
  induction a as [|[k' v'] a IH]; [reflexivity|]. simpl.
  destruct (String.eqb k' k); [reflexivity | exact IH].
Qed.

Lemma dict_set_fresh (d : pydict) (k : string) (v : pyobj) :
  dict_get d k = None -> dict_set d k v = (d ++ [(k, v)])%list.
Proof.
  induction d as [|[k' v'] d IH]; [reflexivity|]. simpl.
  destruct (String.eqb k' k); [discriminate|]. intros H. now rewrite IH.
Qed.

Lemma set_order_fresh (d : list (Z * OpenOrderList.OpenOrder)) (k : Z)
    (v : OpenOrderList.OpenOrder) :
  ~ In k (map fst d) -> OpenOrderList.set_order d k v = (d ++ [(k, v)])%list.
Proof.
  induction d as [|[k' v'] d IH]; [reflexivity|]. simpl. intros H.
  destruct (Z.eqb_spec k' k); [tauto|]. rewrite IH; [reflexivity | tauto].
Qed.

Lemma parse_order_item_to (tz : Z) (o : OpenOrderList.OpenOrder) (epoch : datetime) :
  fromtimestamp tz 0 = Ok epoch ->
  OpenOrderList.parse_order tz (OpenOrderList.item_to o)
  = Ok (with_order_time (isoformat epoch) o).
Proof.
  intros He. destruct o as [cp ty p q t].
  unfold OpenOrderList.parse_order, OpenOrderList.item_to, with_order_time.
  cbn -[Decimal_of_obj Decimal_str fromtimestamp isoformat].
  rewrite !Decimal_of_obj_str.
  cbn -[fromtimestamp isoformat]. rewrite He. reflexivity.
Qed.

Lemma to_dict_fold (l : list (Z * OpenOrderList.OpenOrder)) (acc : pydict) :
  NoDup (map fst l) ->
  Forall (fun kv => 0 <= fst kv) l ->
  (forall kv, In kv l -> dict_get acc (str_Z (fst kv)) = None) ->
  fold_left (fun result kv =>
               dict_set result (str_Z (fst kv)) (OpenOrderList.item_to (snd kv)))
            l acc
  = (acc ++ map (fun kv => (str_Z (fst kv), OpenOrderList.item_to (snd kv))) l)%list.
Proof.
  revert acc; induction l as [|[k o] l IH]; intros acc Hn Hp Hf.
  - simpl. now rewrite app_nil_r.
  - cbn [fold_left map fst snd]. inversion Hn as [|? ? Hk Hn']; subst.
    inversion Hp as [|? ? Hk0 Hp']; subst. cbn [fst] in Hk0.
    rewrite (dict_set_fresh acc) by (apply (Hf (k, o)); now left).
    rewrite IH; [now rewrite <- app_assoc | assumption | assumption |].
    intros [k' o'] Hin. rewrite dict_get_app, (Hf (k', o')) by now right.
    cbn [dict_get fst].
    destruct (String.eqb_spec (str_Z k) (str_Z k')) as [He|]; [|reflexivity].
    exfalso. apply Hk. cbn [map fst] in *.
    assert (0 <= k') by (rewrite Forall_forall in Hp'; exact (Hp' (k', o') Hin)).
    apply str_Z_inj in He; [|assumption|assumption]. subst k'.
    apply (in_map fst) in Hin. exact Hin.
Qed.

Lemma collect_wire (tz : Z) (epoch : datetime)
    (l acc : list (Z * OpenOrderList.OpenOrder)) :
  fromtimestamp tz 0 = Ok epoch ->
  NoDup (map fst l) ->
  Forall (fun kv => 0 <= fst kv) l ->
  (forall kv, In kv l -> ~ In (fst kv) (map fst acc)) ->
  OpenOrderList.collect tz
    (map (fun kv => (str_Z (fst kv), OpenOrderList.item_to (snd kv))) l) acc
  = Ok (acc ++ map (fun kv => (fst kv, with_order_time (isoformat epoch) (snd kv))) l)%list.
Proof.
  intros He. revert acc; induction l as [|[k o] l IH]; intros acc Hn Hp Hf.
  - simpl. now rewrite app_nil_r.
  - cbn [map fst snd OpenOrderList.collect].
    inversion Hn as [|? ? Hk Hn']; subst.
    inversion Hp as [|? ? Hk0 Hp']; subst. cbn [fst] in Hk0.
    rewrite (isdigit_str_Z _ Hk0), (int_of_str_str_Z _ Hk0). cbn [bind].
    rewrite (parse_order_item_to tz o epoch He). cbn [bind].
    rewrite (set_order_fresh acc) by (apply (Hf (k, o)); now left).
    rewrite IH; [now rewrite <- app_assoc | assumption | assumption |].
    intros [k' o'] Hin. rewrite map_app, in_app_iff. cbn [map fst In].
    intros [Ha|[Hk'|[]]].
    + exact (Hf (k', o') (or_intror Hin) Ha).
    + subst k'. apply Hk. apply (in_map fst) in Hin. exact Hin.
Qed.

Lemma OpenOrderList_round_trip (tz : Z) (x : OpenOrderList.t) (epoch : datetime) :
  NoDup (map fst (OpenOrderList.open_orders x)) ->
  Forall (fun kv => 0 <= fst kv) (OpenOrderList.open_orders x) ->
  fromtimestamp tz 0 = Ok epoch ->
  OpenOrderList.from_dict tz (OpenOrderList.to_dict x)
  = Ok (OpenOrderList.Build
          (map (fun kv => (fst kv, with_order_time (isoformat epoch) (snd kv)))
               (OpenOrderList.open_orders x))).
Proof.
  intros Hn Hp He. destruct x as [l]. cbn [OpenOrderList.open_orders] in *.
  unfold OpenOrderList.from_dict, OpenOrderList.to_dict.
  cbn [OpenOrderList.open_orders as_dict bind].
  rewrite (to_dict_fold l [] Hn Hp) by reflexivity. cbn [app].
  rewrite (collect_wire tz epoch l [] He Hn Hp) by (intros kv _ []).
  reflexivity.
Qed.

Lemma candles_come_back (tz : Z) (cs : list PriceChartData.CandlestickData)
    (ohlc : list pyobj) :
  mapM (PriceChartData.candle_to tz) cs = Ok ohlc ->
  mapM (PriceChartData.candle_of tz) ohlc = mapM (retimed tz) cs.
Proof.
  revert ohlc; induction cs as [|[ts o h l c v] cs IH]; intros ohlc H.
  - injection H as <-. reflexivity.
  - cbn [mapM] in H. apply bind_Ok in H as (item & Hi & H).
    apply bind_Ok in H as (rest & Hr & H). injection H as <-.
    cbn [mapM]. rewrite (IH rest Hr).
    unfold PriceChartData.candle_to in Hi.
    apply bind_Ok in Hi as (ms & Hms & Hi). injection Hi as <-.
    unfold retimed. cbn [PriceChartData.timestamp PriceChartData.open_price
      PriceChartData.high_price PriceChartData.low_price PriceChartData.close_price
      PriceChartData.volume] in *.
    rewrite Hms. cbn [bind].
    unfold PriceChartData.candle_of.
    cbn -[Decimal_of_obj Decimal_str PriceChartData.timestamp_iso mapM retimed].
    destruct (PriceChartData.timestamp_iso tz ms) as [iso|e];
      cbn -[Decimal_of_obj Decimal_str mapM retimed]; [|reflexivity].
    rewrite !Decimal_of_obj_str. reflexivity.
Qed.

Lemma mapM_fixed {A : Type} (f : A -> result A) (l : list A) :
  Forall (fun x => f x = Ok x) l -> mapM f l = Ok l.
Proof.
  induction 1 as [|x l Hx Hl IH]; [reflexivity|].
  cbn [mapM]. now rewrite Hx, IH.
Qed.

Lemma PriceChartData_round_trip (tz : Z) (x : PriceChartData.t) (code : string)
    (data : pyobj) :
  PriceChartData.to_dict tz x = Ok data ->
  PriceChartData.timeframe x = timeframe_label code ->
  PriceChartData.from_dict tz data (PriceChartData.currency_pair x) code
    (PriceChartData.start_date x) (PriceChartData.end_date x)
  = (candlesticks <- mapM (retimed tz) (PriceChartData.candlesticks x) ;;
     Ok (PriceChartData.Build (PriceChartData.currency_pair x)
           (PriceChartData.timeframe x) (PriceChartData.start_date x)
           (PriceChartData.end_date x) candlesticks (PriceChartData.data_count x))).
Proof.
  destruct x as [cp tf s e cs n]. cbn [PriceChartData.currency_pair
    PriceChartData.timeframe PriceChartData.start_date PriceChartData.end_date
    PriceChartData.candlesticks PriceChartData.data_count].
  unfold PriceChartData.to_dict. cbn [PriceChartData.candlesticks PriceChartData.data_count].
  intros H Hl. apply bind_Ok in H as (ohlc & Ho & H). injection H as <-.
  unfold PriceChartData.from_dict.
  cbn -[mapM PriceChartData.candle_of PriceChartData.lookup retimed].
  rewrite (candles_come_back tz cs ohlc Ho).
  destruct (mapM (retimed tz) cs) as [cs'|err]; cbn [bind]; [|reflexivity].
  rewrite Hl. reflexivity.
Qed.

(** C2, as amended.  For [Ticker], [OrderBook], [AccountBalance],
    [OrderResponse] and [CancelOrderResponse], [from_dict(to_dict(x))]
    succeeds and rebuilds [x] field for field, for every [x]: each decimal is
    written by [str] and read back by [Decimal] without loss.  (Rebuilt
    records compare equal under Python's [==] whenever no decimal field is a
    NaN.)  [OpenOrderList] comes back with every order under its id and
    with its pair, side, price and quantity, for ids that are not negative;
    only the order time is replaced by the local time of the epoch, because
    [to_dict] writes it under [date] and [from_dict] reads [timestamp].
    [PriceChartData], parsed again with the period code of its time-frame
    label, comes back with the same pair, label, dates, count and candle
    prices; each candle's timestamp is the result of converting it to
    milliseconds and back, so the record is rebuilt exactly when that
    conversion returns every timestamp as it was. *)
Theorem round_trip_records :
  (forall x, Ticker.from_dict (Ticker.to_dict x) = Ok x)
  /\ (forall x, OrderBook.from_dict (OrderBook.to_dict x) = Ok x)
  /\ (forall x, AccountBalance.from_dict (AccountBalance.to_dict x) = Ok x)
  /\ (forall x, OrderResponse.from_dict (OrderResponse.to_dict x) = Ok x)
  /\ (forall x, CancelOrderResponse.from_dict (CancelOrderResponse.to_dict x) = Ok x)
  /\ (forall tz x epoch,
        NoDup (map fst (OpenOrderList.open_orders x)) ->
        Forall (fun kv => 0 <= fst kv) (OpenOrderList.open_orders x) ->
        fromtimestamp tz 0 = Ok epoch ->
        OpenOrderList.from_dict tz (OpenOrderList.to_dict x)
        = Ok (OpenOrderList.Build
                (map (fun kv => (fst kv, with_order_time (isoformat epoch) (snd kv)))
                     (OpenOrderList.open_orders x))))
  /\ (forall tz x code data,
        PriceChartData.to_dict tz x = Ok data ->
        PriceChartData.timeframe x = timeframe_label code ->
        PriceChartData.from_dict tz data (PriceChartData.currency_pair x) code
          (PriceChartData.start_date x) (PriceChartData.end_date x)
        = (candlesticks <- mapM (retimed tz) (PriceChartData.candlesticks x) ;;
           Ok (PriceChartData.Build (PriceChartData.currency_pair x)
                 (PriceChartData.timeframe x) (PriceChartData.start_date x)
                 (PriceChartData.end_date x) candlesticks
                 (PriceChartData.data_count x)))
        /\ (Forall (fun c => retimed tz c = Ok c) (PriceChartData.candlesticks x) ->
            PriceChartData.from_dict tz data (PriceChartData.currency_pair x) code
              (PriceChartData.start_date x) (PriceChartData.end_date x)
            = Ok x)).
Proof.
  repeat apply conj.
  - apply Ticker_round_trip.
  - apply OrderBook_round_trip.
  - apply AccountBalance_round_trip.
  - apply OrderResponse_round_trip.
  - apply CancelOrderResponse_round_trip.
  - apply OpenOrderList_round_trip.
  - intros tz x code data Hd Hl.
    pose proof (PriceChartData_round_trip tz x code data Hd Hl) as Hr.
    split; [exact Hr|].
    intros Hf. rewrite Hr, (mapM_fixed _ _ Hf). now destruct x.
Qed.

Lemma round_trip_witness :
  OpenOrderList.from_dict 32400 (OpenOrderList.to_dict sample_open_orders)
  = Ok (OpenOrderList.Build
          (map (fun kv =>
                  (fst kv,
                   with_order_time
                     (isoformat (Datetime 1970 1 1 9 0 0 0)) (snd kv)))
               (OpenOrderList.open_orders sample_open_orders)))
  /\ (PriceChartData.from_dict 32400
        (PDict [("ohlc_data", PList []); ("data_count", PInt 0)])
        (PriceChartData.currency_pair sample_chart) "60"
        (PriceChartData.start_date sample_chart)
        (PriceChartData.end_date sample_chart)
      = (candlesticks <- mapM (retimed 32400) (PriceChartData.candlesticks sample_chart) ;;
         Ok (PriceChartData.Build (PriceChartData.currency_pair sample_chart)
               (PriceChartData.timeframe sample_chart)
               (PriceChartData.start_date sample_chart)
               (PriceChartData.end_date sample_chart) candlesticks
               (PriceChartData.data_count sample_chart)))
      /\ (Forall (fun c => retimed 32400 c = Ok c)
                 (PriceChartData.candlesticks sample_chart) ->
          PriceChartData.from_dict 32400
            (PDict [("ohlc_data", PList []); ("data_count", PInt 0)])
            (PriceChartData.currency_pair sample_chart) "60"
            (PriceChartData.start_date sample_chart)
            (PriceChartData.end_date sample_chart)
          = Ok sample_chart)).
Proof.
  split.
  - apply (proj1 (proj2 (proj2 (proj2 (proj2 (proj2 round_trip_records)))))
             32400 sample_open_orders (Datetime 1970 1 1 9 0 0 0)).
    + simpl. constructor; [intros [] | constructor].
    + repeat constructor. simpl. discriminate.
    + vm_compute. reflexivity.
  - apply (proj2 (proj2 (proj2 (proj2 (proj2 (proj2 round_trip_records)))))
             32400 sample_chart "60"
             (PDict [("ohlc_data", PList []); ("data_count", PInt 0)])).
    + vm_compute. reflexivity.
    + vm_compute. reflexivity.
Defined.

(** C2 as stated fails for five records.  [to_dict] of
    [TradeExecutionList], [DepositRecords] and [WithdrawalRecords] returns a
    list, on which [from_dict] calls [items()]; [CurrencyPair.to_dict] uses
    the record's own field names, of which [from_dict] reads none;
    [OpenOrderList.to_dict] writes the order time under [date], which
    [from_dict] does not read, so the time comes back as the epoch. *)
Lemma round_trip_counterexample :
  outcome (TradeExecutionList.from_dict 32400
             (TradeExecutionList.to_dict (TradeExecutionList.Build [sample_execution])))
  = Raise (Exn AttributeError "'list' object has no attribute 'items'")
  /\ outcome (DepositRecords.from_dict (DepositRecords.to_dict sample_deposits))
     = Raise (Exn AttributeError "'list' object has no attribute 'items'")
  /\ outcome (WithdrawalRecords.from_dict (WithdrawalRecords.to_dict sample_withdrawals))
     = Raise (Exn AttributeError "'list' object has no attribute 'items'")
  /\ CurrencyPair.from_dict (CurrencyPair.to_dict sample_pair)
     = Raise (Exn KeyError "'item_japanese'")
  /\ OpenOrderList.from_dict 32400 (OpenOrderList.to_dict sample_open_orders)
     = Ok (OpenOrderList.Build
             [(184, OpenOrderList.Order (PStr "btc_jpy") (PStr "bid")
                      (Finite false 5000000 0) (Finite false 1 (-2))
                      "1970-01-01T09:00:00")])
  /\ OpenOrderList.open_orders sample_open_orders
     = [(184, OpenOrderList.Order (PStr "btc_jpy") (PStr "bid")
                (Finite false 5000000 0) (Finite false 1 (-2))
                "2023-11-15T07:13:20")].
Proof. repeat split; vm_compute; reflexivity. Qed.

(** ** C10: the candle count *)

(** C10.  [PriceChartData.from_dict] takes [data_count] from the response's
    own [data_count] member, read with [int] and [0] when the member is
    absent, whatever the number of candles parsed; and there are inputs
    where it differs from the length of [candlesticks]. *)
Theorem data_count_is_the_response_field :
  (forall tz data currency_pair timeframe start_date end_date x,
      PriceChartData.from_dict tz data currency_pair timeframe start_date end_date = Ok x ->
      exists d,
        data = PDict d
        /\ py_int (dict_get_default d "data_count" (PInt 0))
           = Ok (PriceChartData.data_count x)
        /\ (dict_get d "data_count" = None -> PriceChartData.data_count x = 0))
  /\ (exists x,
        PriceChartData.from_dict 32400
          (PDict [("ohlc_data", PList []); ("data_count", PInt 5)])
          "btc_jpy" "60" "2023-11-15T00:00:00" "2023-11-16T00:00:00" = Ok x
        /\ PriceChartData.data_count x = 5
        /\ List.length (PriceChartData.candlesticks x) = 0%nat).
Proof.
  split.
  - intros tz data cp tf s e x H. unfold PriceChartData.from_dict in H.
    bind_inv H. injection H as <-.
    destruct data; try discriminate. injection Ha as ->.
    eexists; split; [reflexivity|]. split; [assumption|].
    cbn [PriceChartData.data_count]. intros Hn.
    unfold dict_get_default in Ha2. rewrite Hn in Ha2. simpl in Ha2. congruence.
  - eexists. split; [vm_compute; reflexivity|]. split; reflexivity.
Qed.

Lemma data_count_witness :
  exists d,
    PDict [("ohlc_data", PList [PDict [("time", PInt 1700000000000); ("open", PStr "1")]]);
           ("data_count", PStr "3")] = PDict d
    /\ py_int (dict_get_default d "data_count" (PInt 0)) = Ok 3
    /\ (dict_get d "data_count" = None -> 3 = 0).
Proof.
  apply (proj1 data_count_is_the_response_field 32400
           (PDict [("ohlc_data", PList [PDict [("time", PInt 1700000000000); ("open", PStr "1")]]);
                   ("data_count", PStr "3")])
           "btc_jpy" "60" "" ""
           (PriceChartData.Build "btc_jpy" "1時間足" "" ""
              [PriceChartData.Candle "2023-11-15T07:13:20" (Finite false 1 0)
                 (Finite false 0 0) (Finite false 0 0) (Finite false 0 0)
                 (Finite false 0 0)] 3)).
  vm_compute. reflexivity.
Defined.

(** ** C9: the allow-list of [get_trade_executions] *)

Lemma supported_false (p : string) :
  p <> "btc_jpy" -> p <> "eth_jpy" -> p <> "xym_jpy" ->
  Tools.supported (PStr p) = false.
Proof.
  intros H1 H2 H3; unfold Tools.supported, py_eq_str.
  apply String.eqb_neq in H1, H2, H3. now rewrite H1, H2, H3.
Qed.

(** C9.  With credentials configured, [get_trade_executions] called with a
    currency pair outside [btc_jpy], [eth_jpy], [xym_jpy] raises the
    unsupported-pair [ValueError] and leaves the world as it was: no request
    has reached the transport, whatever the other arguments. *)
Theorem unsupported_pair_rejected_before_transport
    (E : env) (api : ZaifApi) (provider : ApiKeyAuthProvider.t)
    (p : string) (limit : Z) (start_date end_date : string) (w : world) :
  auth_provider api = Some provider ->
  p <> "btc_jpy" -> p <> "eth_jpy" -> p <> "xym_jpy" ->
  Tools.get_trade_executions E api (Some p) limit start_date end_date w
  = (Raise (Tools.unsupported_pair p), w)
  /\ sent (snd (Tools.get_trade_executions E api (Some p) limit start_date end_date w))
     = sent w.
Proof.
  intros Ha H1 H2 H3.
  assert (Hr : Tools.get_trade_executions E api (Some p) limit start_date end_date w
               = (Raise (Tools.unsupported_pair p), w)).
  { unfold Tools.get_trade_executions, Tools.require_credentials.
    rewrite Ha, (supported_false p H1 H2 H3). reflexivity. }
  rewrite Hr. split; reflexivity.
Qed.

Lemma unsupported_pair_witness :
  Tools.get_trade_executions sample_env sample_api (Some "doge_jpy") 20 "" "" empty_world
  = (Raise (Tools.unsupported_pair "doge_jpy"), empty_world)
  /\ sent (snd (Tools.get_trade_executions sample_env sample_api (Some "doge_jpy") 20 "" ""
                  empty_world))
     = sent empty_world.
Proof.
  apply (unsupported_pair_rejected_before_transport sample_env sample_api
           sample_provider "doge_jpy" 20 "" "" empty_world);
    [reflexivity | discriminate | discriminate | discriminate].
Defined.

(** ** C4: no credentials, no transport *)

Lemma post_refused (E : env) (url : string) (params : option nat)
    (hdrs : option headers) (w : world) :
  HttpClient.post E None url params hdrs w = (Raise HttpClient.missing_credentials, w).
Proof. reflexivity. Qed.

Lemma call_refused (E : env) (api : ZaifApi) (d : params) (w : world) :
  auth_provider api = None ->
  exists w', facade_post E api d w = (Raise HttpClient.missing_credentials, w')
             /\ sent w' = sent w.
Proof.
  intros H; unfold facade_post, mbind, new_dict. rewrite H.
  eexists; split; reflexivity.
Qed.

Lemma bind_call_refused {A : Type} (E : env) (api : ZaifApi) (d : params)
    (k : pyobj -> M A) (w : world) :
  auth_provider api = None ->
  refused (data <~ facade_post E api d ;; k data) w.
Proof.
  intros H. destruct (call_refused E api d w H) as (w' & Hc & Hs).
  exists HttpClient.missing_credentials, w'; unfold mbind; rewrite Hc.
  repeat split; [now left | assumption].
Qed.

Lemma handler_refused {A : Type} (api : ZaifApi) (k : unit -> M A) (w : world) :
  auth_provider api = None ->
  refused (u <~ Tools.require_credentials api ;; k u) w.
Proof.
  intros H. exists Tools.missing_credentials, w.
  unfold mbind, Tools.require_credentials; rewrite H.
  repeat split; now right.
Qed.

Lemma float_of_Decimal_quiet (d : Decimal) :
  is_snan d = false -> float_of_Decimal d = Ok (FloatOf d).
Proof. destruct d as [| |s [] p]; simpl; intros H; [| |discriminate|]; reflexivity. Qed.

(** C4, as amended.  Without credentials, no authenticated operation lets a
    request reach the transport, and each ends with the unauthenticated
    error: [HttpClient.post], the four account calls, [cancel_order],
    [get_active_orders] and [get_trade_history] of the trade facade, and the
    five tool handlers, for all arguments.  [TradeApi.open_order], whose
    price and amount are an [int], a [float] or a [Decimal], converts both
    with [float] before it calls [post]: it ends with the unauthenticated
    error when both conversions succeed; when one fails (an [int] beyond the
    range of a [float], a signalling NaN) it ends with the exception of the
    first conversion that fails, the [OverflowError] or [ValueError] of
    [float]; and in every case the transport sees nothing. *)
Theorem unauthenticated_guard (E : env) (api : ZaifApi) (w : world) :
  auth_provider api = None ->
  (forall url params hdrs, refused (HttpClient.post E None url params hdrs) w)
  /\ refused (AccountApi.get_info E api) w
  /\ refused (AccountApi.get_personal_info E api) w
  /\ (forall currency count from_ts end_ts,
        refused (AccountApi.get_deposit_history E api currency count from_ts end_ts) w)
  /\ (forall currency count from_ts end_ts,
        refused (AccountApi.get_withdraw_history E api currency count from_ts end_ts) w)
  /\ (forall order_id pair is_token,
        refused (TradeApi.cancel_order E api order_id pair is_token) w)
  /\ (forall pair, refused (TradeApi.get_active_orders E api pair) w)
  /\ (forall pair count from_ts end_ts,
        refused (TradeApi.get_trade_history E api pair count from_ts end_ts) w)
  /\ (forall pair action price amount p a,
        py_float price = Ok p -> py_float amount = Ok a ->
        refused (TradeApi.open_order E api pair action price amount) w)
  /\ (forall pair action price amount e,
        py_float price = Raise e
        \/ ((exists p, py_float price = Ok p) /\ py_float amount = Raise e) ->
        TradeApi.open_order E api pair action price amount w = (Raise e, w))
  /\ (forall pair action price amount,
        sent (snd (TradeApi.open_order E api pair action price amount w)) = sent w)
  /\ refused (Tools.get_account_balance E api) w
  /\ (forall pair order_type price quantity,
        refused (Tools.place_order E api pair order_type price quantity) w)
  /\ (forall order_id pair, refused (Tools.cancel_order E api order_id pair) w)
  /\ (forall pair, refused (Tools.get_open_orders E api pair) w)
  /\ (forall pair limit start_date end_date,
        refused (Tools.get_trade_executions E api pair limit start_date end_date) w).
Proof.
  intros H.
  assert (Hopen : forall pair action price amount p a,
             py_float price = Ok p -> py_float amount = Ok a ->
             refused (TradeApi.open_order E api pair action price amount) w).
  { intros pair action price amount p a Hp Ha. unfold TradeApi.open_order.
    rewrite Hp, Ha.
    apply (bind_call_refused E api _ _ w H). }
  assert (Hfail : forall pair action price amount e,
             py_float price = Raise e
             \/ ((exists p, py_float price = Ok p) /\ py_float amount = Raise e) ->
             TradeApi.open_order E api pair action price amount w = (Raise e, w)).
  { intros pair action price amount e [Hp|[[p Hp] Ha]]; unfold TradeApi.open_order;
      rewrite Hp; [reflexivity|]. unfold mbind at 1, lift at 1.
    rewrite Ha. reflexivity. }
  repeat split; intros.
  - exists HttpClient.missing_credentials, w; rewrite post_refused.
    repeat split; now left.
  - now apply bind_call_refused.
  - now apply bind_call_refused.
  - now apply bind_call_refused.
  - now apply bind_call_refused.
  - now apply bind_call_refused.
  - now apply bind_call_refused.
  - now apply bind_call_refused.
  - now apply (Hopen pair action price amount p a).
  - now apply Hfail.
  - unfold TradeApi.open_order, facade_post, mbind, lift, new_dict.
    rewrite H.
    destruct (py_float price); [|reflexivity].
    destruct (py_float amount); reflexivity.
  - now apply handler_refused.
  - now apply handler_refused.
  - now apply handler_refused.
  - now apply handler_refused.
  - now apply handler_refused.
Qed.

Lemma unauthenticated_guard_witness :
  refused (AccountApi.get_info sample_env anonymous_api) empty_world.
Proof.
  exact (proj1 (proj2 (unauthenticated_guard sample_env anonymous_api empty_world
                         eq_refl))).
Defined.

(** C4 as stated fails for [TradeApi.open_order]: with no credentials and
    the [int] [10 ** 400] as price, [float(price)] raises [OverflowError]
    before [post] is reached, so the error is not the unauthenticated one;
    likewise a [Decimal] that is a signalling NaN makes [float] raise its
    own [ValueError].  Both are calls of the facade method itself, whose
    signature admits an [int], a [float] or a [Decimal]; the handler
    [place_order] checks the credentials before it converts anything.
    (Nothing is sent.) *)
Lemma unauthenticated_guard_counterexample :
  TradeApi.open_order sample_env anonymous_api "btc_jpy" "bid"
    (NInt (10 ^ 400)) (NInt 1) empty_world
  = (Raise (Exn OverflowError "int too large to convert to float"), empty_world)
  /\ ~ unauthenticated (Exn OverflowError "int too large to convert to float")
  /\ TradeApi.open_order sample_env anonymous_api "btc_jpy" "bid"
       (NDecimal (NaN false true 0)) (NDecimal (Finite false 1 (-2))) empty_world
     = (Raise (value_error "cannot convert signaling NaN to float"), empty_world)
  /\ ~ unauthenticated (value_error "cannot convert signaling NaN to float").
Proof.
  split; [vm_compute; reflexivity|].
  split; [intros [H|H]; discriminate H|].
  split; [reflexivity|].
  intros [H|H]; discriminate H.
Qed.

(** ** The nonce *)

Lemma Decimal_of_str_fixed (neg : bool) (ip fp : string) :
  all_digits ip = true -> all_digits fp = true -> (1 <= String.length ip)%nat ->
  Decimal_of_str (sign_str neg ++ ip ++ String "." fp)
  = Ok (Finite neg (N_of_digits (ip ++ fp)) (- Z.of_nat (String.length fp))).
Proof.
  intros Hi Hf Li.
  rewrite <- (append_nil_r fp) at 1.
  rewrite (Decimal_of_str_point neg ip fp "" 0 Hi Hf Li suffix_empty).
  reflexivity.
Qed.

Lemma pad_digits (w : nat) (z : Z) : all_digits (pad w z) = true.
Proof.
  unfold pad, zero_pad. now rewrite all_digits_app, all_digits_zeros, str_N_digits.
Qed.

Lemma pad_value (w : nat) (z : Z) : N_of_digits (pad w z) = Z.to_N z.
Proof.
  unfold pad, zero_pad.
  rewrite N_of_digits_app, N_of_digits_zeros, str_N_value. lia.
Qed.

Lemma str_N_fuel_length (fuel : nat) (n : N) (k : nat) :
  (1 <= k)%nat -> (n < 10 ^ N.of_nat k)%N ->
  (String.length (str_N_fuel fuel n "") <= k)%nat.
Proof.
  revert n k; induction fuel as [|fuel IH]; intros n k Hk Hn; [simpl; lia|].
  cbn [str_N_fuel]. destruct (N.ltb_spec n 10) as [Hlt|Hge]; [simpl; lia|].
  rewrite str_N_fuel_app, length_append. simpl.
  destruct k as [|[|k]]; [lia | simpl in Hn; lia |].
  assert ((String.length (str_N_fuel fuel (n / 10) "") <= S k)%nat); [|lia].
  apply IH; [lia|].
  apply N.Div0.div_lt_upper_bound.
  rewrite <- N.pow_succ_r', <- Nat2N.inj_succ. exact Hn.
Qed.

Lemma pad_length (z : Z) : 0 <= z < 1000000 -> String.length (pad 6 z) = 6%nat.
Proof.
  intros H. unfold pad, zero_pad. rewrite length_append, length_zeros.
  assert ((String.length (str_N (Z.to_N z)) <= 6)%nat); [|lia].
  apply str_N_fuel_length; [lia|].
  change (10 ^ N.of_nat 6)%N with 1000000%N. lia.
Qed.

(** The nonce is always produced: the text built from the clock reading is
    a decimal literal. *)
Lemma generate_at_value (mk : datetime -> Z) (now : datetime) :
  NonceGenerator.generate_at mk now
  = Ok (Finite (mk now <? 0)
               (N_of_digits (str_N (Z.abs_N (mk now)) ++ pad 6 (microsecond now)))
               (- Z.of_nat (String.length (pad 6 (microsecond now))))).
Proof.
  unfold NonceGenerator.generate_at.
  rewrite str_Z_sign, append_assoc.
  apply Decimal_of_str_fixed;
    [apply str_N_digits | apply pad_digits | apply str_N_length].
Qed.

Lemma generate_at_valid (mk : datetime -> Z) (now : datetime) :
  valid_reading now ->
  NonceGenerator.generate_at mk now
  = Ok (Finite (mk now <? 0)
               (Z.abs_N (mk now) * 1000000 + Z.to_N (microsecond now))
               (-6)).
Proof.
  intros H. rewrite generate_at_value, N_of_digits_app, str_N_value, pad_value.
  rewrite (pad_length _ H). reflexivity.
Qed.

Lemma generate_runs (E : env) (w : world) :
  exists nonce,
    NonceGenerator.generate_at (mktime E) (clock E (reads w)) = Ok nonce
    /\ NonceGenerator.generate E w
       = (Ok nonce, World (heap w) (S (reads w)) (sent w) (printed w)).
Proof.
  eexists; split; [apply generate_at_value|].
  unfold NonceGenerator.generate, mbind, datetime_now, lift.
  now rewrite generate_at_value.
Qed.

(** ** The signer and the dictionary it writes to *)

Lemma nth_set_nth_same (l : list params) (r : nat) (d : params) :
  (r < List.length l)%nat -> nth r (set_nth l r d) [] = d.
Proof.
  revert r; induction l as [|x l IH]; intros [|r] H; simpl in *; try lia.
  - reflexivity.
  - apply IH; lia.
Qed.

Lemma nth_set_nth_other (l : list params) (r r' : nat) (d : params) :
  r' <> r -> nth r' (set_nth l r d) [] = nth r' l [].
Proof.
  revert r r'; induction l as [|x l IH]; intros [|r] [|r'] H; simpl;
    try reflexivity; try congruence.
  apply IH; congruence.
Qed.

Lemma nth_nonempty_in_range (l : list params) (r : nat) :
  nth r l [] <> [] -> (r < List.length l)%nat.
Proof.
  intros H. destruct (Nat.lt_ge_cases r (List.length l)) as [Hlt|Hge]; [assumption|].
  now rewrite nth_overflow in H.
Qed.

(** *** Encoding *)

Lemma utf8_encode_encodable (s : string) :
  encodable s = true -> utf8_encode s = Ok tt.
Proof. unfold encodable, utf8_encode. now destruct (encode_error s). Qed.

Lemma utf8_encode_raises (s : string) (e : exn) :
  utf8_encode s = Raise e -> exn_cls e = UnicodeEncodeError /\ encodable s = false.
Proof.
  unfold encodable, utf8_encode. destruct (encode_error s) as [[[pos cp] run]|];
    intros H; [|discriminate].
  injection H as <-. split; reflexivity.
Qed.

Lemma utf8_encode_cases (s : string) :
  (utf8_encode s = Ok tt /\ encodable s = true)
  \/ (exists e, utf8_encode s = Raise e /\ exn_cls e = UnicodeEncodeError
                /\ encodable s = false).
Proof.
  destruct (utf8_encode s) as [[]|e] eqn:H.
  - left. split; [reflexivity|]. unfold encodable, utf8_encode in *.
    now destruct (encode_error s).
  - right. exists e. split; [reflexivity|]. now apply utf8_encode_raises.
Qed.

Lemma urlencode_check_cases (d : params) :
  (urlencode_check d = Ok tt /\ params_encodable d = true)
  \/ (exists e, urlencode_check d = Raise e /\ exn_cls e = UnicodeEncodeError
                /\ params_encodable d = false).
Proof.
  induction d as [|[k v] d IH]; [left; split; reflexivity|].
  cbn [urlencode_check params_encodable].
  destruct (utf8_encode_cases k) as [[Hk ->]|(e & Hk & Hc & ->)]; rewrite Hk;
    cbn [bind andb]; [|right; exists e; auto].
  assert (Hv : ((match v with VStr s => utf8_encode s | _ => Ok tt end) = Ok tt
                /\ (match v with VStr s => encodable s | _ => true end) = true)
               \/ (exists e, (match v with VStr s => utf8_encode s | _ => Ok tt end)
                             = Raise e
                             /\ exn_cls e = UnicodeEncodeError
                             /\ (match v with VStr s => encodable s | _ => true end)
                                = false)).
  { destruct v; try (left; split; reflexivity). apply utf8_encode_cases. }
  destruct Hv as [[Hv ->]|(e & Hv & Hc & ->)]; rewrite Hv; cbn [bind andb];
    [exact IH | right; exists e; auto].
Qed.

Lemma urlencode_cases (d : params) :
  (urlencode d = Ok (UrlEncoded d) /\ params_encodable d = true)
  \/ (exists e, urlencode d = Raise e /\ exn_cls e = UnicodeEncodeError
                /\ params_encodable d = false).
Proof.
  unfold urlencode.
  destruct (urlencode_check_cases d) as [[H ->]|(e & H & Hc & ->)]; rewrite H;
    [left; split; reflexivity | right; exists e; auto].
Qed.

Lemma urlencode_encodable (d : params) :
  params_encodable d = true -> urlencode d = Ok (UrlEncoded d).
Proof.
  intros H. destruct (urlencode_cases d) as [[Hu _]|(e & _ & _ & Hn)];
    [exact Hu | congruence].
Qed.

Lemma signed_headers_cases (self : ApiKeyAuthProvider.t) (d : params) :
  (signed_headers self d
   = Ok [("key", HStr (ApiKeyAuthProvider.api_key self));
         ("sign", HmacSha512Hex (ApiKeyAuthProvider.api_secret self) (UrlEncoded d))]
   /\ params_encodable d = true
   /\ encodable (ApiKeyAuthProvider.api_secret self) = true)
  \/ (exists e, signed_headers self d = Raise e /\ exn_cls e = UnicodeEncodeError
                /\ (params_encodable d = false
                    \/ encodable (ApiKeyAuthProvider.api_secret self) = false)).
Proof.
  unfold signed_headers, hmac_sha512_hex.
  destruct (urlencode_cases d) as [[Hu Hd]|(e & Hu & Hc & Hd)]; rewrite Hu;
    cbn [bind]; [|right; exists e; auto].
  destruct (utf8_encode_cases (ApiKeyAuthProvider.api_secret self))
    as [[Hs Hk]|(e & Hs & Hc & Hk)]; rewrite Hs; cbn [bind];
    [left; auto | right; exists e; auto].
Qed.

(** *** What the signer and [post] do, step by step *)

Lemma get_auth_headers_runs (E : env) (self : ApiKeyAuthProvider.t)
    (passed : option nat) (w : world) (nonce : Decimal) :
  NonceGenerator.generate_at (mktime E) (clock E (reads w)) = Ok nonce ->
  ApiKeyAuthProvider.get_auth_headers E self passed w
  = let (p, h) := signing_target passed (heap w) in
    let h' := set_nth h p (params_set (nth p h []) "nonce" (VStr (Decimal_str nonce))) in
    (signed_headers self (nth p h' []),
     World h' (S (reads w)) (sent w) (printed w)).
Proof.
  intros Hg.
  unfold ApiKeyAuthProvider.get_auth_headers, NonceGenerator.generate,
    signing_target, fresh_if_empty, mbind, load, store, new_dict, ret,
    datetime_now, lift, signed_headers.
  destruct passed as [r|]; [destruct (nth r (heap w) []) eqn:Hd|];
    cbn [heap reads sent printed]; rewrite Hg; unfold hmac_sha512_hex;
    (destruct (urlencode _); cbn [bind];
     [destruct (utf8_encode _) as [[]|]|]; reflexivity).
Qed.

(** ** C7: the signer writes into the caller's dictionary *)

(** C7, as amended.  [get_auth_headers] takes exactly one clock reading for
    the nonce and sends nothing.  The nonce is stored in the dictionary
    that was passed, in place: when the caller passes a dictionary that is
    not empty, afterwards that same dictionary holds the nonce under
    [nonce] (all other dictionaries are as before).  Only when no
    dictionary or an empty one is passed does the signer work on a new
    dictionary, and then every dictionary the caller knows is as before.
    The operation does have a failure mode: after the nonce is stored, the
    dictionary and the secret are encoded as UTF-8, and the call raises
    [UnicodeEncodeError] exactly when a key, a [str] value or the secret
    holds a lone surrogate; otherwise it returns the API key and the
    signature of the encoded dictionary. *)
Theorem get_auth_headers_writes_in_place
    (E : env) (self : ApiKeyAuthProvider.t) (passed : option nat) (w : world) :
  exists nonce r w',
    ApiKeyAuthProvider.get_auth_headers E self passed w = (r, w')
    /\ NonceGenerator.generate_at (mktime E) (clock E (reads w)) = Ok nonce
    /\ reads w' = S (reads w)
    /\ sent w' = sent w
    /\ (forall r0, passed = Some r0 -> nth r0 (heap w) [] <> [] ->
        nth r0 (heap w') []
        = params_set (nth r0 (heap w) []) "nonce" (VStr (Decimal_str nonce))
        /\ forall r', r' <> r0 -> nth r' (heap w') [] = nth r' (heap w) [])
    /\ ((passed = None \/ exists r0, passed = Some r0 /\ nth r0 (heap w) [] = []) ->
        forall r', (r' < List.length (heap w))%nat ->
                   nth r' (heap w') [] = nth r' (heap w) [])
    /\ (let written := nth (fst (signing_target passed (heap w))) (heap w') [] in
        (params_encodable written = true ->
         encodable (ApiKeyAuthProvider.api_secret self) = true ->
         r = Ok [("key", HStr (ApiKeyAuthProvider.api_key self));
                 ("sign", HmacSha512Hex (ApiKeyAuthProvider.api_secret self)
                            (UrlEncoded written))])
        /\ (params_encodable written = false
            \/ encodable (ApiKeyAuthProvider.api_secret self) = false ->
            exists e, r = Raise e /\ exn_cls e = UnicodeEncodeError)).
Proof.
  destruct (generate_runs E w) as (nonce & Hg & _).
  exists nonce. rewrite (get_auth_headers_runs E self passed w nonce Hg).
  assert (Hfresh : forall r' d,
             (r' < List.length (heap w))%nat ->
             nth r' (set_nth (heap w ++ [[]]) (List.length (heap w)) d) []
             = nth r' (heap w) []).
  { intros r' d Hr'. rewrite nth_set_nth_other by lia. now apply app_nth1. }
  assert (Hsigned : forall d,
             (params_encodable d = true ->
              encodable (ApiKeyAuthProvider.api_secret self) = true ->
              signed_headers self d
              = Ok [("key", HStr (ApiKeyAuthProvider.api_key self));
                    ("sign", HmacSha512Hex (ApiKeyAuthProvider.api_secret self)
                               (UrlEncoded d))])
             /\ (params_encodable d = false
                 \/ encodable (ApiKeyAuthProvider.api_secret self) = false ->
                 exists e, signed_headers self d = Raise e
                           /\ exn_cls e = UnicodeEncodeError)).
  { intros d. destruct (signed_headers_cases self d)
      as [(Hs & Hd & Hk)|(e & Hs & Hc & Hd)]; split.
    - intros _ _. exact Hs.
    - intros [H|H]; congruence.
    - intros H1 H2. destruct Hd; congruence.
    - intros _. exists e. auto. }
  unfold signing_target.
  destruct passed as [r|]; [destruct (nth r (heap w) []) eqn:Hd|];
    do 2 eexists;
    refine (conj eq_refl (conj Hg (conj eq_refl (conj eq_refl (conj _ (conj _ _))))));
    cbn [heap fst]; try apply Hsigned.
  - intros r0 Hr0 Hne. injection Hr0 as <-. congruence.
  - intros _ r' Hr'. now apply Hfresh.
  - intros r0 Hr0 Hne. injection Hr0 as <-. rewrite Hd. split.
    + apply nth_set_nth_same, nth_nonempty_in_range. congruence.
    + intros r' Hr'. now apply nth_set_nth_other.
  - intros [Hn | (r0 & Hr0 & He)]; [discriminate|].
    injection Hr0 as <-. congruence.
  - intros r0 Hr0. discriminate.
  - intros _ r' Hr'. now apply Hfresh.
Qed.

Lemma get_auth_headers_witness :
  exists nonce r w',
    ApiKeyAuthProvider.get_auth_headers sample_env sample_provider (Some 0%nat) caller_world
    = (r, w')
    /\ NonceGenerator.generate_at (mktime sample_env)
         (clock sample_env (reads caller_world))
       = Ok nonce
    /\ reads w' = S (reads caller_world)
    /\ sent w' = sent caller_world
    /\ (forall r0, Some 0%nat = Some r0 -> nth r0 (heap caller_world) [] <> [] ->
        nth r0 (heap w') []
        = params_set (nth r0 (heap caller_world) []) "nonce" (VStr (Decimal_str nonce))
        /\ forall r', r' <> r0 -> nth r' (heap w') [] = nth r' (heap caller_world) [])
    /\ ((Some 0%nat = None
         \/ exists r0, Some 0%nat = Some r0 /\ nth r0 (heap caller_world) [] = []) ->
        forall r', (r' < List.length (heap caller_world))%nat ->
                   nth r' (heap w') [] = nth r' (heap caller_world) [])
    /\ (let written :=
          nth (fst (signing_target (Some 0%nat) (heap caller_world))) (heap w') [] in
        (params_encodable written = true ->
         encodable (ApiKeyAuthProvider.api_secret sample_provider) = true ->
         r = Ok [("key", HStr (ApiKeyAuthProvider.api_key sample_provider));
                 ("sign", HmacSha512Hex (ApiKeyAuthProvider.api_secret sample_provider)
                            (UrlEncoded written))])
        /\ (params_encodable written = false
            \/ encodable (ApiKeyAuthProvider.api_secret sample_provider) = false ->
            exists e, r = Raise e /\ exn_cls e = UnicodeEncodeError)).
Proof.
  exact (get_auth_headers_writes_in_place sample_env sample_provider (Some 0%nat)
           caller_world).
Defined.

(** [post] relies on the signer writing in place: the body it sends is the
    encoding of the dictionary after signing, nonce included, which is the
    text the signature covers. *)
Example post_sends_the_signed_dictionary :
  sent (snd (HttpClient.post sample_env (Some sample_provider) "https://api.zaif.jp/tapi"
               (Some 0%nat) None caller_world))
  = [Request "https://api.zaif.jp/tapi"
       (UrlEncoded [("method", VStr "get_info"); ("nonce", VStr "1700000000.123456")])
       [("key", HStr "key");
        ("sign", HmacSha512Hex "secret"
                   (UrlEncoded [("method", VStr "get_info");
                                ("nonce", VStr "1700000000.123456")]))]].
Proof. vm_compute. reflexivity. Qed.

(** C7 as stated fails twice.  The signer does not copy: a caller that
    passes its dictionary [{"method": "get_info"}] finds the nonce in it
    afterwards.  And the signer can fail: with a secret that holds a lone
    surrogate, [api_secret.encode("utf-8")] raises [UnicodeEncodeError], and
    the caller's dictionary has been changed all the same. *)
Lemma signer_copy_counterexample :
  heap caller_world = [[("method", VStr "get_info")]]
  /\ heap (snd (ApiKeyAuthProvider.get_auth_headers sample_env sample_provider
                  (Some 0%nat) caller_world))
     = [[("method", VStr "get_info"); ("nonce", VStr "1700000000.123456")]]
  /\ ApiKeyAuthProvider.get_auth_headers sample_env undecodable_provider
       (Some 0%nat) caller_world
     = (Raise (Exn UnicodeEncodeError
                 "'utf-8' codec can't encode character '\udc80' in position 1: surrogates not allowed"),
        World [[("method", VStr "get_info"); ("nonce", VStr "1700000000.123456")]]
              1 [] []).
Proof. repeat split; vm_compute; reflexivity. Qed.

(** ** C5: the envelope *)

Lemma fresh_if_empty_runs (passed : option nat) (w : world) :
  fresh_if_empty passed w
  = (Ok (fst (signing_target passed (heap w))),
     World (snd (signing_target passed (heap w))) (reads w) (sent w) (printed w)).
Proof.
  unfold fresh_if_empty, signing_target, mbind, load, new_dict, ret.
  destruct passed as [r|]; [destruct (nth r (heap w) []) eqn:Hd|];
    cbn [fst snd]; try reflexivity.
  now destruct w.
Qed.

(** With credentials, [post] writes the nonce, signs, encodes its own view
    of the parameters and hands one request to the transport; it stops
    before the request when an encoding fails. *)
Lemma post_runs (E : env) (provider : ApiKeyAuthProvider.t) (url : string)
    (passed : option nat) (hdrs : option headers) (w : world) (nonce : Decimal) :
  NonceGenerator.generate_at (mktime E) (clock E (reads w)) = Ok nonce ->
  HttpClient.post E (Some provider) url passed hdrs w
  = let (p, h) := signing_target passed (heap w) in
    let (q, h1) := signing_target (Some p) h in
    let h2 := set_nth h1 q (params_set (nth q h1 []) "nonce" (VStr (Decimal_str nonce))) in
    match signed_headers provider (nth q h2 []) with
    | Raise e => (Raise e, World h2 (S (reads w)) (sent w) (printed w))
    | Ok auth =>
        match urlencode (nth p h2 []) with
        | Raise e => (Raise e, World h2 (S (reads w)) (sent w) (printed w))
        | Ok body =>
            let rq := Request url body (merged_headers hdrs auth) in
            (HttpClient.receive (transport E rq),
             World h2 (S (reads w)) (sent w ++ [rq]) (printed w))
        end
    end.
Proof.
  intros Hg.
  unfold HttpClient.post, mbind at 1. rewrite fresh_if_empty_runs.
  destruct (signing_target passed (heap w)) as [p h] eqn:Hs. cbn [fst snd].
  unfold mbind at 1.
  rewrite (get_auth_headers_runs E provider (Some p)
             (World h (reads w) (sent w) (printed w)) nonce Hg).
  cbn [heap reads sent printed].
  destruct (signing_target (Some p) h) as [q h1].
  cbv zeta.
  destruct (signed_headers provider _) as [auth|e]; [|reflexivity].
  unfold mbind, load, requests_post, lift, merged_headers.
  cbn [heap reads sent printed].
  destruct (urlencode _) as [body|e]; reflexivity.
Qed.

(** With credentials, [post] either hands one request to the transport and
    returns what the envelope handling makes of the response, or raises
    [UnicodeEncodeError] before anything is sent. *)
Lemma post_sends (E : env) (provider : ApiKeyAuthProvider.t) (url : string)
    (passed : option nat) (hdrs : option headers) (w : world) :
  (exists rq w',
      HttpClient.post E (Some provider) url passed hdrs w
      = (HttpClient.receive (transport E rq), w')
      /\ sent w' = (sent w ++ [rq])%list
      /\ rq_url rq = url)
  \/ (exists e w',
        HttpClient.post E (Some provider) url passed hdrs w = (Raise e, w')
        /\ exn_cls e = UnicodeEncodeError
        /\ sent w' = sent w).
Proof.
  destruct (generate_runs E w) as (nonce & Hg & _).
  rewrite (post_runs E provider url passed hdrs w nonce Hg).
  destruct (signing_target passed (heap w)) as [p h].
  destruct (signing_target (Some p) h) as [q h1]. cbv zeta.
  match goal with
  | |- context [signed_headers provider ?d] =>
      destruct (signed_headers_cases provider d) as [(Hs & _)|(e & Hs & Hc & _)];
        rewrite Hs
  end.
  - match goal with
    | |- context [urlencode ?d] =>
        destruct (urlencode_cases d) as [[Hu _]|(e & Hu & Hc & _)]; rewrite Hu
    end.
    + left. do 2 eexists. split; [reflexivity|]. split; reflexivity.
    + right. do 2 eexists. split; [reflexivity|]. split; [exact Hc | reflexivity].
  - right. do 2 eexists. split; [reflexivity|]. split; [exact Hc | reflexivity].
Qed.

Lemma app_one_neq {A : Type} (l : list A) (x : A) : (l ++ [x])%list <> l.
Proof.
  intros H. apply (f_equal (@List.length A)) in H.
  rewrite length_app in H. simpl in H. lia.
Qed.

(** C5.  When [post] has handed its request to the transport and the
    transport answers with a decoded JSON object, [post] unwraps the
    envelope: a [success] member equal to [0] gives the API error carrying
    the text of the [error] member (so the body
    [{"success": 0, "error": "bad nonce"}] gives the API error with message
    [bad nonce]); otherwise the value of the [return] member when there is
    one, and the whole body when there is none.  With credentials, the one
    way for [post] to return without an exchange is the
    [UnicodeEncodeError] of a parameter or a secret that cannot be encoded
    as UTF-8; every other call is covered by the three cases. *)
Theorem envelope_unwrapping
    (E : env) (provider : ApiKeyAuthProvider.t) (url : string)
    (passed : option nat) (hdrs : option headers) (w : world) (d : pydict) :
  (forall rq, transport E rq = Json (PDict d)) ->
  let r := fst (HttpClient.post E (Some provider) url passed hdrs w) in
  let w' := snd (HttpClient.post E (Some provider) url passed hdrs w) in
  (sent w' <> sent w ->
   (py_eq_zero (dict_get_none d "success") = true ->
    forall msg, dict_get d "error" = Some (PStr msg) ->
                r = Raise (ApiError msg))
   /\ (py_eq_zero (dict_get_none d "success") = false ->
       forall v, dict_get d "return" = Some v -> r = Ok v)
   /\ (py_eq_zero (dict_get_none d "success") = false ->
       dict_get d "return" = None -> r = Ok (PDict d)))
  /\ (sent w' = sent w ->
      exists e, r = Raise e /\ exn_cls e = UnicodeEncodeError).
Proof.
  intros Ht r w'.
  destruct (post_sends E provider url passed hdrs w)
    as [(rq & w1 & Hp & Hs & _)|(e & w1 & Hp & Hc & Hs)];
    subst r w'; rewrite Hp; cbn [fst snd]; split; intros Hsent.
  - rewrite Ht.
    unfold HttpClient.receive, HttpClient.unwrap. cbn [as_dict bind].
    repeat split.
    + intros Hz msg Hm. rewrite Hz.
      unfold dict_get_default. rewrite Hm. reflexivity.
    + intros Hz v Hv. rewrite Hz.
      unfold dict_mem, dict_item. rewrite Hv. reflexivity.
    + intros Hz Hn. rewrite Hz.
      unfold dict_mem. rewrite Hn. reflexivity.
  - rewrite Hs in Hsent. now apply app_one_neq in Hsent.
  - contradiction.
  - exists e. split; [reflexivity | exact Hc].
Qed.

Lemma envelope_unwrapping_witness :
  fst (HttpClient.post refusing_env (Some sample_provider) "https://api.zaif.jp/tapi"
         (Some 0%nat) None caller_world)
  = Raise (ApiError "bad nonce").
Proof.
  refine (proj1 (proj1 (envelope_unwrapping refusing_env sample_provider
                          "https://api.zaif.jp/tapi" (Some 0%nat) None caller_world
                          [("success", PInt 0); ("error", PStr "bad nonce")]
                          (fun _ => eq_refl)) _) eq_refl "bad nonce" eq_refl).
  vm_compute. discriminate.
Defined.

(** ** C6: successive nonces *)

Lemma nonce_value_lt (mk : datetime -> Z) (a b : datetime) :
  valid_reading a -> valid_reading b ->
  0 <= mk a -> earlier mk a b ->
  Decimal_lt (nonce_value mk a) (nonce_value mk b).
Proof.
  unfold valid_reading, earlier, Decimal_lt, nonce_value, Decimal_ltb, scaled, signed_Z.
  intros Ha Hb Hs He.
  replace (mk a <? 0) with false by (symmetry; apply Z.ltb_ge; lia).
  replace (mk b <? 0) with false by (symmetry; apply Z.ltb_ge; lia).
  change (-6 - Z.min (-6) (-6)) with 0. rewrite !Z.pow_0_r, !Z.mul_1_r.
  apply Z.ltb_lt. rewrite !N2Z.inj_add, !N2Z.inj_mul, !N2Z.inj_abs_N, !Z2N.id by lia.
  rewrite !Z.abs_eq by lia. simpl Z.of_N. lia.
Qed.

Lemma generate_many_runs (E : env) (n : nat) (w : world) :
  (forall i, (reads w <= i < reads w + n)%nat -> valid_reading (clock E i)) ->
  generate_many E n w
  = (Ok (map (fun i => nonce_value (mktime E) (clock E i)) (seq (reads w) n)),
     World (heap w) (reads w + n) (sent w) (printed w)).
Proof.
  revert w; induction n as [|n IH]; intros w Hv.
  - simpl. unfold ret. rewrite Nat.add_0_r. now destruct w.
  - cbn [generate_many]. unfold mbind at 1.
    unfold NonceGenerator.generate at 1, mbind at 1, datetime_now, lift.
    rewrite (generate_at_valid (mktime E) (clock E (reads w))) by (apply Hv; lia).
    unfold mbind at 1. rewrite IH.
    + unfold ret. cbn [reads heap sent printed seq map].
      now rewrite Nat.add_succ_r.
    + cbn [reads]. intros i Hi. apply Hv. lia.
Qed.

Lemma increasing_nonces (E : env) (start n : nat) :
  (forall i, (start <= i < start + n)%nat ->
             valid_reading (clock E i) /\ 0 <= mktime E (clock E i)) ->
  (forall i, (start <= i)%nat -> (S i < start + n)%nat ->
             earlier (mktime E) (clock E i) (clock E (S i))) ->
  increasing (map (fun i => nonce_value (mktime E) (clock E i)) (seq start n)).
Proof.
  revert start; induction n as [|n IH]; intros start Hv He; [exact I|].
  destruct n as [|n]; [exact I|].
  cbn [seq map increasing]. split.
  - apply nonce_value_lt; try apply Hv; try lia. apply He; lia.
  - apply (IH (S start)).
    + intros i Hi. apply Hv. lia.
    + intros i Hi Hj. apply He; lia.
Qed.

Lemma taken_at_valid (E : env) (instant : nat -> Z) (i : nat) :
  taken_at E instant i -> 0 <= instant i ->
  valid_reading (clock E i) /\ 0 <= mktime E (clock E i).
Proof.
  unfold taken_at, valid_reading. intros [Hs Hu] H0. rewrite Hs, Hu. split.
  - apply Z.mod_pos_bound. lia.
  - apply Z.div_pos; lia.
Qed.

Lemma taken_at_earlier (E : env) (instant : nat -> Z) (i j : nat) :
  taken_at E instant i -> taken_at E instant j -> instant i < instant j ->
  earlier (mktime E) (clock E i) (clock E j).
Proof.
  unfold taken_at, earlier. intros [Hs Hu] [Hs' Hu'] Hlt.
  rewrite Hs, Hu, Hs', Hu'.
  pose proof (Z.div_mod (instant i) 1000000 ltac:(lia)) as Hi.
  pose proof (Z.div_mod (instant j) 1000000 ltac:(lia)) as Hj.
  pose proof (Z.mod_pos_bound (instant i) 1000000 ltac:(lia)).
  pose proof (Z.mod_pos_bound (instant j) 1000000 ltac:(lia)).
  destruct (Z.lt_trichotomy (instant i / 1000000) (instant j / 1000000))
    as [Hd|[Hd|Hd]]; [now left | right; split; [exact Hd | lia] | lia].
Qed.

(** C6, as amended.  Take any [n] calls of [NonceGenerator.generate] in a
    row, whose clock readings are taken at strictly increasing instants
    (non-decreasing time, distinct microsecond ticks).  When these instants
    are at or after the Unix epoch and [time.mktime] gives each reading the
    second of its instant, all [n] calls return, and each returned
    [Decimal] is strictly greater than the one before.  ([time.mktime] does
    so in a zone without changes of offset; it does not for the readings of
    a repeated hour, when clocks go back.) *)
Theorem nonces_strictly_increase
    (E : env) (n : nat) (w : world) (instant : nat -> Z) :
  (forall i, (reads w <= i < reads w + n)%nat ->
             taken_at E instant i /\ 0 <= instant i) ->
  (forall i, (reads w <= i)%nat -> (S i < reads w + n)%nat ->
             instant i < instant (S i)) ->
  exists l w',
    generate_many E n w = (Ok l, w')
    /\ List.length l = n
    /\ increasing l.
Proof.
  intros Hv He. do 2 eexists. split; [|split].
  - apply generate_many_runs. intros i Hi.
    destruct (Hv i Hi) as [Ht H0]. now apply (taken_at_valid E instant i).
  - now rewrite length_map, length_seq.
  - apply increasing_nonces.
    + intros i Hi. destruct (Hv i Hi) as [Ht H0].
      now apply (taken_at_valid E instant i).
    + intros i Hi Hj. apply (taken_at_earlier E instant).
      * apply Hv. lia.
      * apply Hv. lia.
      * now apply He.
Qed.

Lemma nonces_witness :
  exists l w',
    generate_many sample_env 3 empty_world = (Ok l, w')
    /\ List.length l = 3%nat
    /\ increasing l.
Proof.
  apply (nonces_strictly_increase sample_env 3 empty_world
           (fun i => 1700000000123456 + Z.of_nat i)).
  - intros i Hi. simpl in Hi.
    destruct i as [|[|[|i]]]; [| | |lia];
      (split; [split; vm_compute; reflexivity | vm_compute; discriminate]).
  - intros i _ _. lia.
Defined.

(** C6 as stated fails in two ways.  Before the epoch: with the clock at
    23:59:55 UTC on 31 December 1969, two readings one microsecond apart
    give the nonces [-5.000001] and then [-5.000002]; the integer part
    carries the minus sign, the microseconds are appended as they are, and
    the second value is not greater than the first.  And when clocks go
    back: in New York on 5 November 2023, the reading taken at the instant
    [1699163999.999999] is 01:59:59.999999 and the one taken a microsecond
    later is 01:00:00, for which [time.mktime] returns the second of the
    first occurrence of that time; the nonces are [1699163999.999999] and
    then [1699160400.000000]. *)
Lemma nonces_counterexample :
  (valid_reading (clock early_env 0) /\ valid_reading (clock early_env 1)
   /\ earlier (mktime early_env) (clock early_env 0) (clock early_env 1)
   /\ fst (generate_many early_env 2 empty_world)
      = Ok [Finite true 5000001 (-6); Finite true 5000002 (-6)]
   /\ map Decimal_str [Finite true 5000001 (-6); Finite true 5000002 (-6)]
      = ["-5.000001"; "-5.000002"]
   /\ Decimal_ltb (Finite true 5000001 (-6)) (Finite true 5000002 (-6)) = false)
  /\ (clock new_york_env 0 = new_york_now 1699163999999999
      /\ clock new_york_env 1 = new_york_now 1699164000000000
      /\ new_york_now 1699163999999999 = Datetime 2023 11 5 1 59 59 999999
      /\ new_york_now 1699164000000000 = Datetime 2023 11 5 1 0 0 0
      /\ fst (generate_many new_york_env 2 empty_world)
         = Ok [Finite false 1699163999999999 (-6); Finite false 1699160400000000 (-6)]
      /\ map Decimal_str
           [Finite false 1699163999999999 (-6); Finite false 1699160400000000 (-6)]
         = ["1699163999.999999"; "1699160400.000000"]
      /\ Decimal_ltb (Finite false 1699163999999999 (-6))
           (Finite false 1699160400000000 (-6)) = false).
Proof.
  split.
  - repeat split; try (vm_compute; congruence).
    right. split; [reflexivity|]. vm_compute. reflexivity.
  - repeat split; vm_compute; reflexivity.
Qed.

(** ** C3: one bad entry in a keyed collection *)

(** C3 fails on the code.  A non-numeric amount makes [Decimal(...)] raise
    [decimal.InvalidOperation], which is not among the exceptions the
    per-entry handler catches ([ValueError], [TypeError], [KeyError]): the
    whole parse of deposits, withdrawals and trade executions ends with that
    exception and no entry is returned.  [OpenOrderList.from_dict] has no
    per-entry handling at all: a bad amount and an entry that is not a
    mapping both end the parse.  What the handler does catch is isolated as
    the claim says: an entry whose timestamp is not a number is left out,
    with a warning, and the others are returned; an entry that is not a
    mapping is left out of deposits, withdrawals and executions (without a
    warning). *)
Theorem bad_amount_ends_the_parse :
  DepositRecords.from_dict bad_amount_response = Report [] (Raise conversion_syntax)
  /\ WithdrawalRecords.from_dict bad_amount_response = Report [] (Raise conversion_syntax)
  /\ TradeExecutionList.from_dict 32400 bad_amount_response
     = Report [] (Raise conversion_syntax)
  /\ OpenOrderList.from_dict 32400 bad_amount_response = Raise conversion_syntax
  /\ OpenOrderList.from_dict 32400 not_a_mapping_response
     = Raise (Exn AttributeError "'str' object has no attribute 'get'")
  /\ exn_cls conversion_syntax = InvalidOperation
  /\ conversion_guard InvalidOperation = false
  /\ (exists a b,
        DepositRecords.from_dict bad_timestamp_response
        = Report ["Warning: Failed to parse deposit item 2: invalid literal for int() with base 10: 'soon'"]
                 (Ok (DepositRecords.Build [a; b]))
        /\ DepositRecords.id a = 1 /\ DepositRecords.id b = 3)
  /\ (exists a b,
        DepositRecords.from_dict not_a_mapping_response
        = Report [] (Ok (DepositRecords.Build [a; b]))
        /\ DepositRecords.id a = 1 /\ DepositRecords.id b = 3).
Proof.
  repeat split; try (vm_compute; reflexivity).
  - do 2 eexists. split; [vm_compute; reflexivity|]. split; reflexivity.
  - do 2 eexists. split; [vm_compute; reflexivity|]. split; reflexivity.
Qed.

(** ** C8: candle timestamps there and back *)

(** C8 fails on the code.  The candle time [1001] ms becomes the ISO string
    [1970-01-01T09:00:01.001000] (Tokyo time), and [to_dict] turns that
    string into [1000]: [timestamp()] is the float [1.001], whose product
    with [1000] lies just below [1001], and [int] truncates.  Whole seconds
    come back exactly. *)
Theorem odd_millisecond_is_lost :
  (exists x,
      PriceChartData.from_dict 32400 odd_millisecond_response "btc_jpy" "1" "" "" = Ok x
      /\ map PriceChartData.timestamp (PriceChartData.candlesticks x)
         = ["1970-01-01T09:00:01.001000"]
      /\ exists ohlc,
          PriceChartData.to_dict 32400 x
          = Ok (PDict [("ohlc_data", PList [PDict ohlc]); ("data_count", PInt 1)])
          /\ dict_get ohlc "time" = Some (PInt 1000))
  /\ bind (PriceChartData.timestamp_iso 0 1001) (PriceChartData.time_ms 0) = Ok 1000
  /\ bind (PriceChartData.timestamp_iso 32400 1700000000000) (PriceChartData.time_ms 32400)
     = Ok 1700000000000.
Proof.
  split; [|split; vm_compute; reflexivity].
  eexists. split; [vm_compute; reflexivity|]. split; [reflexivity|].
  eexists. split; [vm_compute; reflexivity|]. reflexivity.
Qed.
(* ================================================================== *)
(** * Further properties *)
(* ================================================================== *)

(** ** Text that is ASCII can be encoded *)

Lemma ascii_only_app (a b : string) :
  ascii_only (a ++ b) = ascii_only a && ascii_only b.
Proof.
  induction a as [|c a IH]; [reflexivity|]. simpl. now rewrite IH, andb_assoc.
Qed.

Lemma digit_ascii (c : ascii) : is_digit c = true -> (N_of_ascii c <? 128)%N = true.
Proof.
  unfold is_digit. intros H. apply andb_prop in H as [_ H].
  apply N.leb_le in H. apply N.ltb_lt. lia.
Qed.

Lemma digits_ascii (s : string) : all_digits s = true -> ascii_only s = true.
Proof.
  induction s as [|c s IH]; [reflexivity|]. simpl. intros H.
  apply andb_prop in H as [Hc Hs]. now rewrite (digit_ascii _ Hc), IH.
Qed.

Lemma ascii_only_take (n : nat) (s : string) :
  ascii_only s = true -> ascii_only (take n s) = true.
Proof.
  revert s; induction n as [|n IH]; intros [|c s]; simpl; try reflexivity.
  intros H. apply andb_prop in H as [Hc Hs]. now rewrite Hc, IH.
Qed.

Lemma ascii_only_drop (n : nat) (s : string) :
  ascii_only s = true -> ascii_only (drop n s) = true.
Proof.
  revert s; induction n as [|n IH]; intros [|c s]; simpl; try reflexivity;
    try (intros H; exact H).
  intros H. apply andb_prop in H as [Hc Hs]. now apply IH.
Qed.

Lemma str_N_ascii (n : N) : ascii_only (str_N n) = true.
Proof. apply digits_ascii, str_N_digits. Qed.

Lemma zeros_ascii (n : nat) : ascii_only (zeros n) = true.
Proof. apply digits_ascii, all_digits_zeros. Qed.

Lemma Decimal_str_ascii (d : Decimal) : ascii_only (Decimal_str d) = true.
Proof.
  destruct d as [s c e|s|s sig p]; unfold Decimal_str.
  - cbv zeta.
    repeat match goal with
           | |- context [if ?b then _ else _] => destruct b
           end;
      unfold signed_str, sign_str;
      repeat match goal with
             | |- context [if ?b then _ else _] => destruct b
             end;
      rewrite ?ascii_only_app, ?str_N_ascii, ?zeros_ascii;
      rewrite ?ascii_only_take, ?ascii_only_drop by apply str_N_ascii;
      reflexivity.
  - destruct s; reflexivity.
  - destruct s, sig; destruct (p =? 0)%N; simpl; rewrite ?str_N_ascii; reflexivity.
Qed.

Lemma ascii_first_surrogate (s : string) (pos : nat) :
  ascii_only s = true -> first_surrogate s pos = None.
Proof.
  revert pos; induction s as [|c s IH]; intros pos H; [reflexivity|].
  simpl in H. apply andb_prop in H as [Hc Hs].
  cbn [first_surrogate].
  assert (Hr : read_surrogate (String c s) = None).
  { unfold read_surrogate. destruct s as [|b [|c' r]]; try reflexivity.
    destruct (N.eqb_spec (N_of_ascii c) 237) as [He|]; [|reflexivity].
    apply N.ltb_lt in Hc. lia. }
  rewrite Hr. now apply IH.
Qed.

Lemma ascii_encodable (s : string) : ascii_only s = true -> encodable s = true.
Proof.
  intros H. unfold encodable, encode_error. now rewrite ascii_first_surrogate.
Qed.

Lemma params_set_encodable (d : params) (k : string) (v : pval) :
  params_encodable d = true -> encodable k = true ->
  match v with VStr s => encodable s | _ => true end = true ->
  params_encodable (params_set d k v) = true.
Proof.
  intros Hd Hk Hv. induction d as [|[k' v'] d IH]; cbn [params_set params_encodable].
  - now rewrite Hk, Hv.
  - cbn [params_encodable] in Hd.
    apply andb_prop in Hd as [Hd Hr]. apply andb_prop in Hd as [Hk' Hv'].
    destruct (String.eqb k' k); cbn [params_encodable].
    + now rewrite Hk', Hv, Hr.
    + now rewrite Hk', Hv', IH.
Qed.

Lemma with_nonce_encodable (d : params) (nonce : Decimal) :
  params_encodable d = true ->
  params_encodable (params_set d "nonce" (VStr (Decimal_str nonce))) = true.
Proof.
  intros Hd. apply params_set_encodable;
    [assumption | reflexivity | apply ascii_encodable, Decimal_str_ascii].
Qed.

(** ** [HttpClient.post]: errors and the request *)





Lemma headers_get_set_same (h : headers) (k : string) (v : header_value) :
  headers_get (headers_set h k v) k = Some v.
Proof.
  induction h as [|[k' v'] h IH]; simpl.
  - now rewrite String.eqb_refl.
  - destruct (String.eqb k' k) eqn:Hk; simpl; rewrite Hk; [reflexivity | exact IH].
Qed.

Lemma headers_get_set_other (h : headers) (k k' : string) (v : header_value) :
  k' <> k -> headers_get (headers_set h k v) k' = headers_get h k'.
Proof.
  intros Hn. induction h as [|[k0 v0] h IH]; simpl.
  - apply not_eq_sym, String.eqb_neq in Hn. now rewrite Hn.
  - destruct (String.eqb k0 k) eqn:Hk; simpl; [|now rewrite IH].
    apply String.eqb_eq in Hk. subst k0.
    apply not_eq_sym, String.eqb_neq in Hn. now rewrite Hn.
Qed.

(** The headers of the request: [key] and [sign] are the signer's, every
    other header is the caller's. *)
Lemma merged_headers_get (hdrs : option headers) (a b : header_value) :
  let merged := merged_headers hdrs [("key", a); ("sign", b)] in
  headers_get merged "key" = Some a
  /\ headers_get merged "sign" = Some b
  /\ forall k, k <> "key" -> k <> "sign" ->
       headers_get merged k
       = match hdrs with Some h => headers_get h k | None => None end.
Proof.
  assert (Hplain : headers_get [("key", a); ("sign", b)] "key" = Some a
                   /\ headers_get [("key", a); ("sign", b)] "sign" = Some b
                   /\ forall k, k <> "key" -> k <> "sign" ->
                        headers_get [("key", a); ("sign", b)] k = None).
  { repeat split. intros k H1 H2. cbn [headers_get].
    apply not_eq_sym, String.eqb_neq in H1, H2. now rewrite H1, H2. }
  unfold merged_headers.
  destruct hdrs as [[|x h]|]; cbv zeta; try exact Hplain.
  unfold headers_update. cbn [fold_left fst snd].
  repeat split.
  - rewrite headers_get_set_other by discriminate. apply headers_get_set_same.
  - apply headers_get_set_same.
  - intros k H1 H2. now rewrite !headers_get_set_other by assumption.
Qed.

Lemma signed_headers_encodable (self : ApiKeyAuthProvider.t) (d : params) :
  params_encodable d = true ->
  encodable (ApiKeyAuthProvider.api_secret self) = true ->
  signed_headers self d
  = Ok [("key", HStr (ApiKeyAuthProvider.api_key self));
        ("sign", HmacSha512Hex (ApiKeyAuthProvider.api_secret self) (UrlEncoded d))].
Proof.
  intros Hd Hs. destruct (signed_headers_cases self d)
    as [(H & _)|(e & _ & _ & [H|H])]; [exact H | congruence | congruence].
Qed.

(** X2.  Called with credentials and a parameter dictionary that is not
    empty, all of whose text, like the secret, can be encoded as UTF-8,
    [HttpClient.post] takes one clock reading and hands exactly one request
    to the transport: a POST to the given URL whose body is the caller's
    parameters with the nonce of that reading stored under [nonce].  The
    [sign] header is the HMAC-SHA512, under the API secret, of exactly the
    body that is sent, and the [key] header is the API key; both replace a
    header of the same name that the caller supplied, and every other header
    of the caller is kept. *)
Theorem post_signs_the_body_it_sends
    (E : env) (provider : ApiKeyAuthProvider.t) (url : string) (r : nat)
    (hdrs : option headers) (w : world) :
  nth r (heap w) [] <> [] ->
  params_encodable (nth r (heap w) []) = true ->
  encodable (ApiKeyAuthProvider.api_secret provider) = true ->
  exists nonce rq w',
    NonceGenerator.generate_at (mktime E) (clock E (reads w)) = Ok nonce
    /\ HttpClient.post E (Some provider) url (Some r) hdrs w
       = (HttpClient.receive (transport E rq), w')
    /\ sent w' = (sent w ++ [rq])%list
    /\ reads w' = S (reads w)
    /\ rq_url rq = url
    /\ rq_data rq
       = UrlEncoded (params_set (nth r (heap w) []) "nonce" (VStr (Decimal_str nonce)))
    /\ headers_get (rq_headers rq) "key"
       = Some (HStr (ApiKeyAuthProvider.api_key provider))
    /\ headers_get (rq_headers rq) "sign"
       = Some (HmacSha512Hex (ApiKeyAuthProvider.api_secret provider) (rq_data rq))
    /\ forall k, k <> "key" -> k <> "sign" ->
         headers_get (rq_headers rq) k
         = match hdrs with Some h => headers_get h k | None => None end.
Proof.
  intros Hd Henc Hsec.
  destruct (generate_runs E w) as (nonce & Hg & _).
  pose proof (post_runs E provider url (Some r) hdrs w nonce Hg) as Hp.
  assert (Hs : signing_target (Some r) (heap w) = (r, heap w)).
  { unfold signing_target. destruct (nth r (heap w) []); [contradiction | reflexivity]. }
  rewrite Hs in Hp. cbv beta iota zeta in Hp.
  rewrite Hs in Hp. cbv beta iota zeta in Hp.
  rewrite (nth_set_nth_same _ _ _ (nth_nonempty_in_range _ _ Hd)) in Hp.
  rewrite (signed_headers_encodable provider _ (with_nonce_encodable _ nonce Henc) Hsec),
    (urlencode_encodable _ (with_nonce_encodable _ nonce Henc)) in Hp.
  eexists nonce, _, _. split; [exact Hg|]. split; [exact Hp|].
  cbn [sent reads rq_url rq_data rq_headers].
  repeat (split; [reflexivity|]).
  apply merged_headers_get.
Qed.

Lemma post_signs_the_body_it_sends_witness :
  exists nonce rq w',
    NonceGenerator.generate_at (mktime sample_env) (clock sample_env (reads caller_world))
    = Ok nonce
    /\ HttpClient.post sample_env (Some sample_provider) "https://api.zaif.jp/tapi"
         (Some 0%nat) None caller_world
       = (HttpClient.receive (transport sample_env rq), w')
    /\ sent w' = (sent caller_world ++ [rq])%list
    /\ reads w' = S (reads caller_world)
    /\ rq_url rq = "https://api.zaif.jp/tapi"
    /\ rq_data rq
       = UrlEncoded (params_set (nth 0 (heap caller_world) []) "nonce"
                       (VStr (Decimal_str nonce)))
    /\ headers_get (rq_headers rq) "key"
       = Some (HStr (ApiKeyAuthProvider.api_key sample_provider))
    /\ headers_get (rq_headers rq) "sign"
       = Some (HmacSha512Hex (ApiKeyAuthProvider.api_secret sample_provider) (rq_data rq))
    /\ forall k, k <> "key" -> k <> "sign" ->
         headers_get (rq_headers rq) k = None.
Proof.
  apply (post_signs_the_body_it_sends sample_env sample_provider
           "https://api.zaif.jp/tapi" 0%nat None caller_world).
  - simpl. discriminate.
  - vm_compute. reflexivity.
  - vm_compute. reflexivity.
Defined.

Lemma nth_length_app (l : list params) (x : params) :
  nth (List.length l) (l ++ [x]) [] = x.
Proof. rewrite app_nth2 by lia. now rewrite Nat.sub_diag. Qed.

(** X3.  Called with credentials but without parameters (none, or an empty
    dictionary), [HttpClient.post] sends an empty body, while the signature
    in the [sign] header is computed over a body that holds the nonce: the
    signer, finding the dictionary empty, writes the nonce into a
    dictionary of its own, which [post] never sees.  (The secret is taken
    to be text that UTF-8 can encode.) *)
Theorem post_without_parameters_signs_another_body
    (E : env) (provider : ApiKeyAuthProvider.t) (url : string)
    (passed : option nat) (hdrs : option headers) (w : world) :
  (forall r, passed = Some r -> nth r (heap w) [] = []) ->
  encodable (ApiKeyAuthProvider.api_secret provider) = true ->
  exists nonce rq w',
    NonceGenerator.generate_at (mktime E) (clock E (reads w)) = Ok nonce
    /\ HttpClient.post E (Some provider) url passed hdrs w
       = (HttpClient.receive (transport E rq), w')
    /\ sent w' = (sent w ++ [rq])%list
    /\ rq_data rq = UrlEncoded []
    /\ headers_get (rq_headers rq) "sign"
       = Some (HmacSha512Hex (ApiKeyAuthProvider.api_secret provider)
                 (UrlEncoded [("nonce", VStr (Decimal_str nonce))])).
Proof.
  intros Hd Hsec.
  destruct (generate_runs E w) as (nonce & Hg & _).
  pose proof (post_runs E provider url passed hdrs w nonce Hg) as Hp.
  assert (Hs : signing_target passed (heap w)
               = (List.length (heap w), (heap w ++ [[]])%list)).
  { unfold signing_target. destruct passed as [r|]; [|reflexivity].
    now rewrite (Hd r eq_refl). }
  rewrite Hs in Hp. cbv beta iota zeta in Hp.
  assert (Hs' : signing_target (Some (List.length (heap w))) (heap w ++ [[]])%list
                = (S (List.length (heap w)), ((heap w ++ [[]]) ++ [[]])%list)).
  { unfold signing_target. rewrite nth_length_app, length_app. simpl.
    now rewrite Nat.add_1_r. }
  rewrite Hs' in Hp. cbv beta iota zeta in Hp.
  assert (Hq : nth (S (List.length (heap w))) ((heap w ++ [[]]) ++ [[]])%list []
               = ([] : params)).
  { replace (S (List.length (heap w))) with (List.length (heap w ++ [[]])%list)
      by (rewrite length_app; simpl; lia).
    apply nth_length_app. }
  rewrite Hq in Hp.
  rewrite nth_set_nth_same in Hp by (rewrite !length_app; simpl; lia).
  rewrite nth_set_nth_other in Hp by lia.
  rewrite app_nth1 in Hp by (rewrite length_app; simpl; lia).
  rewrite nth_length_app in Hp.
  rewrite (signed_headers_encodable provider _
             (with_nonce_encodable [] nonce eq_refl) Hsec) in Hp.
  change (urlencode []) with (Ok (UrlEncoded [])) in Hp.
  eexists nonce, _, _. split; [exact Hg|]. split; [exact Hp|].
  cbn [sent rq_data rq_headers].
  repeat (split; [reflexivity|]).
  apply merged_headers_get.
Qed.

Lemma post_without_parameters_witness :
  exists nonce rq w',
    NonceGenerator.generate_at (mktime sample_env) (clock sample_env (reads empty_world))
    = Ok nonce
    /\ HttpClient.post sample_env (Some sample_provider) "https://api.zaif.jp/tapi"
         None None empty_world
       = (HttpClient.receive (transport sample_env rq), w')
    /\ sent w' = (sent empty_world ++ [rq])%list
    /\ rq_data rq = UrlEncoded []
    /\ headers_get (rq_headers rq) "sign"
       = Some (HmacSha512Hex (ApiKeyAuthProvider.api_secret sample_provider)
                 (UrlEncoded [("nonce", VStr (Decimal_str nonce))])).
Proof.
  apply (post_without_parameters_signs_another_body sample_env sample_provider
           "https://api.zaif.jp/tapi" None None empty_world).
  - intros r H. discriminate H.
  - vm_compute. reflexivity.
Defined.

(** ** The facades: what is posted *)

Lemma params_get_set_same (d : params) (k : string) (v : pval) :
  params_get (params_set d k v) k = Some v.
Proof.
  induction d as [|[k' v'] d IH]; simpl.
  - now rewrite String.eqb_refl.
  - destruct (String.eqb k' k) eqn:Hk; simpl; rewrite Hk; [reflexivity | exact IH].
Qed.

Lemma params_get_set_other (d : params) (k k' : string) (v : pval) :
  k' <> k -> params_get (params_set d k v) k' = params_get d k'.
Proof.
  intros Hn. induction d as [|[k0 v0] d IH]; simpl.
  - apply not_eq_sym, String.eqb_neq in Hn. now rewrite Hn.
  - destruct (String.eqb k0 k) eqn:Hk; simpl; [|now rewrite IH].
    apply String.eqb_eq in Hk. subst k0.
    apply not_eq_sym, String.eqb_neq in Hn. now rewrite Hn.
Qed.

Lemma params_set_nonempty (d : params) (k : string) (v : pval) :
  params_set d k v <> [].
Proof.
  destruct d as [|[k' v'] d]; simpl; [discriminate|].
  destruct (String.eqb k' k); discriminate.
Qed.

Lemma set_some_encodable (k : string) (x : option Z) (d : params) :
  encodable k = true -> params_encodable d = true ->
  params_encodable (set_some k x d) = true.
Proof.
  intros Hk Hd. destruct x as [z|]; [|exact Hd].
  now apply params_set_encodable.
Qed.

Lemma set_pair_encodable (currency_pair : option string) (d : params) :
  (forall s, currency_pair = Some s -> encodable s = true) ->
  params_encodable d = true ->
  params_encodable (set_pair currency_pair d) = true.
Proof.
  intros Hs Hd. destruct currency_pair as [[|c s]|]; try exact Hd.
  apply params_set_encodable; [exact Hd | reflexivity | now apply Hs].
Qed.

(** What a facade call does with a parameter dictionary that names its
    method: one request, to the URL of the private API. *)
Lemma facade_post_runs (E : env) (api : ZaifApi) (provider : ApiKeyAuthProvider.t)
    (d : params) (name : string) (w : world) :
  auth_provider api = Some provider ->
  encodable (ApiKeyAuthProvider.api_secret provider) = true ->
  params_encodable d = true ->
  encodable name = true ->
  exists nonce rq w',
    NonceGenerator.generate_at (mktime E) (clock E (reads w)) = Ok nonce
    /\ facade_post E api (params_set d "method" (VStr name)) w
       = (HttpClient.receive (transport E rq), w')
    /\ sent w' = (sent w ++ [rq])%list
    /\ rq_url rq = trade_api_url api
    /\ rq_data rq
       = UrlEncoded (params_set (params_set d "method" (VStr name)) "nonce"
                       (VStr (Decimal_str nonce))).
Proof.
  intros Ha Hsec Hd Hname.
  destruct (generate_runs E w) as (nonce & Hg & _).
  unfold facade_post, mbind, new_dict. rewrite Ha.
  set (D := params_set d "method" (VStr name)).
  assert (HD : params_encodable D = true)
    by (apply params_set_encodable; [exact Hd | reflexivity | exact Hname]).
  set (w1 := World _ _ _ _).
  pose proof (post_runs E provider (trade_api_url api)
                (Some (List.length (heap w))) None w1 nonce Hg) as Hp.
  assert (Hn : nth (List.length (heap w)) (heap w1) [] = D).
  { subst w1. cbn [heap]. apply nth_length_app. }
  assert (Hs : signing_target (Some (List.length (heap w))) (heap w1)
               = (List.length (heap w), heap w1)).
  { unfold signing_target. rewrite Hn.
    destruct D eqn:HD'; [|reflexivity].
    exfalso. exact (params_set_nonempty d "method" (VStr name) HD'). }
  rewrite Hs in Hp. cbv beta iota zeta in Hp.
  rewrite Hs in Hp. cbv beta iota zeta in Hp.
  rewrite nth_set_nth_same in Hp
    by (subst w1; cbn [heap]; rewrite length_app; simpl; lia).
  rewrite Hn in Hp.
  rewrite (signed_headers_encodable provider _ (with_nonce_encodable _ nonce HD) Hsec),
    (urlencode_encodable _ (with_nonce_encodable _ nonce HD)) in Hp.
  eexists nonce, _, _. split; [exact Hg|]. split; [exact Hp|].
  cbn [sent rq_url rq_data]. repeat split.
Qed.

Lemma posts_method_bind {A : Type} (E : env) (api : ZaifApi)
    (provider : ApiKeyAuthProvider.t) (d : params) (name : string)
    (k : pyobj -> M A) (w : world) :
  auth_provider api = Some provider ->
  encodable (ApiKeyAuthProvider.api_secret provider) = true ->
  params_encodable d = true ->
  encodable name = true ->
  (forall v w0, sent (snd (k v w0)) = sent w0) ->
  posts_method E (mbind (facade_post E api (params_set d "method" (VStr name))) k) w
    (trade_api_url api) name.
Proof.
  intros Ha Hsec Hd Hname Hk.
  destruct (facade_post_runs E api provider d name w Ha Hsec Hd Hname)
    as (nonce & rq & w' & Hg & Hp & Hs & Hu & Hdata).
  exists nonce, (params_set (params_set d "method" (VStr name)) "nonce"
                   (VStr (Decimal_str nonce))), rq.
  split; [exact Hg|]. split.
  - unfold mbind. rewrite Hp.
    destruct (HttpClient.receive (transport E rq)) as [v|e]; cbn [snd].
    + now rewrite Hk.
    + exact Hs.
  - split; [exact Hu|]. split; [exact Hdata|]. split.
    + rewrite params_get_set_other by discriminate. apply params_get_set_same.
    + apply params_get_set_same.
Qed.

Lemma lift_sent {A : Type} (r : result A) (w : world) : sent (snd (lift r w)) = sent w.
Proof. reflexivity. Qed.

Lemma run_report_sent {A : Type} (r : report A) (w : world) :
  sent (snd (run_report r w)) = sent w.
Proof. reflexivity. Qed.

(** X4.  With credentials whose secret UTF-8 can encode, every call of the
    account and trade facades whose text arguments can be encoded hands
    exactly one request to the transport, whatever the remote end then
    answers: a POST to the URL of the private API whose form carries the
    name of the API method under [method] and the text of the nonce of the
    one clock reading under [nonce].  No optional argument can displace
    either.  ([open_order] gets this far when price and amount convert to
    [float].) *)
Theorem private_calls_name_their_method
    (E : env) (api : ZaifApi) (provider : ApiKeyAuthProvider.t) (w : world) :
  auth_provider api = Some provider ->
  encodable (ApiKeyAuthProvider.api_secret provider) = true ->
  let url := trade_api_url api in
  posts_method E (AccountApi.get_info E api) w url "get_info"
  /\ posts_method E (AccountApi.get_personal_info E api) w url "get_personal_info"
  /\ (forall currency count from_timestamp end_timestamp,
        encodable currency = true ->
        posts_method E
          (AccountApi.get_deposit_history E api currency count from_timestamp end_timestamp)
          w url "deposit_history")
  /\ (forall currency count from_timestamp end_timestamp,
        encodable currency = true ->
        posts_method E
          (AccountApi.get_withdraw_history E api currency count from_timestamp end_timestamp)
          w url "withdraw_history")
  /\ (forall currency_pair action price amount p a,
        encodable currency_pair = true -> encodable action = true ->
        py_float price = Ok p -> py_float amount = Ok a ->
        posts_method E (TradeApi.open_order E api currency_pair action price amount)
          w url "trade")
  /\ (forall order_id currency_pair is_token,
        (forall s, currency_pair = Some s -> encodable s = true) ->
        posts_method E (TradeApi.cancel_order E api order_id currency_pair is_token)
          w url "cancel_order")
  /\ (forall currency_pair,
        (forall s, currency_pair = Some s -> encodable s = true) ->
        posts_method E (TradeApi.get_active_orders E api currency_pair) w url
          "active_orders")
  /\ (forall currency_pair count from_timestamp end_timestamp,
        (forall s, currency_pair = Some s -> encodable s = true) ->
        posts_method E
          (TradeApi.get_trade_history E api currency_pair count from_timestamp
             end_timestamp)
          w url "trade_history").
Proof.
  intros Ha Hsec url. subst url.
  assert (Hcur : forall currency, encodable currency = true ->
                   params_encodable [("currency", VStr currency)] = true).
  { intros currency H. cbn [params_encodable]. now rewrite H. }
  repeat split; intros.
  - apply (posts_method_bind E api provider [] "get_info"); try assumption;
      reflexivity.
  - apply (posts_method_bind E api provider [] "get_personal_info"); try assumption;
      reflexivity.
  - unfold AccountApi.get_deposit_history.
    apply (posts_method_bind E api provider); try assumption; try reflexivity.
    repeat apply set_some_encodable; try reflexivity. now apply Hcur.
  - unfold AccountApi.get_withdraw_history.
    apply (posts_method_bind E api provider); try assumption; try reflexivity.
    repeat apply set_some_encodable; try reflexivity. now apply Hcur.
  - unfold TradeApi.open_order.
    match goal with
    | Hp : py_float price = Ok _, Hq : py_float amount = Ok _ |- _ =>
        unfold mbind at 1; unfold lift at 1; rewrite Hp;
        unfold mbind at 1; unfold lift at 1; rewrite Hq
    end.
    change (posts_method E
              (mbind (facade_post E api
                        (params_set
                           [("currency_pair", VStr currency_pair); ("action", VStr action);
                            ("price", VFloat p); ("amount", VFloat a)]
                           "method" (VStr "trade")))
                     (fun data => lift (OrderResponse.from_dict data)))
              w (trade_api_url api) "trade").
    apply (posts_method_bind E api provider); try assumption; try reflexivity.
    cbn [params_encodable].
    repeat match goal with H : encodable _ = true |- _ => rewrite H; clear H end.
    reflexivity.
  - unfold TradeApi.cancel_order.
    apply (posts_method_bind E api provider); try assumption; try reflexivity.
    destruct is_token as [b|];
      [apply params_set_encodable; try reflexivity|];
      now apply set_pair_encodable.
  - unfold TradeApi.get_active_orders.
    apply (posts_method_bind E api provider); try assumption; try reflexivity.
    now apply set_pair_encodable.
  - unfold TradeApi.get_trade_history.
    apply (posts_method_bind E api provider); try assumption; try reflexivity.
    repeat apply set_some_encodable; try reflexivity. now apply set_pair_encodable.
Qed.

Lemma private_calls_witness :
  posts_method sample_env
    (TradeApi.cancel_order sample_env sample_api 184 (Some "btc_jpy") None)
    empty_world "https://api.zaif.jp/tapi" "cancel_order".
Proof.
  refine (proj1 (proj2 (proj2 (proj2 (proj2 (proj2
           (private_calls_name_their_method sample_env sample_api sample_provider
              empty_world eq_refl _)))))) 184 (Some "btc_jpy") None _).
  - vm_compute. reflexivity.
  - intros s H. injection H as <-. vm_compute. reflexivity.
Defined.

(** ** Keyed collections: what is kept, what is reported, what escapes *)

Lemma parsed_warnings_length {A : Type} (what : string)
    (parse : string -> pydict -> result A) (l : list (string * pydict)) :
  (List.length (parsed parse l) + List.length (warnings what parse l)
   = List.length l)%nat.
Proof.
  induction l as [|[key item] rest IH]; simpl; [reflexivity|].
  destruct (parse key item); simpl; lia.
Qed.


Lemma report_Ok {A B : Type} (r : report (list A)) (f : list A -> B) (x : B) :
  (l <- outcome r ;; Ok (f l)) = Ok x -> exists l, outcome r = Ok l /\ x = f l.
Proof.
  destruct (outcome r) as [l|e]; simpl; intros H; [|discriminate].
  injection H as <-. eauto.
Qed.


(** X5.  When [from_dict] of [DepositRecords], [WithdrawalRecords] or
    [TradeExecutionList] returns, every mapping entry of the response is
    accounted for: the items are the entries that parse, in the order of
    the response, and one warning line has been printed for each entry that
    does not, in the same order; so the number of items and the number of
    warning lines add up to the number of mapping entries.  (Entries that
    are not mappings are skipped without a word.) *)
Theorem keyed_collections_account_for_every_entry :
  (forall d r,
      outcome (DepositRecords.from_dict (PDict d)) = Ok r ->
      DepositRecords.items r = parsed DepositRecords.parse_item (mapping_entries d)
      /\ stdout (DepositRecords.from_dict (PDict d))
         = warnings "deposit" DepositRecords.parse_item (mapping_entries d)
      /\ (List.length (DepositRecords.items r)
          + List.length (stdout (DepositRecords.from_dict (PDict d)))
          = List.length (mapping_entries d))%nat)
  /\ (forall d r,
      outcome (WithdrawalRecords.from_dict (PDict d)) = Ok r ->
      WithdrawalRecords.items r = parsed WithdrawalRecords.parse_item (mapping_entries d)
      /\ stdout (WithdrawalRecords.from_dict (PDict d))
         = warnings "withdraw" WithdrawalRecords.parse_item (mapping_entries d)
      /\ (List.length (WithdrawalRecords.items r)
          + List.length (stdout (WithdrawalRecords.from_dict (PDict d)))
          = List.length (mapping_entries d))%nat)
  /\ (forall tz d r,
      outcome (TradeExecutionList.from_dict tz (PDict d)) = Ok r ->
      TradeExecutionList.executions r
      = parsed (TradeExecutionList.parse_item tz) (mapping_entries d)
      /\ stdout (TradeExecutionList.from_dict tz (PDict d))
         = warnings "trade" (TradeExecutionList.parse_item tz) (mapping_entries d)
      /\ (List.length (TradeExecutionList.executions r)
          + List.length (stdout (TradeExecutionList.from_dict tz (PDict d)))
          = List.length (mapping_entries d))%nat).
Proof.
  repeat apply conj; intros;
    match goal with
    | H : outcome _ = Ok _ |- _ =>
        cbn [DepositRecords.from_dict WithdrawalRecords.from_dict
             TradeExecutionList.from_dict as_dict outcome stdout] in *;
        apply report_Ok in H as (l & Hl & ->);
        destruct (keyed_items_parsed _ _ _ _ Hl) as [-> ->]
    end;
    cbn [DepositRecords.items WithdrawalRecords.items TradeExecutionList.executions];
    (split; [reflexivity|]); (split; [reflexivity|]);
    apply parsed_warnings_length.
Qed.

Lemma keyed_collections_witness :
  DepositRecords.items
    (DepositRecords.Build
       [DepositRecords.Item 1 1435745065 (PStr "12qwQ3sP") (Finite false 5 (-1))
          (PStr "64dcf595");
        DepositRecords.Item 3 1435745065 (PStr "12qwQ3sP") (Finite false 15 (-1))
          (PStr "64dcf595")])
  = parsed DepositRecords.parse_item
      (mapping_entries
         [("1", good_entry "0.5");
          ("2", PDict [("timestamp", PStr "soon"); ("amount", PStr "1")]);
          ("3", good_entry "1.5")])
  /\ stdout (DepositRecords.from_dict bad_timestamp_response)
     = warnings "deposit" DepositRecords.parse_item
         (mapping_entries
            [("1", good_entry "0.5");
             ("2", PDict [("timestamp", PStr "soon"); ("amount", PStr "1")]);
             ("3", good_entry "1.5")])
  /\ (2 + List.length (stdout (DepositRecords.from_dict bad_timestamp_response))
      = 3)%nat.
Proof.
  apply (proj1 keyed_collections_account_for_every_entry
           [("1", good_entry "0.5");
            ("2", PDict [("timestamp", PStr "soon"); ("amount", PStr "1")]);
            ("3", good_entry "1.5")]).
  vm_compute. reflexivity.
Defined.













(** ** [OpenOrderList.from_dict]: keys that are not order ids *)



(** ** Round trips of the remaining records *)

Lemma TradeHistory_items (l : list TradeHistory.TradeHistoryItem) :
  mapM TradeHistory.item_of (map TradeHistory.item_to l) = Ok l.
Proof.
  induction l as [|[d p a ty] l IH]; [reflexivity|].
  cbn [map mapM]. rewrite IH.
  unfold TradeHistory.item_of, TradeHistory.item_to.
  cbn -[Decimal_of_obj Decimal_str].
  rewrite !Decimal_of_obj_str. reflexivity.
Qed.

(** X8.  For [Currency], [LastPrice], [TradeHistory], [WithdrawalResult]
    and [UserIdentification], [from_dict(to_dict(x))] succeeds and rebuilds
    [x] field for field, for every [x].  A [UserIdentification] is rebuilt
    alike from the dictionary itself and from the dictionary wrapped as the
    [user] member of a response. *)
Theorem round_trip_further_records :
  (forall x, Currency.from_dict (Currency.to_dict x) = Ok x)
  /\ (forall x, LastPrice.from_dict (LastPrice.to_dict x) = Ok x)
  /\ (forall x, TradeHistory.from_dict (TradeHistory.to_dict x) = Ok x)
  /\ (forall x, WithdrawalResult.from_dict (WithdrawalResult.to_dict x) = Ok x)
  /\ (forall x, UserIdentification.from_dict (UserIdentification.to_dict x) = Ok x)
  /\ (forall x, UserIdentification.from_dict
                  (PDict [("user", UserIdentification.to_dict x)]) = Ok x).
Proof.
  repeat apply conj.
  - intros [n tok]. reflexivity.
  - intros [p]. unfold LastPrice.from_dict, LastPrice.to_dict.
    cbn -[Decimal_of_obj Decimal_str].
    now rewrite Decimal_of_obj_str.
  - intros [l]. unfold TradeHistory.from_dict, TradeHistory.to_dict.
    cbn -[mapM TradeHistory.item_of TradeHistory.item_to].
    now rewrite TradeHistory_items.
  - intros [t b]. unfold WithdrawalResult.from_dict, WithdrawalResult.to_dict.
    cbn -[decimal_values str_values].
    now rewrite decimal_values_str_values.
  - intros [i em n k []]; reflexivity.
  - intros [i em n k []]; reflexivity.
Qed.

(** ** [UserProfile] *)

(** X9.  [UserProfile] does not survive [from_dict(to_dict(x))]: [to_dict]
    writes the nickname under [nickname], while [from_dict] reads it from
    [ranking_nickname], so the nickname always comes back as the empty
    string (and an icon path of [None] as the empty string); the other two
    fields are rebuilt. *)
Theorem UserProfile_round_trip_loses_the_nickname (x : UserProfile.t) :
  UserProfile.from_dict (UserProfile.to_dict x)
  = Ok (UserProfile.Build (UserProfile.ranking_id x)
          (match UserProfile.icon_path x with
           | PNone => PStr ""
           | p => p
           end)
          (UserProfile.area_id x) (PStr "")).
Proof. destruct x as [r i a n]. reflexivity. Qed.

(** X10.  Whatever the response, a [UserProfile] that [from_dict] returns
    never has [None] as its icon path: a missing [icon_path] and one that is
    [null] both become the empty string. *)
Theorem UserProfile_icon_path_is_never_None (data : pyobj) (x : UserProfile.t) :
  UserProfile.from_dict data = Ok x ->
  UserProfile.icon_path x <> PNone
  /\ (forall d, data = PDict d ->
        dict_get d "icon_path" = None \/ dict_get d "icon_path" = Some PNone ->
        UserProfile.icon_path x = PStr "").
Proof.
  unfold UserProfile.from_dict. intros H. bind_inv H. injection H as <-.
  cbn [UserProfile.icon_path]. split.
  - destruct (dict_get_default a "icon_path" (PStr "")); discriminate.
  - intros d -> Hd. injection Ha as <-. unfold dict_get_default.
    destruct Hd as [-> | ->]; reflexivity.
Qed.

Lemma UserProfile_icon_path_witness :
  UserProfile.icon_path (UserProfile.Build (PStr "") (PStr "") 0 (PStr "taro"))
  <> PNone
  /\ (forall d,
        PDict [("ranking_nickname", PStr "taro"); ("icon_path", PNone)] = PDict d ->
        dict_get d "icon_path" = None \/ dict_get d "icon_path" = Some PNone ->
        UserProfile.icon_path (UserProfile.Build (PStr "") (PStr "") 0 (PStr "taro"))
        = PStr "").
Proof.
  apply (UserProfile_icon_path_is_never_None
           (PDict [("ranking_nickname", PStr "taro"); ("icon_path", PNone)])).
  reflexivity.
Defined.

(** ** The allow-list on results *)

Lemma mbind_Ok {A B : Type} (m : M A) (k : A -> M B) (w w' : world) (b : B) :
  mbind m k w = (Ok b, w') ->
  exists a w1, m w = (Ok a, w1) /\ k a w1 = (Ok b, w').
Proof.
  unfold mbind. destruct (m w) as [[a|e] w1]; [eauto | discriminate].
Qed.

Lemma Forall_filter {A : Type} (f : A -> bool) (l : list A) :
  Forall (fun x => f x = true) (filter f l).
Proof. apply Forall_forall. intros x Hx. now apply filter_In in Hx. Qed.

(** X11.  Whatever the exchange reports, [get_open_orders] and
    [get_trade_executions] return records of the three supported pairs
    only: an order or an execution whose [currency_pair] is not the string
    [btc_jpy], [eth_jpy] or [xym_jpy] is dropped from the result. *)
Theorem handlers_return_supported_pairs_only (E : env) (api : ZaifApi) (w : world) :
  (forall currency_pair r w',
      Tools.get_open_orders E api currency_pair w = (Ok r, w') ->
      Forall (fun kv => Tools.supported (OpenOrderList.currency_pair (snd kv)) = true)
             (OpenOrderList.open_orders r))
  /\ (forall currency_pair limit start_date end_date r w',
      Tools.get_trade_executions E api currency_pair limit start_date end_date w
      = (Ok r, w') ->
      Forall (fun x => Tools.supported (TradeExecutionList.currency_pair x) = true)
             (TradeExecutionList.executions r)).
Proof.
  split.
  - intros cp r w' H. unfold Tools.get_open_orders in H.
    apply mbind_Ok in H as (? & w1 & _ & H).
    apply mbind_Ok in H as (orders & w2 & _ & H).
    injection H as <- _. apply Forall_filter.
  - intros cp limit s e r w' H. unfold Tools.get_trade_executions in H.
    apply mbind_Ok in H as (? & w1 & _ & H).
    apply mbind_Ok in H as (? & w2 & _ & H).
    apply mbind_Ok in H as (f & w3 & _ & H).
    apply mbind_Ok in H as (t & w4 & _ & H).
    apply mbind_Ok in H as (th & w5 & _ & H).
    injection H as <- _.
    apply (Forall_filter (fun x => Tools.supported (TradeExecutionList.currency_pair x))).
Qed.

Lemma handlers_return_supported_pairs_witness :
  Forall (fun kv => Tools.supported (OpenOrderList.currency_pair (snd kv)) = true)
         (OpenOrderList.open_orders
            (OpenOrderList.Build
               [(184, OpenOrderList.Order (PStr "btc_jpy") (PStr "bid")
                        (Finite false 5000000 0) (Finite false 1 (-2))
                        "2023-11-15T07:13:20")])).
Proof.
  apply (proj1 (handlers_return_supported_pairs_only orders_env sample_api empty_world)
           None _
           (snd (Tools.get_open_orders orders_env sample_api None empty_world))).
  vm_compute. reflexivity.
Defined.

(** ** The public side *)

Lemma gbind_Ok {A B : Type} (m : G A) (k : A -> G B)
    (log log' : list get_request) (b : B) :
  gbind m k log = (Ok b, log') ->
  exists a log1, m log = (Ok a, log1) /\ k a log1 = (Ok b, log').
Proof.
  unfold gbind. destruct (m log) as [[a|e] log1]; [eauto | discriminate].
Qed.

Lemma get_Ok (E : get_env) (url : string) (query : option params)
    (log log' : list get_request) (data : pyobj) :
  HttpClient_get E url query log = (Ok data, log') ->
  get_transport E (GetRequest url query) = Json data
  /\ log' = (log ++ [GetRequest url query])%list.
Proof.
  unfold HttpClient_get. intros H. injection H as H <-. split; [|reflexivity].
  destruct (get_transport E (GetRequest url query)) as [body| | | | | |e0];
    simpl in H; try discriminate.
  - now injection H as ->.
  - destruct (is_ValueError (exn_cls e0)); discriminate.
Qed.

(** X12.  When [get_currency_pairs] returns, it has sent one request, a
    GET without parameters for the full listing
    [<base>/1/currency_pairs/all]; the answer was a JSON value whose
    elements all parse as currency pairs; and the result is that listing,
    in the order of the answer, without the pairs whose [currency_pair] is
    not the string [btc_jpy], [eth_jpy] or [xym_jpy].  So every pair
    returned is a supported one. *)
Theorem get_currency_pairs_filters_the_listing
    (E : get_env) (base_url : string) (log log' : list get_request)
    (r : list CurrencyPair.t) :
  MarketTools.get_currency_pairs E base_url log = (Ok r, log') ->
  let rq := GetRequest (base_url ++ "/1/currency_pairs/all") None in
  log' = (log ++ [rq])%list
  /\ Forall (fun p => Tools.supported (CurrencyPair.currency_pair p) = true) r
  /\ exists data items all_pairs,
       get_transport E rq = Json data
       /\ py_iter data = Ok items
       /\ mapM CurrencyPair.from_dict items = Ok all_pairs
       /\ r = filter (fun p => Tools.supported (CurrencyPair.currency_pair p))
                     all_pairs.
Proof.
  intros H rq. unfold MarketTools.get_currency_pairs in H.
  apply gbind_Ok in H as (all_pairs & log1 & H & Hr).
  injection Hr as <- <-.
  unfold MarketApi.get_currency_pairs in H. cbn [String.eqb Ascii.eqb Bool.eqb] in H.
  apply gbind_Ok in H as (data & log2 & Hget & H).
  apply get_Ok in Hget as [Ht ->].
  unfold glift in H. injection H as H <-.
  apply bind_Ok in H as (items & Hi & Hm).
  split; [reflexivity|]. split; [apply Forall_filter|].
  exists data, items, all_pairs. repeat split; assumption.
Qed.

Lemma get_currency_pairs_witness :
  let rq := GetRequest ("https://api.zaif.jp/api" ++ "/1/currency_pairs/all") None in
  [rq] = ([] ++ [rq])%list
  /\ Forall (fun p => Tools.supported (CurrencyPair.currency_pair p) = true)
            [sample_pair]
  /\ exists data items all_pairs,
       get_transport sample_get_env rq = Json data
       /\ py_iter data = Ok items
       /\ mapM CurrencyPair.from_dict items = Ok all_pairs
       /\ [sample_pair]
          = filter (fun p => Tools.supported (CurrencyPair.currency_pair p)) all_pairs.
Proof.
  apply (get_currency_pairs_filters_the_listing sample_get_env
           "https://api.zaif.jp/api" [] _ [sample_pair]).
  vm_compute. reflexivity.
Defined.

(** ** [get_price_chart] *)



